(** * CNES scene processing (Pleiades / SPOT) : a shallow embedding

The development follows [src/cnes/dataset.py], [src/cnes/pleiades.py]
and [src/cnes/spot.py].

- Python [str] values are [string]s (ASCII code points).
- [os.path] is [posixpath]; its functions are transcribed from the
  CPython sources ([posixpath.py], [genericpath.py]).
- The four regular expressions of the program are sequences of
  counted character classes; [re.search] on them is a leftmost scan.
- [datetime.strptime] is the backtracking match of CPython's
  [_strptime] directive table followed by the range checks of the
  [datetime] constructor.
- File system, archive extractor, [glob], the ROI resolver and the
  raster engine (OTB) are collaborators: the file system is a set of
  existing paths, the others are fields of the class [Collaborators].
- Methods with effects live in the monad [M]: a state (file system and
  trace of observable calls) threaded through, and Python exceptions
  as [Raise]. *)

From Stdlib Require Import ZArith QArith.QArith_base Ascii String.
From stdpp Require Import gmap strings list pretty.

Local Open Scope Z_scope.

(** ** Python strings *)

Module Str.

Definition is_digit (c : ascii) : bool :=
  ((48 <=? nat_of_ascii c) && (nat_of_ascii c <=? 57))%nat.

Definition in_range (lo hi c : ascii) : bool :=
  ((nat_of_ascii lo <=? nat_of_ascii c) && (nat_of_ascii c <=? nat_of_ascii hi))%nat.

Fixpoint mem (c : ascii) (s : string) : bool :=
  match s with
  | EmptyString => false
  | String a s' => Ascii.eqb a c || mem c s'
  end.

Fixpoint take (n : nat) (s : string) : string :=
  match n, s with
  | S k, String a s' => String a (take k s')
  | _, _ => EmptyString
  end.

Fixpoint drop (n : nat) (s : string) : string :=
  match n, s with
  | S k, String _ s' => drop k s'
  | _, _ => s
  end.

(** [s.startswith(p)] *)
Fixpoint startswith (p s : string) : bool :=
  match p, s with
  | EmptyString, _ => true
  | String a p', String b s' => Ascii.eqb a b && startswith p' s'
  | String _ _, EmptyString => false
  end.

(** [s.endswith(c)] for a one-character suffix. *)
Fixpoint endswith_char (c : ascii) (s : string) : bool :=
  match s with
  | EmptyString => false
  | String a EmptyString => Ascii.eqb a c
  | String _ s' => endswith_char c s'
  end.

(** [s.rfind(c) + 1]: one past the last occurrence of [c], [0] when there
    is none. *)
Fixpoint rfind_succ (c : ascii) (s : string) : nat :=
  match s with
  | EmptyString => O
  | String a s' =>
      match rfind_succ c s' with
      | O => if Ascii.eqb a c then 1%nat else O
      | S k => S (S k)
      end
  end.

(** [s.lstrip(c)], [s.rstrip(c)], [s.strip(c)] for a one-character set. *)
Fixpoint lstrip (c : ascii) (s : string) : string :=
  match s with
  | EmptyString => EmptyString
  | String a s' => if Ascii.eqb a c then lstrip c s' else s
  end.

Fixpoint rstrip (c : ascii) (s : string) : string :=
  match s with
  | EmptyString => EmptyString
  | String a s' =>
      match rstrip c s' with
      | EmptyString => if Ascii.eqb a c then EmptyString else String a EmptyString
      | r => String a r
      end
  end.

Definition strip (c : ascii) (s : string) : string := rstrip c (lstrip c s).

(** [s.replace(old, new)] for a non-empty [old]: every occurrence, left
    to right, without overlap.  [skip] counts the characters of a
    replaced occurrence that are still to be passed over. *)
Fixpoint replace_from (old new : string) (skip : nat) (s : string) : string :=
  match s with
  | EmptyString => EmptyString
  | String a s' =>
      match skip with
      | S k => replace_from old new k s'
      | O =>
          if startswith old s
          then new +:+ replace_from old new (String.length old - 1) s'
          else String a (replace_from old new O s')
      end
  end.

Definition replace (old new s : string) : string := replace_from old new O s.

Definition upper_char (c : ascii) : ascii :=
  if in_range "a" "z" c then ascii_of_nat (nat_of_ascii c - 32) else c.

Fixpoint upper (s : string) : string :=
  match s with
  | EmptyString => EmptyString
  | String a s' => String (upper_char a) (upper s')
  end.

Fixpoint all_chars (p : ascii → bool) (s : string) : bool :=
  match s with
  | EmptyString => true
  | String a s' => p a && all_chars p s'
  end.

(** [int(s)] on a string of decimal digits. *)
Definition digit_val (c : ascii) : Z := Z.of_nat (nat_of_ascii c) - 48.

Fixpoint int_from (acc : Z) (s : string) : Z :=
  match s with
  | EmptyString => acc
  | String a s' => int_from (10 * acc + digit_val a) s'
  end.

Definition int (s : string) : Z := int_from 0 s.

(** The decimal digit of a number below ten, and zero-padded fields. *)
Definition digit_char (d : Z) : ascii := ascii_of_nat (Z.to_nat (d + 48)).

Definition pad2 (n : Z) : string :=
  String (digit_char (n / 10 mod 10)) (String (digit_char (n mod 10)) EmptyString).

Definition pad4 (n : Z) : string :=
  String (digit_char (n / 1000 mod 10)) (String (digit_char (n / 100 mod 10)) (pad2 n)).

Definition pad6 (n : Z) : string :=
  String (digit_char (n / 100000 mod 10))
    (String (digit_char (n / 10000 mod 10)) (pad4 n)).

(** Code-point order, as Python compares [str] values. *)
Fixpoint ltb (s t : string) : bool :=
  match s, t with
  | EmptyString, EmptyString => false
  | EmptyString, String _ _ => true
  | String _ _, EmptyString => false
  | String a s', String b t' =>
      if (nat_of_ascii a <? nat_of_ascii b)%nat then true
      else if (nat_of_ascii b <? nat_of_ascii a)%nat then false
      else ltb s' t'
  end.

Fixpoint insert_sorted (x : string) (l : list string) : list string :=
  match l with
  | [] => [x]
  | y :: l' => if ltb y x then y :: insert_sorted x l' else x :: l
  end.

(** [list.sort()] on a list of strings (insertion from the right keeps
    equal elements in their order). *)
Definition sort (l : list string) : list string := foldr insert_sorted [] l.

(** [sub in s] *)
Fixpoint contains (sub s : string) : bool :=
  startswith sub s
  || match s with
     | EmptyString => false
     | String _ s' => contains sub s'
     end.

End Str.

(** ** The regular expressions of the program *)

Module Re.

(** One position of a pattern. *)
Inductive atom :=
| Lit (c : ascii)            (* a literal character *)
| Digit                      (* [\d] *)
| Range (lo hi : ascii)      (* [lo-hi] *)
| OneOf (cs : string).       (* [cs], every character taken literally *)

Definition accepts (a : atom) (c : ascii) : bool :=
  match a with
  | Lit x => Ascii.eqb x c
  | Digit => Str.is_digit c
  | Range lo hi => Str.in_range lo hi c
  | OneOf cs => Str.mem c cs
  end.

(** Match a sequence of atoms at the start of [s]: the matched text and
    the rest. *)
Fixpoint match_here (pat : list atom) (s : string) : option (string * string) :=
  match pat with
  | [] => Some (EmptyString, s)
  | a :: pat' =>
      match s with
      | EmptyString => None
      | String c s' =>
          if accepts a c then
            match match_here pat' s' with
            | Some (m, r) => Some (String c m, r)
            | None => None
            end
          else None
      end
  end.

(** [re.search(pat, s)] : [group(0)] of the leftmost match. *)
Fixpoint search (pat : list atom) (s : string) : option string :=
  match match_here pat s with
  | Some (m, _) => Some m
  | None =>
      match s with
      | EmptyString => None
      | String _ s' => search pat s'
      end
  end.

(** [re.findall(r'\d+', s)] : the maximal runs of digits. *)
Fixpoint findall_digits_from (cur : string) (s : string) : list string :=
  match s with
  | EmptyString => match cur with EmptyString => [] | _ => [cur] end
  | String c s' =>
      if Str.is_digit c then findall_digits_from (cur +:+ String c EmptyString) s'
      else match cur with
           | EmptyString => findall_digits_from EmptyString s'
           | _ => cur :: findall_digits_from EmptyString s'
           end
  end.

Definition findall_digits (s : string) : list string :=
  findall_digits_from EmptyString s.

(** ['_[0-9]{15}_'] *)
Definition timestamp_pattern : list atom :=
  Lit "_" :: repeat (Range "0" "9") 15 ++ [Lit "_"].

(** ['_R[0-9]{1}C[0-9]{1}'] *)
Definition tile_pattern : list atom :=
  [Lit "_"; Lit "R"; Range "0" "9"; Lit "C"; Range "0" "9"].

(** [r'_PHR[\d][A|B]_'] : the class [A|B] holds three characters. *)
Definition pleiades_pattern : list atom :=
  [Lit "_"; Lit "P"; Lit "H"; Lit "R"; Digit; OneOf "A|B"; Lit "_"].

(** [r'_SPOT[\d]_'] *)
Definition spot_pattern : list atom :=
  [Lit "_"; Lit "S"; Lit "P"; Lit "O"; Lit "T"; Digit; Lit "_"].

End Re.

(** ** [os.path] (posixpath) on strings *)

Module os_path.

(** [i = p.rfind('/') + 1; return p[i:]] *)
Definition basename (p : string) : string :=
  Str.drop (Str.rfind_succ "/" p) p.

(** [head = p[:i]; if head and head != '/'*len(head): head = head.rstrip('/')] *)
Definition dirname (p : string) : string :=
  let head := Str.take (Str.rfind_succ "/" p) p in
  if Str.all_chars (Ascii.eqb "/") head then head else Str.rstrip "/" head.

(** [posixpath.join(a, b)] on two strings. *)
Definition join (a b : string) : string :=
  if Str.startswith "/" b then b
  else if (String.eqb a EmptyString || Str.endswith_char "/" a)%bool then a +:+ b
  else a +:+ "/" +:+ b.

(** [genericpath._splitext(p, '/', None, '.')] *)
Definition splitext (p : string) : string * string :=
  let sep := Str.rfind_succ "/" p in
  let dot := Str.rfind_succ "." p in
  if (sep <? dot)%nat then
    (* the name between the separator and the last dot has a character
       that is not a dot *)
    if Str.all_chars (Ascii.eqb ".") (Str.take (dot - 1 - sep) (Str.drop sep p))
    then (p, EmptyString)
    else (Str.take (dot - 1) p, Str.drop (dot - 1) p)
  else (p, EmptyString).

End os_path.

(** ** Python objects and exceptions *)

(** The values that travel through the pipeline: [None], an [int] (the
    NORAD identifier) or a [str] (a path). *)
Inductive pyobj :=
| PyNone
| PyInt (z : Z)
| PyStr (s : string).

Inductive exn :=
| IndexError
| KeyError
| TypeError
| AttributeError
| ValueError
| UnboundLocalError
| RuntimeError.

Inductive outcome (A : Type) :=
| Ok (a : A)
| Raise (e : exn).
Arguments Ok {A} a.
Arguments Raise {A} e.

(** [os.fspath] as the [os.path] functions apply it to their arguments:
    anything but a [str] is a [TypeError]. *)
Definition fspath (o : pyobj) : outcome string :=
  match o with
  | PyStr s => Ok s
  | _ => Raise TypeError
  end.

(** [str(o)], as [str.format] renders a field. *)
Definition py_str (o : pyobj) : string :=
  match o with
  | PyNone => "None"
  | PyInt z => pretty z
  | PyStr s => s
  end.

(** ** [datetime] *)

Module datetime.

Record t := mk {
  year : Z; month : Z; day : Z;
  hour : Z; minute : Z; second : Z; microsecond : Z }.

Definition is_leap (y : Z) : bool :=
  (y mod 4 =? 0) && (negb (y mod 100 =? 0) || (y mod 400 =? 0)).

Definition days_in_month (y m : Z) : Z :=
  if m =? 2 then (if is_leap y then 29 else 28)
  else if (m =? 4) || (m =? 6) || (m =? 9) || (m =? 11) then 30
  else 31.

Definition between (lo x hi : Z) : bool := (lo <=? x) && (x <=? hi).

(** The constructor's range checks ([ValueError] otherwise). *)
Definition make (y m d H M S us : Z) : outcome t :=
  if between 1 y 9999 && between 1 m 12 && between 1 d (days_in_month y m)
     && between 0 H 23 && between 0 M 59 && between 0 S 59
     && between 0 us 999999
  then Ok (mk y m d H M S us)
  else Raise ValueError.

(** The directives used by the program's two format strings. *)
Inductive directive :=
| DY | Dm | Dd | DH | DM | DS | Df
| DLit (c : ascii).

Fixpoint parse_format (fmt : string) : list directive :=
  match fmt with
  | EmptyString => []
  | String "%" (String "Y" r) => DY :: parse_format r
  | String "%" (String "m" r) => Dm :: parse_format r
  | String "%" (String "d" r) => Dd :: parse_format r
  | String "%" (String "H" r) => DH :: parse_format r
  | String "%" (String "M" r) => DM :: parse_format r
  | String "%" (String "S" r) => DS :: parse_format r
  | String "%" (String "f" r) => Df :: parse_format r
  | String c r => DLit c :: parse_format r
  end.

(** CPython's [_strptime.TimeRE]: the alternatives of each directive in
    the order the regular expression tries them. *)
Definition alternatives (d : directive) : list (list Re.atom) :=
  let D := Re.Digit in
  match d with
  | DY => [[D; D; D; D]]
  | Dm => [[Re.Lit "1"; Re.Range "0" "2"]; [Re.Lit "0"; Re.Range "1" "9"]; [Re.Range "1" "9"]]
  | Dd => [[Re.Lit "3"; Re.Range "0" "1"]; [Re.Range "1" "2"; D]; [Re.Lit "0"; Re.Range "1" "9"];
           [Re.Range "1" "9"]; [Re.Lit " "; Re.Range "1" "9"]]
  | DH => [[Re.Lit "2"; Re.Range "0" "3"]; [Re.Range "0" "1"; D]; [D]]
  | DM => [[Re.Range "0" "5"; D]; [D]]
  | DS => [[Re.Lit "6"; Re.Range "0" "1"]; [Re.Range "0" "5"; D]; [D]]
  | Df => map (repeat (Re.Range "0" "9")) [6; 5; 4; 3; 2; 1]%nat
  | DLit c => [[Re.Lit c]]
  end.

(** The backtracking match of a sequence of directives at the start of
    [s]: the text found for each directive, and the unconsumed rest. *)
Fixpoint try_alternatives (k : string → option (list string * string))
    (alts : list (list Re.atom)) (s : string) : option (list string * string) :=
  match alts with
  | [] => None
  | alt :: alts' =>
      match Re.match_here alt s with
      | Some (m, r) =>
          match k r with
          | Some (ms, r') => Some (m :: ms, r')
          | None => try_alternatives k alts' s
          end
      | None => try_alternatives k alts' s
      end
  end.

Fixpoint match_directives (ds : list directive) (s : string)
    : option (list string * string) :=
  match ds with
  | [] => Some ([], s)
  | d :: ds' => try_alternatives (match_directives ds') (alternatives d) s
  end.

(** The fields [_strptime] accumulates, with its defaults. *)
Definition defaults : t := mk 1900 1 1 0 0 0 0.

Definition set_field (d : directive) (text : string) (acc : t) : t :=
  match d with
  | DY => mk (Str.int text) (month acc) (day acc) (hour acc) (minute acc) (second acc) (microsecond acc)
  | Dm => mk (year acc) (Str.int text) (day acc) (hour acc) (minute acc) (second acc) (microsecond acc)
  | Dd => mk (year acc) (month acc) (Str.int text) (hour acc) (minute acc) (second acc) (microsecond acc)
  | DH => mk (year acc) (month acc) (day acc) (Str.int text) (minute acc) (second acc) (microsecond acc)
  | DM => mk (year acc) (month acc) (day acc) (hour acc) (Str.int text) (second acc) (microsecond acc)
  | DS => mk (year acc) (month acc) (day acc) (hour acc) (minute acc) (Str.int text) (microsecond acc)
  | Df =>
      (* [s += "0" * (6 - len(s)); fraction = int(s)] *)
      mk (year acc) (month acc) (day acc) (hour acc) (minute acc) (second acc)
         (Str.int (text +:+ Str.take (6 - String.length text) "000000"))
  | DLit _ => acc
  end.

Fixpoint set_fields (ds : list directive) (texts : list string) (acc : t) : t :=
  match ds, texts with
  | d :: ds', x :: texts' => set_fields ds' texts' (set_field d x acc)
  | _, _ => acc
  end.

(** [datetime.strptime(s, fmt)] *)
Definition strptime (s fmt : string) : outcome t :=
  let ds := parse_format fmt in
  match match_directives ds s with
  | None => Raise ValueError                 (* does not match format *)
  | Some (_, String _ _) => Raise ValueError (* unconverted data remains *)
  | Some (texts, EmptyString) =>
      let f := set_fields ds texts defaults in
      make (year f) (month f) (day f) (hour f) (minute f) (second f) (microsecond f)
  end.

Definition render (dt : t) (d : directive) : string :=
  match d with
  | DY => Str.pad4 (year dt)
  | Dm => Str.pad2 (month dt)
  | Dd => Str.pad2 (day dt)
  | DH => Str.pad2 (hour dt)
  | DM => Str.pad2 (minute dt)
  | DS => Str.pad2 (second dt)
  | Df => Str.pad6 (microsecond dt)
  | DLit c => String c EmptyString
  end.

(** [dt.strftime(fmt)], the year written with four digits. *)
Definition strftime (dt : t) (fmt : string) : string :=
  foldr (λ d acc, render dt d +:+ acc) EmptyString (parse_format fmt).

End datetime.

(** ** The world: file system, engine, trace *)

(** A parameter value given to an OTB application. *)
Inductive param :=
| PString (s : string)
| PStringList (l : list string)
| PInt (z : Z)
| PFloat (q : Q)
| PPixelType (name : string).

(** An [otbApplication] object: its name and the parameters set so far. *)
Record application := mkApp {
  app_name : string;
  app_params : gmap string param }.

(** What a run does to the outside, in order. *)
Inductive event :=
| EvSetenv (key value : string)
| EvOpen (pathname : string)
| EvMakedirs (path : string)
| EvExtractZip (scene path : string)
| EvGlob (pattern : string)
| EvCreateApplication (name : string)
| EvExecute (app : application).

Record World := mkWorld {
  fs : gset string;        (* the paths for which [os.path.exists] holds *)
  trace : list event }.

(** The collaborators of the program, none of which is in the
    repository: [ps.extractZip] (exit code and the file system it leaves),
    [glob.glob], [BBox(coords).getImageRoi] and
    [app.ExecuteAndWriteOutput] ([None] when the engine raises). *)
Class Collaborators := {
  ps_extractZip : string → string → gset string → Z * gset string;
  glob_glob : string → gset string → list string;
  BBox_getImageRoi : list Q → pyobj → outcome (option (list Q));
  otb_execute : application → gset string → option (gset string) }.

(** The file written for an [out] parameter: OTB's extended file name
    without its [?&...] options. *)
Definition out_file (app : application) : option string :=
  match app_params app !! "out" with
  | Some (PString s) =>
      match Str.rfind_succ "?" s with
      | O => Some s
      | S k => Some (Str.take k s)
      end
  | _ => None
  end.

(** The contract of the engine the caching relies on: a successful
    execution leaves the output file in place and removes nothing. *)
Definition engine_persists `{Collaborators} : Prop :=
  ∀ app fs0 fs1, otb_execute app fs0 = Some fs1 →
    fs0 ⊆ fs1 ∧ ∀ p, out_file app = Some p → p ∈ fs1.

(** ** The monad of effectful methods *)

Definition M (A : Type) : Type := World → outcome A * World.

(** Sequencing, for [M] and for [outcome] alike. *)
Class Monad (T : Type → Type) := {
  ret : ∀ {A}, A → T A;
  bind : ∀ {A B}, T A → (A → T B) → T B }.

Notation "x <- m ;; k" := (bind m (λ x, k))
  (at level 20, m at level 19, k at level 200, only parsing).
Notation "' pat <- m ;; k" := (bind m (λ x, match x with pat => k end))
  (at level 20, pat pattern, m at level 19, k at level 200, only parsing).

Global Instance M_monad : Monad M := {
  ret A a := λ w, (Ok a, w);
  bind A B m f := λ w,
    match m w with
    | (Ok a, w') => f a w'
    | (Raise e, w') => (Raise e, w')
    end }.

Global Instance outcome_monad : Monad outcome := {
  ret A a := Ok a;
  bind A B m f :=
    match m with
    | Ok a => f a
    | Raise e => Raise e
    end }.

Definition raise {A} (e : exn) : M A := λ w, (Raise e, w).

Definition skip : M unit := ret tt.

Definition lift {A} (o : outcome A) : M A := λ w, (o, w).

Definition emit (ev : event) : M unit :=
  λ w, (Ok tt, mkWorld (fs w) (trace w ++ [ev])).

(** [d[k]] on a dict and [l[i]] on a list. *)
Definition getitem {A} (d : gmap string A) (k : pyobj) : outcome A :=
  match k with
  | PyStr s => match d !! s with Some v => Ok v | None => Raise KeyError end
  | _ => Raise KeyError
  end.

Definition index {A} (l : list A) (i : nat) : outcome A :=
  match l !! i with
  | Some v => Ok v
  | None => Raise IndexError
  end.

Module os.

Definition path_exists (p : string) : M bool :=
  λ w, (Ok (bool_decide (p ∈ fs w)), w).

(** The non-empty proper prefixes of [p] that end before a separator. *)
Fixpoint parents_from (acc p : string) : list string :=
  match p with
  | EmptyString => []
  | String c p' =>
      (if Ascii.eqb c "/" && negb (String.eqb acc EmptyString) then [acc] else [])
      ++ parents_from (acc +:+ String c EmptyString) p'
  end.

(** [os.makedirs(p)] : the directory and the missing ones above it. *)
Definition makedirs (p : string) : M unit :=
  λ w, (Ok tt, mkWorld (fs w ∪ list_to_set (p :: parents_from EmptyString p))
                       (trace w ++ [EvMakedirs p])).

End os.

Module otb.

(** [otbApplication.Registry.CreateApplication(name)] *)
Definition CreateApplication (name : string) : M application :=
  _ <- emit (EvCreateApplication name);; ret (mkApp name ∅).

Definition set (app : application) (key : string) (v : param) : application :=
  mkApp (app_name app) (<[key := v]> (app_params app)).

(** [app.SetParameterString(key, value)] : the binding takes a [str]. *)
Definition SetParameterString (app : application) (key : string) (v : pyobj)
    : outcome application :=
  match v with
  | PyStr s => Ok (set app key (PString s))
  | _ => Raise TypeError
  end.

(** [with redirect_stdout(log), redirect_stderr(log): app.ExecuteAndWriteOutput()] *)
Definition ExecuteAndWriteOutput `{Collaborators} (app : application) : M unit :=
  λ w, match otb_execute app (fs w) with
       | Some fs' => (Ok tt, mkWorld fs' (trace w ++ [EvExecute app]))
       | None => (Raise RuntimeError, mkWorld (fs w) (trace w ++ [EvExecute app]))
       end.

End otb.

(** The engine executions of a trace. *)
Definition executions (t : list event) : list application :=
  omap (λ ev, match ev with EvExecute a => Some a | _ => None end) t.

Definition makedirs_of (t : list event) : list string :=
  omap (λ ev, match ev with EvMakedirs p => Some p | _ => None end) t.

Definition created (t : list event) : list string :=
  omap (λ ev, match ev with EvCreateApplication n => Some n | _ => None end) t.

(** ** [class Dataset] (dataset.py) *)

(** The keyword arguments of the constructor ([None]: not given). *)
Record kwargs := mkKwargs {
  kw_dem_path : option string;
  kw_geoid_pathname : option string;
  kw_epsg : option Z;
  kw_pan_method : option string;
  kw_roi : option (list Q);
  kw_ram : option Z;
  kw_log : option string }.

(** The attributes of an instance; [_roi] holds the coordinates the
    [BBox] object was built from. *)
Record Dataset := mkDataset {
  _tle : pyobj;
  _platform : pyobj;
  _norad_id : gmap string Z;
  _image_ids : list string;
  _scene : string;
  _datetime : string;
  _dem_path : option string;
  _geoid_pathname : option string;
  _epsg : option Z;
  _pan_method : option string;
  _roi : option (list Q);
  _ram : Z;
  _log : string }.

Module Dataset.

(** [getPlatform(self, scene, exp)] *)
Definition getPlatform (scene : string) (exp : list Re.atom) : pyobj :=
  let filename := os_path.basename scene in
  match Re.search exp filename with
  | Some m => PyStr (Str.strip "_" m)
  | None => PyNone
  end.

(** [getDateTime(self, scene)] *)
Definition getDateTime (scene : string) : outcome (option datetime.t) :=
  let filename := os_path.basename scene in
  match Re.search Re.timestamp_pattern filename with
  | Some m =>
      let value := Str.strip "_" m in
      dt <- datetime.strptime value "%Y%m%d%H%M%S%f";;
      ret (Some dt)
  | None => ret None
  end.

(** [getDateTimeString(self, scene)] : [None.strftime] is an
    [AttributeError]. *)
Definition getDateTimeString (scene : string) : outcome string :=
  dt <- getDateTime scene;;
  match dt with
  | Some dt => ret (datetime.strftime dt "%Y%m%d_%H%M%S")
  | None => Raise AttributeError
  end.

(** [getSubPath(self)] : [os.path.join( self._tle, self._datetime )] *)
Definition getSubPath (self : Dataset) : outcome string :=
  a <- fspath (_tle self);;
  ret (os_path.join a (_datetime self)).

(** [getTile(self, pathname)] *)
Definition getTile (pathname : string) : option string :=
  if String.eqb (Str.upper (os_path.splitext pathname).2) ".TIF" then
    match Re.search Re.tile_pattern (os_path.basename pathname) with
    | Some m => Some (Str.strip "_" m)
    | None => None
    end
  else None.

(** [getTileCoordinates(self, pathname)] *)
Definition getTileCoordinates (pathname : string) : list string :=
  match getTile pathname with
  | Some tile => Re.findall_digits tile
  | None => []
  end.

(** [open(pathname, 'w', buffering=1)] *)
Definition open (pathname : string) : M unit :=
  λ w, (Ok tt, mkWorld (fs w ∪ {[pathname]}) (trace w ++ [EvOpen pathname])).

(** [Dataset.__init__(self, scene, **kwargs)] *)
Definition __init__ (scene : string) (kw : kwargs) : M Dataset :=
  dt <- lift (getDateTimeString scene);;
  let ram := default 4096 (kw_ram kw) in
  _ <- emit (EvSetenv "OTB_MAX_RAM_HINT" (pretty ram));;
  let log_path := default "D:\data\log" (kw_log kw) in
  e <- os.path_exists log_path;;
  _ <- (if e then skip else os.makedirs log_path);;
  let log_pathname :=
    os_path.join log_path (Str.replace ".zip" ".log" (os_path.basename scene)) in
  _ <- open log_pathname;;
  ret {| _tle := PyNone; _platform := PyNone; _norad_id := ∅;
          _image_ids := ["MS"; "P"]; _scene := scene; _datetime := dt;
          _dem_path := kw_dem_path kw; _geoid_pathname := kw_geoid_pathname kw;
          _epsg := kw_epsg kw; _pan_method := kw_pan_method kw;
          _roi := kw_roi kw; _ram := ram; _log := log_pathname |}.

(** [getId( scene )] : the first of ['PHR', 'SPOT'] found in the name. *)
Fixpoint getId_loop (items : list string) (scene : string) : pyobj :=
  match items with
  | [] => PyNone
  | item :: items' =>
      if Str.contains item (os_path.basename scene) then PyStr item
      else getId_loop items' scene
  end.

Definition getId (scene : string) : pyobj := getId_loop ["PHR"; "SPOT"] scene.

Section Stages.
  Context `{Collaborators}.

(** [glob.glob(pattern, recursive=True)] *)
Definition glob (pattern : string) : M (list string) :=
  λ w, (Ok (glob_glob pattern (fs w)),
        mkWorld (fs w) (trace w ++ [EvGlob pattern])).

(** [getImageLists(self, path)] *)
Fixpoint getImageLists_loop (self : Dataset) (path : string) (ids : list string)
    (images : gmap string (list string)) : M (gmap string (list string)) :=
  match ids with
  | [] => ret images
  | _id :: ids' =>
      let image_path :=
        os_path.join path
          ("**/IMG_" +:+ py_str (_platform self) +:+ "_" +:+ _id +:+ "_*/IMG_"
           +:+ py_str (_platform self) +:+ "_" +:+ _id +:+ "_*.TIF") in
      found <- glob image_path;;
      getImageLists_loop self path ids' (<[_id := found]> images)
  end.

Definition getImageLists (self : Dataset) (path : string) : M (gmap string (list string)) :=
  getImageLists_loop self path (_image_ids self) ∅.

(** [getSrtmTiles(self, images)] *)
Definition getSrtmTiles (self : Dataset) (images : list string) : M unit :=
  match _dem_path self with
  | Some dem_path =>
      app <- otb.CreateApplication "DownloadSRTMTiles";;
      let app := otb.set app "il" (PStringList images) in
      let app := otb.set app "tiledir" (PString dem_path) in
      otb.ExecuteAndWriteOutput app
  | None => ret tt
  end.

(** [getCalibratedImages(self, images, out_path, level, milli)] : the
    application object is created once and keeps its parameters from
    one image to the next. *)
Fixpoint getCalibratedImages_loop (self : Dataset) (app : application) (images : list string)
    (out_path level : string) (milli : bool) (out_images : list string)
    : M (list string) :=
  match images with
  | [] => ret out_images
  | image :: images' =>
      let out_pathname :=
        os_path.join out_path
          (Str.replace ".TIF" "_CAL.TIF" (os_path.basename image)) in
      e <- os.path_exists out_pathname;;
      app <- (if e then ret app else
               d <- os.path_exists out_path;;
               _ <- (if d then skip else os.makedirs out_path);;
               let app := otb.set app "in" (PString image) in
               let app := otb.set app "level" (PString level) in
               let app := otb.set app "out"
                            (PString (out_pathname +:+ "?&gdal:co:TILED=YES")) in
               let app := otb.set app "milli"
                            (PString (if milli then "True" else "False")) in
               let app := if milli
                          then otb.set app "out.pixeltype" (PPixelType "uint16")
                          else app in
               _ <- otb.ExecuteAndWriteOutput app;;
               ret app);;
      getCalibratedImages_loop self app images' out_path level milli
        (out_images ++ [out_pathname])
  end.

Definition getCalibratedImages (self : Dataset) (images : list string) (out_path : string)
    (level : string) (milli : bool) : M (list string) :=
  app <- otb.CreateApplication "OpticalCalibration";;
  getCalibratedImages_loop self app images out_path level milli [].

(** The first loop of [getTileFusionImages] : the largest row and
    column over the tiles; [coords[0]] of a name without a tile code is
    an [IndexError]. *)
Fixpoint grid_extent (images : list string) (nrows ncols : Z) : outcome (Z * Z) :=
  match images with
  | [] => ret (nrows, ncols)
  | image :: images' =>
      let coords := getTileCoordinates image in
      r <- index coords 0;;
      c <- index coords 1;;
      grid_extent images' (Z.max nrows (Str.int r)) (Z.max ncols (Str.int c))
  end.

(** [getTileFusionImages(self, images, out_path)] *)
Definition getTileFusionImages (self : Dataset) (images : list string) (out_path : string)
    : M pyobj :=
  '(nrows, ncols) <- lift (grid_extent images 0 0);;
  if Z.of_nat (length images) =? nrows * ncols then
    if (1 <? length images)%nat then
      app <- otb.CreateApplication "TileFusion";;
      let images := Str.sort images in
      first <- lift (index images 0);;
      let out_pathname :=
        os_path.join out_path
          (Str.replace "_R1C1" "_MOSAIC" (os_path.basename first)) in
      e <- os.path_exists out_pathname;;
      _ <- (if e then skip else
             d <- os.path_exists out_path;;
             _ <- (if d then skip else os.makedirs out_path);;
             let app := otb.set app "il" (PStringList images) in
             let app := otb.set app "out"
                          (PString (out_pathname +:+ "?&gdal:co:TILED=YES")) in
             let app := otb.set app "cols" (PInt ncols) in
             let app := otb.set app "rows" (PInt nrows) in
             otb.ExecuteAndWriteOutput app);;
      ret (PyStr out_pathname)
    else
      first <- lift (index images 0);;
      ret (PyStr first)
  else ret PyNone.

(** [getRoiImage(self, image, out_path)] : [self._roi] is [None]
    when no region was given, and has no [getImageRoi] then. *)
Definition getRoiImage (self : Dataset) (image : pyobj) (out_path : string) : M pyobj :=
  app <- otb.CreateApplication "ExtractROI";;
  roi <- lift (match _roi self with
              | Some roi => Ok roi
              | None => Raise AttributeError
              end);;
  coords <- lift (BBox_getImageRoi roi image);;
  match coords with
  | Some coords =>
      name <- lift (fspath image);;
      let out_pathname :=
        os_path.join out_path
          (Str.replace ".TIF" "_ROI.TIF" (os_path.basename name)) in
      e <- os.path_exists out_pathname;;
      _ <- (if e then skip else
             d <- os.path_exists out_path;;
             _ <- (if d then skip else os.makedirs out_path);;
             app <- lift (otb.SetParameterString app "in" image);;
             let app := otb.set app "out"
                          (PString (out_pathname +:+ "?&gdal:co:TILED=YES")) in
             let app := otb.set app "mode" (PString "extent") in
             ulx <- lift (index coords 0);;
             let app := otb.set app "mode.extent.ulx" (PFloat ulx) in
             uly <- lift (index coords 1);;
             let app := otb.set app "mode.extent.uly" (PFloat uly) in
             lrx <- lift (index coords 2);;
             let app := otb.set app "mode.extent.lrx" (PFloat lrx) in
             lry <- lift (index coords 3);;
             let app := otb.set app "mode.extent.lry" (PFloat lry) in
             otb.ExecuteAndWriteOutput app);;
      ret (PyStr out_pathname)
  | None => ret PyNone
  end.

(** [if self._dem_path is not None and self._geoid_pathname is not None] *)
Definition set_elevation (self : Dataset) (app : application) : application :=
  match _dem_path self, _geoid_pathname self with
  | Some dem, Some geoid =>
      otb.set (otb.set app "elev.dem" (PString dem)) "elev.geoid" (PString geoid)
  | _, _ => app
  end.

(** [if self._pan_method is not None] *)
Definition set_method (self : Dataset) (app : application) : application :=
  match _pan_method self with
  | Some m => otb.set app "method" (PString m)
  | None => app
  end.

(** [getPansharpenImage_Bundle(self, images, out_path)] *)
Definition getPansharpenImage_Bundle (self : Dataset) (images : gmap string pyobj)
    (out_path : string) : M string :=
  app <- otb.CreateApplication "BundleToPerfectSensor";;
  ms <- lift (getitem images (PyStr "MS"));;
  name <- lift (fspath ms);;
  let out_pathname :=
    os_path.join out_path (Str.replace "_MS_" "_PAN_" (os_path.basename name)) in
  e <- os.path_exists out_pathname;;
  _ <- (if e then skip else
         d <- os.path_exists out_path;;
         _ <- (if d then skip else os.makedirs out_path);;
         p <- lift (getitem images (PyStr "P"));;
         app <- lift (otb.SetParameterString app "inp" p);;
         ms <- lift (getitem images (PyStr "MS"));;
         app <- lift (otb.SetParameterString app "inxs" ms);;
         let app := otb.set app "out"
                      (PString (out_pathname +:+ "?&gdal:co:TILED=YES")) in
         let app := set_elevation self app in
         let app := set_method self app in
         otb.ExecuteAndWriteOutput app);;
  ret out_pathname.

(** [getSuperimposedImage(self, images, out_path)] *)
Definition getSuperimposedImage (self : Dataset) (images : gmap string pyobj)
    (out_path : string) : M string :=
  app <- otb.CreateApplication "Superimpose";;
  ms <- lift (getitem images (PyStr "MS"));;
  name <- lift (fspath ms);;
  let out_pathname :=
    os_path.join out_path
      (Str.replace "_MS_" "_MS_SUPER_" (os_path.basename name)) in
  e <- os.path_exists out_pathname;;
  _ <- (if e then skip else
         d <- os.path_exists out_path;;
         _ <- (if d then skip else os.makedirs out_path);;
         p <- lift (getitem images (PyStr "P"));;
         app <- lift (otb.SetParameterString app "inr" p);;
         ms <- lift (getitem images (PyStr "MS"));;
         app <- lift (otb.SetParameterString app "inm" ms);;
         let app := otb.set app "out"
                      (PString (out_pathname +:+ "?&gdal:co:TILED=YES")) in
         let app := set_elevation self app in
         otb.ExecuteAndWriteOutput app);;
  ret out_pathname.

(** [getPansharpenImage(self, images, out_path)] *)
Definition getPansharpenImage (self : Dataset) (images : gmap string pyobj)
    (out_path : string) : M string :=
  app <- otb.CreateApplication "Pansharpening";;
  ms <- lift (getitem images (PyStr "MS"));;
  name <- lift (fspath ms);;
  let out_pathname :=
    os_path.join out_path
      (Str.replace "_MS_SUPER_" "_PAN_" (os_path.basename name)) in
  e <- os.path_exists out_pathname;;
  _ <- (if e then skip else
         d <- os.path_exists out_path;;
         _ <- (if d then skip else os.makedirs out_path);;
         p <- lift (getitem images (PyStr "P"));;
         app <- lift (otb.SetParameterString app "inp" p);;
         ms <- lift (getitem images (PyStr "MS"));;
         app <- lift (otb.SetParameterString app "inxs" ms);;
         let app := otb.set app "out"
                      (PString (out_pathname
                         +:+ "?&gdal:co:TILED=YES&gdal:co:COMPRESS=DEFLATE&gdal:co:BIGTIFF=YES")) in
         let app := set_method self app in
         otb.ExecuteAndWriteOutput app);;
  ret out_pathname.

End Stages.

End Dataset.

Module ps.

(** [out, err, code = ps.extractZip(scene, path)] : only the exit code
    is used. *)
Definition extractZip `{Collaborators} (scene path : string) : M Z :=
  λ w, let '(code, fs') := ps_extractZip scene path (fs w) in
       (Ok code, mkWorld fs' (trace w ++ [EvExtractZip scene path])).

End ps.

(** A local variable read after the [if] that may have bound it. *)
Definition local {A} (v : option A) : outcome A :=
  match v with
  | Some a => Ok a
  | None => Raise UnboundLocalError
  end.

(** ** [class Pleiades ( Dataset )] (pleiades.py) *)

Module Pleiades.

Definition norad_id : gmap string Z :=
  <["PHR1A" := 38012]> (<["PHR1B" := 39019]> ∅).

(** [Pleiades.__init__(self, scene, **kwargs)] *)
Definition __init__ (scene : string) (kw : kwargs) : M Dataset :=
  self <- Dataset.__init__ scene kw;;
  let platform := Dataset.getPlatform scene Re.pleiades_pattern in
  tle <- lift (getitem norad_id platform);;
  ret {| _tle := PyInt tle; _platform := platform; _norad_id := norad_id;
         _image_ids := _image_ids self; _scene := _scene self;
         _datetime := _datetime self; _dem_path := _dem_path self;
         _geoid_pathname := _geoid_pathname self; _epsg := _epsg self;
         _pan_method := _pan_method self; _roi := _roi self;
         _ram := _ram self; _log := _log self |}.

Section Run.
  Context `{Collaborators}.
  Variable self : Dataset.

(** [for _id in self._image_ids: ...] (lines 56-69) *)
Fixpoint band_loop (root_path : string) (images : gmap string (list string))
    (ids : list string) (mosaic : gmap string pyobj) : M (gmap string pyobj) :=
  match ids with
  | [] => ret mosaic
  | _id :: ids' =>
      let out_path := os_path.join root_path ("cal/" +:+ _id) in
      tiles <- lift (getitem images (PyStr _id));;
      cal_images <- Dataset.getCalibratedImages self tiles out_path "toa" true;;
      let out_path := os_path.join root_path ("mosaic/" +:+ _id) in
      fused <- Dataset.getTileFusionImages self cal_images out_path;;
      let mosaic := <[_id := fused]> mosaic in
      mosaic <- match _roi self with
                | Some _ =>
                    let out_path := os_path.join root_path ("roi/" +:+ _id) in
                    image <- lift (getitem mosaic (PyStr _id));;
                    clipped <- Dataset.getRoiImage self image out_path;;
                    ret (<[_id := clipped]> mosaic)
                | None => ret mosaic
                end;;
      band_loop root_path images ids' mosaic
  end.

(** [processToArd(self)] : [pan_image] and [mosaic] are bound only
    inside [if code == 0]. *)
Definition processToArd : M (pyobj * pyobj) :=
  let root_path := os_path.join (os_path.dirname (_scene self)) "tmp" in
  let path := os_path.join root_path "scene" in
  e <- os.path_exists path;;
  _ <- (if e then skip else os.makedirs path);;
  code <- ps.extractZip (_scene self) path;;
  '(pan_image, mosaic) <-
    (if code =? 0 then
       images <- Dataset.getImageLists self path;;
       pan_tiles <- lift (getitem images (PyStr "P"));;
       _ <- Dataset.getSrtmTiles self pan_tiles;;
       mosaic <- band_loop root_path images (_image_ids self) ∅;;
       let out_path := os_path.join root_path "pan" in
       super <- Dataset.getSuperimposedImage self mosaic out_path;;
       let mosaic := <["MS" := PyStr super]> mosaic in
       let out_path := os_path.join root_path "pan" in
       pan_image <- Dataset.getPansharpenImage self mosaic out_path;;
       ret (Some pan_image, Some mosaic)
     else ret (None, None));;
  pan_image <- lift (local pan_image);;
  mosaic <- lift (local mosaic);;
  ms <- lift (getitem mosaic (PyStr "MS"));;
  ret (PyStr pan_image, ms).

End Run.

End Pleiades.

(** ** [class Spot ( Dataset )] (spot.py) *)

Module Spot.

Definition norad_id : gmap string Z :=
  <["SPOT5" := 27421]> (<["SPOT6" := 38755]> (<["SPOT7" := 40053]> ∅)).

(** [Spot.__init__(self, scene, **kwargs)] *)
Definition __init__ (scene : string) (kw : kwargs) : M Dataset :=
  self <- Dataset.__init__ scene kw;;
  let platform := Dataset.getPlatform scene Re.spot_pattern in
  tle <- lift (getitem norad_id platform);;
  ret {| _tle := PyInt tle; _platform := platform; _norad_id := norad_id;
         _image_ids := _image_ids self; _scene := _scene self;
         _datetime := _datetime self; _dem_path := _dem_path self;
         _geoid_pathname := _geoid_pathname self; _epsg := _epsg self;
         _pan_method := _pan_method self; _roi := _roi self;
         _ram := _ram self; _log := _log self |}.

Section Run.
  Context `{Collaborators}.
  Variable self : Dataset.

(** [for _id in self._image_ids: ...] (lines 56-69) *)
Fixpoint band_loop (root_path : string) (images : gmap string (list string))
    (ids : list string) (mosaic : gmap string pyobj) : M (gmap string pyobj) :=
  match ids with
  | [] => ret mosaic
  | _id :: ids' =>
      let out_path := os_path.join root_path ("cal/" +:+ _id) in
      tiles <- lift (getitem images (PyStr _id));;
      cal_images <- Dataset.getCalibratedImages self tiles out_path "toa" true;;
      let out_path := os_path.join root_path ("mosaic/" +:+ _id) in
      fused <- Dataset.getTileFusionImages self cal_images out_path;;
      let mosaic := <[_id := fused]> mosaic in
      mosaic <- match _roi self with
                | Some _ =>
                    let out_path := os_path.join root_path ("roi/" +:+ _id) in
                    image <- lift (getitem mosaic (PyStr _id));;
                    clipped <- Dataset.getRoiImage self image out_path;;
                    ret (<[_id := clipped]> mosaic)
                | None => ret mosaic
                end;;
      band_loop root_path images ids' mosaic
  end.

(** [processToArd(self, ard_path)] : the method ends in a bare
    [return]. *)
Definition processToArd (ard_path : string) : M pyobj :=
  let root_path := os_path.join (os_path.dirname (_scene self)) "tmp" in
  let path := os_path.join root_path "scene" in
  e <- os.path_exists path;;
  _ <- (if e then skip else os.makedirs path);;
  code <- ps.extractZip (_scene self) path;;
  _ <- (if code =? 0 then
          images <- Dataset.getImageLists self path;;
          pan_tiles <- lift (getitem images (PyStr "P"));;
          _ <- Dataset.getSrtmTiles self pan_tiles;;
          mosaic <- band_loop root_path images (_image_ids self) ∅;;
          let out_path := os_path.join root_path "pan" in
          pan_image <- Dataset.getPansharpenImage self mosaic out_path;;
          ret tt
        else ret tt);;
  ret PyNone.

End Run.

End Spot.

(** * The vocabulary of the properties *)

(** ** A concrete environment, for the examples *)

Module Fixture.

(** Extraction succeeds (exit code 0) for an archive that exists. *)
Definition extract (scene path : string) (f : gset string) : Z * gset string :=
  if bool_decide (scene ∈ f) then (0, f ∪ {[path]}) else (2, f).

(** The tiles of the two example archives. *)
Definition tiles (pattern : string) : list string :=
  if String.eqb pattern "/data/tmp/scene/**/IMG_PHR1A_MS_*/IMG_PHR1A_MS_*.TIF"
  then ["/data/tmp/scene/IMG_PHR1A_MS_001/IMG_PHR1A_MS_001_R1C1.TIF"]
  else if String.eqb pattern "/data/tmp/scene/**/IMG_PHR1A_P_*/IMG_PHR1A_P_*.TIF"
  then ["/data/tmp/scene/IMG_PHR1A_P_001/IMG_PHR1A_P_001_R1C2.TIF";
        "/data/tmp/scene/IMG_PHR1A_P_001/IMG_PHR1A_P_001_R1C1.TIF"]
  else if String.eqb pattern "/data/tmp/scene/**/IMG_SPOT6_MS_*/IMG_SPOT6_MS_*.TIF"
  then ["/data/tmp/scene/IMG_SPOT6_MS_001/IMG_SPOT6_MS_001_R1C1.TIF"]
  else if String.eqb pattern "/data/tmp/scene/**/IMG_SPOT6_P_*/IMG_SPOT6_P_*.TIF"
  then ["/data/tmp/scene/IMG_SPOT6_P_001/IMG_SPOT6_P_001_R1C1.TIF"]
  else [].

(** The engine writes its output file. *)
Definition engine (app : application) (f : gset string) : option (gset string) :=
  match out_file app with
  | Some p => Some (f ∪ {[p]})
  | None => Some f
  end.

(** The region of interest overlaps the multispectral images only. *)
Definition resolver (roi : list Q) (image : pyobj) : outcome (option (list Q)) :=
  match image with
  | PyStr s =>
      match Re.search [Re.Lit "_"; Re.Lit "M"; Re.Lit "S"; Re.Lit "_"] s with
      | Some _ => Ok (Some roi)
      | None => Ok None
      end
  | _ => Raise AttributeError
  end.

#[export] Instance collaborators : Collaborators := {
  ps_extractZip := extract;
  glob_glob := λ pattern _, tiles pattern;
  BBox_getImageRoi := resolver;
  otb_execute := engine }.

Definition pleiades_scene : string := "/data/DS_PHR1A_202001011230451_SEN.zip".
Definition spot_scene : string := "/data/DS_SPOT6_202001011230457_SEN.zip".

Definition no_kwargs : kwargs := mkKwargs None None None None None None (Some "/log").
Definition dem_kwargs : kwargs :=
  mkKwargs (Some "/dem") None None None None None (Some "/log").
Definition roi_kwargs : kwargs :=
  mkKwargs None None None None (Some [0%Q; 0%Q; 1%Q; 1%Q]) None (Some "/log").

(** A file system holding the two archives. *)
Definition w0 : World := mkWorld {[pleiades_scene; spot_scene]} [].

Definition empty_world : World := mkWorld ∅ [].

(** The instance a successful construction returns. *)
Definition instance (init : M Dataset) : Dataset :=
  match init w0 with
  | (Ok self, _) => self
  | _ => mkDataset PyNone PyNone ∅ [] "" "" None None None None None 0 ""
  end.

Definition pleiades : Dataset := instance (Pleiades.__init__ pleiades_scene no_kwargs).
Definition spot : Dataset := instance (Spot.__init__ spot_scene no_kwargs).
Definition pleiades_dem : Dataset := instance (Pleiades.__init__ pleiades_scene dem_kwargs).
Definition pleiades_roi : Dataset := instance (Pleiades.__init__ pleiades_scene roi_kwargs).

End Fixture.

(** ** The tile grid *)

Definition max_of (l : list Z) : Z := foldr Z.max 0 l.

(** [coords] lists, tile by tile, the row and column digits that
    [getTileCoordinates] reads from the name. *)
Definition parsed (images : list string) (coords : list (string * string)) : Prop :=
  Forall2 (λ image rc, Dataset.getTileCoordinates image = [rc.1; rc.2]) images coords.

Definition rows_of (coords : list (string * string)) : list Z :=
  map (λ rc, Str.int rc.1) coords.
Definition cols_of (coords : list (string * string)) : list Z :=
  map (λ rc, Str.int rc.2) coords.

(** ** The directories of a run *)

(** [<scene_dir>/tmp], and the directory the archive is extracted to. *)
Definition root_path_of (self : Dataset) : string :=
  os_path.join (os_path.dirname (_scene self)) "tmp".

Definition scene_path_of (self : Dataset) : string :=
  os_path.join (root_path_of self) "scene".

(** The world once the extraction directory is there. *)
Definition with_scene_path (self : Dataset) (w : World) : World :=
  if bool_decide (scene_path_of self ∈ fs w) then w
  else (os.makedirs (scene_path_of self) w).2.

(** ** The registry of a profile *)

(** The value the registry holds for a platform code ([None] for a code
    that is no key, and for [None], the code of a name the pattern does
    not match). *)
Definition registry_value (registry : gmap string Z) (platform : pyobj) : option Z :=
  match platform with
  | PyStr code => registry !! code
  | _ => None
  end.

(** ** Time stamp tokens *)

(** The range of a two-digit field. *)
Definition two_digit_ok (d : datetime.directive) (c1 c2 : ascii) : bool :=
  let n := Str.int (String c1 (String c2 "")) in
  match d with
  | datetime.Dm => datetime.between 1 n 12
  | datetime.Dd => datetime.between 1 n 31
  | datetime.DH => datetime.between 0 n 23
  | datetime.DM => datetime.between 0 n 59
  | datetime.DS => datetime.between 0 n 59
  | _ => false
  end.

(** The field of [len] characters at position [start]. *)
Definition field (start len : nat) (tok : string) : Z :=
  Str.int (Str.take len (Str.drop start tok)).

(** The instant a token spells, read by position:
    [YYYYmmddHHMMSS] and the tenths of a second. *)
Definition instant_of_token (tok : string) : outcome datetime.t :=
  datetime.make (field 0 4 tok) (field 4 2 tok) (field 6 2 tok)
    (field 8 2 tok) (field 10 2 tok) (field 12 2 tok)
    (field 14 1 tok * 100000).

(** Fifteen digits that spell a date and a time of day. *)
Definition valid_token (tok : string) : bool :=
  (String.length tok =? 15)%nat && Str.all_chars Str.is_digit tok
  && match instant_of_token tok with Ok _ => true | Raise _ => false end.

(** No match of [pat] starts at one of the first [n] positions of [s]. *)
Fixpoint no_match_before (pat : list Re.atom) (n : nat) (s : string) : bool :=
  match n with
  | O => true
  | S k =>
      match Re.match_here pat s with
      | Some _ => false
      | None =>
          match s with
          | EmptyString => true
          | String _ s' => no_match_before pat k s'
          end
      end
  end.

(** ** Stages, their output paths and their results *)

(** The stages of the catalogue, with the arguments of a call. *)
Inductive stage :=
| Calibrate (images : list string) (out_path level : string) (milli : bool)
| FuseTiles (images : list string) (out_path : string)
| ClipToROI (image : pyobj) (out_path : string)
| BundleToSensor (images : gmap string pyobj) (out_path : string)
| Superimpose (images : gmap string pyobj) (out_path : string)
| Pansharpen (images : gmap string pyobj) (out_path : string)
| FetchElevationTiles (images : list string).

Inductive stage_result :=
| Paths (l : list string)
| Path (p : pyobj)
| Nothing.

Definition run_stage `{Collaborators} (self : Dataset) (st : stage) : M stage_result :=
  match st with
  | Calibrate images out_path level milli =>
      l <- Dataset.getCalibratedImages self images out_path level milli;; ret (Paths l)
  | FuseTiles images out_path =>
      p <- Dataset.getTileFusionImages self images out_path;; ret (Path p)
  | ClipToROI image out_path =>
      p <- Dataset.getRoiImage self image out_path;; ret (Path p)
  | BundleToSensor images out_path =>
      p <- Dataset.getPansharpenImage_Bundle self images out_path;; ret (Path (PyStr p))
  | Superimpose images out_path =>
      p <- Dataset.getSuperimposedImage self images out_path;; ret (Path (PyStr p))
  | Pansharpen images out_path =>
      p <- Dataset.getPansharpenImage self images out_path;; ret (Path (PyStr p))
  | FetchElevationTiles images =>
      _ <- Dataset.getSrtmTiles self images;; ret Nothing
  end.

(** The stages that declare an output path, that is all but the
    elevation fetch. *)
Definition has_output_path (st : stage) : bool :=
  match st with
  | FetchElevationTiles _ => false
  | _ => true
  end.

(** The output name a stage derives from an input name. *)
Definition output_name (out_path old new : string) (image : string) : string :=
  os_path.join out_path (Str.replace old new (os_path.basename image)).

(** The name the stage derives from [images['MS']]. *)
Definition ms_output (images : gmap string pyobj) (out_path old new : string)
    : list string :=
  match images !! "MS" with
  | Some (PyStr ms) => [output_name out_path old new ms]
  | _ => []
  end.

(** The files a call is to produce: its deterministic output paths. *)
Definition outputs `{Collaborators} (self : Dataset) (st : stage) : list string :=
  match st with
  | Calibrate images out_path _ _ =>
      map (output_name out_path ".TIF" "_CAL.TIF") images
  | FuseTiles images out_path =>
      match Dataset.grid_extent images 0 0 with
      | Ok (nrows, ncols) =>
          if (Z.of_nat (length images) =? nrows * ncols) && (1 <? length images)%nat
          then match head (Str.sort images) with
               | Some first => [output_name out_path "_R1C1" "_MOSAIC" first]
               | None => []
               end
          else []
      | Raise _ => []
      end
  | ClipToROI image out_path =>
      match _roi self, image with
      | Some roi, PyStr name =>
          match BBox_getImageRoi roi image with
          | Ok (Some _) => [output_name out_path ".TIF" "_ROI.TIF" name]
          | _ => []
          end
      | _, _ => []
      end
  | BundleToSensor images out_path => ms_output images out_path "_MS_" "_PAN_"
  | Superimpose images out_path => ms_output images out_path "_MS_" "_MS_SUPER_"
  | Pansharpen images out_path => ms_output images out_path "_MS_SUPER_" "_PAN_"
  | FetchElevationTiles _ => []
  end.

(** The paths a result carries. *)
Definition returned (r : stage_result) : list string :=
  match r with
  | Paths l => l
  | Path (PyStr p) => [p]
  | _ => []
  end.

(** A run that only created application objects. *)
Definition quiet (w w' : World) : Prop :=
  fs w' = fs w
  ∧ executions (trace w') = executions (trace w)
  ∧ makedirs_of (trace w') = makedirs_of (trace w).

(** What a call returns when its output paths exist. *)
Definition hit_result `{Collaborators} (self : Dataset) (st : stage)
    : outcome stage_result :=
  match st with
  | Calibrate images out_path _ _ =>
      Ok (Paths (map (output_name out_path ".TIF" "_CAL.TIF") images))
  | FuseTiles images out_path =>
      '(nrows, ncols) <- Dataset.grid_extent images 0 0;;
      if Z.of_nat (length images) =? nrows * ncols then
        if (1 <? length images)%nat then
          first <- index (Str.sort images) 0;;
          ret (Path (PyStr (output_name out_path "_R1C1" "_MOSAIC" first)))
        else
          first <- index images 0;; ret (Path (PyStr first))
      else ret (Path PyNone)
  | ClipToROI image out_path =>
      match _roi self with
      | Some roi =>
          coords <- BBox_getImageRoi roi image;;
          match coords with
          | Some _ =>
              name <- fspath image;;
              ret (Path (PyStr (output_name out_path ".TIF" "_ROI.TIF" name)))
          | None => ret (Path PyNone)
          end
      | None => Raise AttributeError
      end
  | BundleToSensor images out_path =>
      ms <- getitem images (PyStr "MS");; name <- fspath ms;;
      ret (Path (PyStr (output_name out_path "_MS_" "_PAN_" name)))
  | Superimpose images out_path =>
      ms <- getitem images (PyStr "MS");; name <- fspath ms;;
      ret (Path (PyStr (output_name out_path "_MS_" "_MS_SUPER_" name)))
  | Pansharpen images out_path =>
      ms <- getitem images (PyStr "MS");; name <- fspath ms;;
      ret (Path (PyStr (output_name out_path "_MS_SUPER_" "_PAN_" name)))
  | FetchElevationTiles _ => Ok Nothing
  end.

Definition example_mosaic : gmap string pyobj :=
  <["MS" := PyStr "/data/tmp/mosaic/MS/IMG_PHR1A_MS_001_R1C1_CAL.TIF"]>
    (<["P" := PyStr "/data/tmp/mosaic/P/IMG_PHR1A_P_001_MOSAIC_CAL.TIF"]> ∅).

(** ** The end of the two methods, and what a run emits *)

(** [<scene_dir>/tmp/pan] *)
Definition pan_path_of (self : Dataset) : string :=
os_path.join (root_path_of self) "pan".

(** The stages both methods run first, up to the fused (and optionally
    clipped) mosaics: lines 40-69 of [pleiades.py] and of [spot.py].
    [None] when the extraction failed. *)
Definition fused_mosaics `{Collaborators} (self : Dataset)
  : M (option (gmap string pyobj)) :=
let root_path := root_path_of self in
let path := scene_path_of self in
e <- os.path_exists path;;
_ <- (if e then skip else os.makedirs path);;
code <- ps.extractZip (_scene self) path;;
if code =? 0 then
  images <- Dataset.getImageLists self path;;
  pan_tiles <- lift (getitem images (PyStr "P"));;
  _ <- Dataset.getSrtmTiles self pan_tiles;;
  mosaic <- Pleiades.band_loop self root_path images (_image_ids self) ∅;;
  ret (Some mosaic)
else ret None.

(** What a profile does with the mosaics. *)
Definition pleiades_fusion `{Collaborators} (self : Dataset)
  (mosaic : gmap string pyobj) : M (pyobj * pyobj) :=
super <- Dataset.getSuperimposedImage self mosaic (pan_path_of self);;
pan_image <- Dataset.getPansharpenImage self (<["MS" := PyStr super]> mosaic)
               (pan_path_of self);;
ret (PyStr pan_image, PyStr super).

Definition spot_fusion `{Collaborators} (self : Dataset)
  (mosaic : gmap string pyobj) : M pyobj :=
pan_image <- Dataset.getPansharpenImage self mosaic (pan_path_of self);;
ret PyNone.

(** An application that is neither the superimposition nor the bundle
    conversion. *)
Definition not_sensor_fusion (name : string) : Prop :=
name ≠ "Superimpose" ∧ name ≠ "BundleToPerfectSensor".

Definition no_sensor_stage (ev : event) : Prop :=
match ev with
| EvCreateApplication name => not_sensor_fusion name
| EvExecute app => not_sensor_fusion (app_name app)
| _ => True
end.

(** An engine execution that reads [ms] as the multispectral and [pan] as
    the panchromatic input of the pansharpening. *)
Definition fed_with (ms pan : string) (ev : event) : Prop :=
match ev with
| EvExecute app =>
    app_params app !! "inxs" = Some (PString ms)
    ∧ app_params app !! "inp" = Some (PString pan)
| _ => True
end.

(** Every event a computation adds to the trace satisfies [P]. *)
Definition emits {A} (P : event → Prop) (m : M A) : Prop :=
∀ w, ∃ evs, trace (m w).2 = trace w ++ evs ∧ Forall P evs.

(** ** The search patterns and the footprint of a stage *)

(** The pattern [getImageLists] searches for one image id. *)
Definition image_pattern (self : Dataset) (path _id : string) : string :=
  os_path.join path
    ("**/IMG_" +:+ py_str (_platform self) +:+ "_" +:+ _id +:+ "_*/IMG_"
     +:+ py_str (_platform self) +:+ "_" +:+ _id +:+ "_*.TIF").

(** The application a stage runs. *)
Definition stage_application (st : stage) : string :=
  match st with
  | Calibrate _ _ _ _ => "OpticalCalibration"
  | FuseTiles _ _ => "TileFusion"
  | ClipToROI _ _ => "ExtractROI"
  | BundleToSensor _ _ => "BundleToPerfectSensor"
  | Superimpose _ _ => "Superimpose"
  | Pansharpen _ _ => "Pansharpening"
  | FetchElevationTiles _ => "DownloadSRTMTiles"
  end.

(** The [out_path] argument of a stage. *)
Definition stage_out_path (st : stage) : option string :=
  match st with
  | Calibrate _ out_path _ _ => Some out_path
  | FuseTiles _ out_path => Some out_path
  | ClipToROI _ out_path => Some out_path
  | BundleToSensor _ out_path => Some out_path
  | Superimpose _ out_path => Some out_path
  | Pansharpen _ out_path => Some out_path
  | FetchElevationTiles _ => None
  end.

(** The events within the footprint of a stage: its own application,
    created and executed with one of the stage's output paths as the
    [out] file, and the creation of its [out_path]. *)
Definition stage_event `{Collaborators} (self : Dataset) (st : stage) (ev : event) : Prop :=
  match ev with
  | EvCreateApplication name => name = stage_application st
  | EvExecute app =>
      app_name app = stage_application st
      ∧ match out_file app with
        | Some p => p ∈ outputs self st
        | None => has_output_path st = false
        end
  | EvMakedirs p => stage_out_path st = Some p
  | _ => False
  end.

(** ** The footprint of a run *)

(** The applications of a run: calibration and tile fusion, the clipping
    when a region is set, the elevation fetch when an elevation directory
    is set, and the profile's own fusion stages. *)
Definition run_application (self : Dataset) (fusion : list string) (name : string) : Prop :=
  name = "OpticalCalibration" ∨ name = "TileFusion"
  ∨ (name = "ExtractROI" ∧ is_Some (_roi self))
  ∨ (name = "DownloadSRTMTiles" ∧ is_Some (_dem_path self))
  ∨ name ∈ fusion.

(** The directories of a run, all below [<scene dir>/tmp]. *)
Definition run_directory (self : Dataset) (d : string) : Prop :=
  d = scene_path_of self ∨ d = pan_path_of self
  ∨ ∃ _id, _id ∈ _image_ids self
       ∧ (d = os_path.join (root_path_of self) ("cal/" +:+ _id)
          ∨ d = os_path.join (root_path_of self) ("mosaic/" +:+ _id)
          ∨ (d = os_path.join (root_path_of self) ("roi/" +:+ _id)
             ∧ is_Some (_roi self))).

(** [p] is [os.path.join(d, name)] for a [name] without separator. *)
Definition child_of (d p : string) : Prop :=
  ∃ name, p = os_path.join d name ∧ Str.mem "/" name = false.

(** The events within the footprint of a run. *)
Definition run_event (self : Dataset) (fusion : list string) (ev : event) : Prop :=
  match ev with
  | EvCreateApplication name => run_application self fusion name
  | EvExecute app =>
      run_application self fusion (app_name app)
      ∧ match out_file app with
        | Some p => ∃ d, run_directory self d ∧ child_of d p
        | None => app_name app = "DownloadSRTMTiles"
        end
  | EvMakedirs p => run_directory self p
  | EvExtractZip scene path => scene = _scene self ∧ path = scene_path_of self
  | EvGlob pattern =>
      ∃ _id, _id ∈ _image_ids self
             ∧ pattern = image_pattern self (scene_path_of self) _id
  | _ => False
  end.

(** ** An archive whose multispectral grid is incomplete *)

(** The multispectral tiles [R1C1] and [R2C2] of a two by two grid. *)
Definition gap_tiles (pattern : string) : list string :=
  if String.eqb pattern "/data/tmp/scene/**/IMG_PHR1A_MS_*/IMG_PHR1A_MS_*.TIF"
  then ["/data/tmp/scene/IMG_PHR1A_MS_001/IMG_PHR1A_MS_001_R1C1.TIF";
        "/data/tmp/scene/IMG_PHR1A_MS_001/IMG_PHR1A_MS_001_R2C2.TIF"]
  else Fixture.tiles pattern.

Definition gap_collaborators : Collaborators := {|
  ps_extractZip := Fixture.extract;
  glob_glob := λ pattern _, gap_tiles pattern;
  BBox_getImageRoi := Fixture.resolver;
  otb_execute := Fixture.engine |}.
(** * Properties *)

(** ** The functions on examples *)

Example basename_ex : os_path.basename "/data/in/DS_PHR1A_202001011230451_SEN.zip" = "DS_PHR1A_202001011230451_SEN.zip".
Proof. reflexivity. Qed.
Example dirname_ex : os_path.dirname "/data/in/scene.zip" = "/data/in".
Proof. reflexivity. Qed.
Example dirname_ex2 : os_path.dirname "scene.zip" = "".
Proof. reflexivity. Qed.
Example join_ex : os_path.join "/data/in" "tmp" = "/data/in/tmp".
Proof. reflexivity. Qed.
Example join_ex2 : os_path.join "" "tmp" = "tmp".
Proof. reflexivity. Qed.
Example splitext_ex : os_path.splitext "/a.b/IMG_R1C1.TIF" = ("/a.b/IMG_R1C1", ".TIF").
Proof. reflexivity. Qed.
Example splitext_ex2 : os_path.splitext "/a.b/.TIF" = ("/a.b/.TIF", "").
Proof. reflexivity. Qed.
Example replace_ex : Str.replace "_R1C1" "_MOSAIC" "A_R1C1_B_R1C1.TIF" = "A_MOSAIC_B_MOSAIC.TIF".
Proof. reflexivity. Qed.
Example strip_ex : Str.strip "_" "__PHR1A_" = "PHR1A".
Proof. reflexivity. Qed.
Example search_ex : Re.search Re.pleiades_pattern "DS_PHR1A_2020" = Some "_PHR1A_".
Proof. reflexivity. Qed.
Example findall_ex : Re.findall_digits "R1C12x3" = ["1"; "12"; "3"].
Proof. reflexivity. Qed.
Example sort_ex : Str.sort ["b"; "a"; "ab"; "A"] = ["A"; "a"; "ab"; "b"].
Proof. reflexivity. Qed.
Example pad_ex : Str.pad4 2020 = "2020" ∧ Str.pad2 7 = "07" ∧ Str.int "0123" = 123.
Proof. repeat split; reflexivity. Qed.

Example strptime_ex :
  datetime.strptime "202001011230451" "%Y%m%d%H%M%S%f"
  = Ok (datetime.mk 2020 1 1 12 30 45 100000).
Proof. reflexivity. Qed.
(* A month field that is no month makes the match fall back to a
   one-digit month. *)
Example strptime_backtrack :
  datetime.strptime "999999999999999" "%Y%m%d%H%M%S%f"
  = Ok (datetime.mk 9999 9 9 9 9 9 999999).
Proof. reflexivity. Qed.
Example strptime_bad :
  datetime.strptime "000000000000000" "%Y%m%d%H%M%S%f" = Raise ValueError.
Proof. reflexivity. Qed.
Example strftime_ex :
  datetime.strftime (datetime.mk 2020 1 1 12 30 45 100000) "%Y%m%d_%H%M%S" = "20200101_123045".
Proof. reflexivity. Qed.

(** ** Running the monad *)

Lemma bind_run {A B} (m : M A) (f : A → M B) (w : World) :
  bind m f w = match m w with
               | (Ok a, w') => f a w'
               | (Raise e, w') => (Raise e, w')
               end.
Proof. reflexivity. Qed.

Lemma bind_ok {A B} (m : M A) (f : A → M B) w a w' :
  m w = (Ok a, w') → bind m f w = f a w'.
Proof. intros E. rewrite bind_run, E. reflexivity. Qed.

Lemma bind_raise {A B} (m : M A) (f : A → M B) w e w' :
  m w = (Raise e, w') → bind m f w = (Raise e, w').
Proof. intros E. rewrite bind_run, E. reflexivity. Qed.

Lemma lift_run {A} (o : outcome A) w : lift o w = (o, w).
Proof. reflexivity. Qed.

Lemma world_eta w : mkWorld (fs w) (trace w) = w.
Proof. destruct w; reflexivity. Qed.

(** The engine of the example environment honours the contract. *)
Lemma engine_persists_fixture : @engine_persists Fixture.collaborators.
Proof.
  intros app fs0 fs1. cbn. unfold Fixture.engine.
  destruct (out_file app) as [p|]; intros [= <-]; split.
  - set_solver.
  - intros q [= ->]. set_solver.
  - set_solver.
  - discriminate.
Qed.

(** ** Tile fusion *)

Section TileFusion.
  Context `{Collaborators}.

(** C9. On the empty tile list the completeness test passes (0 tiles, a
    0 x 0 grid), the single-tile branch reads [images[0]] and the call
    ends in an [IndexError]; nothing is returned and nothing is done to
    the outside. *)
Theorem getTileFusionImages_empty (self : Dataset) (out_path : string) (w : World) :
  Dataset.grid_extent [] 0 0 = Ok (0, 0)
  ∧ (Z.of_nat (length (@nil string)) =? 0 * 0) = true
  ∧ Dataset.getTileFusionImages self [] out_path w = (Raise IndexError, w).
Proof. repeat split. Qed.

End TileFusion.

(** *** The order of [list.sort()] *)

Lemma ltb_irrefl s : Str.ltb s s = false.
Proof.
  induction s as [|a s IH]; cbn [Str.ltb]; [reflexivity|].
  rewrite Nat.ltb_irrefl. exact IH.
Qed.

(** If [z] is below [x], any [y] is above [z] or below [x]. *)
Lemma ltb_cotrans z x y :
  Str.ltb z x = true → Str.ltb z y = true ∨ Str.ltb y x = true.
Proof.
  revert x y. induction z as [|a z IH]; intros [|b x] [|c y]; cbn [Str.ltb]; auto;
    try discriminate.
  destruct (Nat.ltb_spec (nat_of_ascii a) (nat_of_ascii b)) as [Hab|Hab].
  - intros _.
    destruct (Nat.ltb_spec (nat_of_ascii a) (nat_of_ascii c)); [auto|].
    destruct (Nat.ltb_spec (nat_of_ascii c) (nat_of_ascii b)); [auto|lia].
  - destruct (Nat.ltb_spec (nat_of_ascii b) (nat_of_ascii a)) as [Hba|Hba];
      [discriminate|].
    intros Hzx.
    destruct (Nat.ltb_spec (nat_of_ascii a) (nat_of_ascii c)); [auto|].
    destruct (Nat.ltb_spec (nat_of_ascii c) (nat_of_ascii a)).
    + right. destruct (Nat.ltb_spec (nat_of_ascii c) (nat_of_ascii b)); [auto|lia].
    + destruct (Nat.ltb_spec (nat_of_ascii c) (nat_of_ascii b)); [auto|].
      destruct (Nat.ltb_spec (nat_of_ascii b) (nat_of_ascii c)); [lia|].
      apply IH. exact Hzx.
Qed.

Lemma ltb_asym x y : Str.ltb x y = true → Str.ltb y x = false.
Proof.
  revert y. induction x as [|a x IH]; intros [|b y]; cbn [Str.ltb]; auto;
    try discriminate.
  destruct (Nat.ltb_spec (nat_of_ascii a) (nat_of_ascii b)).
  - intros _. destruct (Nat.ltb_spec (nat_of_ascii b) (nat_of_ascii a)); [lia|].
    reflexivity.
  - destruct (Nat.ltb_spec (nat_of_ascii b) (nat_of_ascii a)); [discriminate|].
    apply IH.
Qed.

(** The first element after sorting is a least element of the list. *)
Lemma sort_head (l : list string) :
  l ≠ [] →
  ∃ first, head (Str.sort l) = Some first ∧ first ∈ l
           ∧ ∀ x, x ∈ l → Str.ltb x first = false.
Proof.
  induction l as [|a l IH]; [congruence|]. intros _.
  destruct l as [|b l].
  - exists a. cbn. split; [reflexivity|]. split; [apply elem_of_cons; auto|].
    intros x Hx. apply list_elem_of_singleton in Hx. subst. apply ltb_irrefl.
  - destruct IH as (m & Hm & Hmem & Hmin); [congruence|].
    change (Str.sort (a :: b :: l)) with (Str.insert_sorted a (Str.sort (b :: l))).
    destruct (Str.sort (b :: l)) as [|y ys]; [discriminate|].
    cbn in Hm. injection Hm as ->. cbn.
    destruct (Str.ltb m a) eqn:Hma; cbn.
    + exists m. split; [reflexivity|]. split; [apply elem_of_cons; auto|].
      intros x Hx. apply elem_of_cons in Hx as [->|Hx]; [|auto].
      apply ltb_asym. exact Hma.
    + exists a. split; [reflexivity|]. split; [apply elem_of_cons; auto|].
      intros x Hx. apply elem_of_cons in Hx as [->|Hx]; [apply ltb_irrefl|].
      destruct (Str.ltb x a) eqn:Hxa; [|reflexivity].
      destruct (ltb_cotrans _ _ m Hxa) as [E|E]; [|congruence].
      rewrite (Hmin x Hx) in E. discriminate.
Qed.

(** *** The grid extent *)

Lemma max_of_nonneg l : 0 ≤ max_of l.
Proof. induction l as [|a l IH]; unfold max_of in *; cbn [foldr]; lia. Qed.

Lemma grid_extent_max images coords a b :
  parsed images coords → 0 ≤ a → 0 ≤ b →
  Dataset.grid_extent images a b
  = Ok (Z.max a (max_of (rows_of coords)), Z.max b (max_of (cols_of coords))).
Proof.
  intros HP. revert a b.
  induction HP as [|image rc images coords E HP IH]; intros a b Ha Hb.
  - cbn [Dataset.grid_extent ret outcome_monad]. unfold rows_of, cols_of, max_of.
    cbn [map foldr]. f_equal. f_equal; lia.
  - cbn [Dataset.grid_extent]. rewrite E.
    cbn [index lookup list_lookup bind outcome_monad]. rewrite IH by lia.
    unfold rows_of, cols_of, max_of. cbn [map foldr fst snd]. f_equal. f_equal; lia.
Qed.

Ltac unfold_M :=
  cbn [bind ret M_monad outcome_monad lift emit skip raise
       os.path_exists os.makedirs otb.CreateApplication
       otb.ExecuteAndWriteOutput ps.extractZip Dataset.glob Dataset.open
       fspath getitem local otb.SetParameterString fs trace fst snd].
Tactic Notation "unfold_M" "in" hyp(E) :=
  cbn [bind ret M_monad outcome_monad lift emit skip raise
       os.path_exists os.makedirs otb.CreateApplication
       otb.ExecuteAndWriteOutput ps.extractZip Dataset.glob Dataset.open
       fspath getitem local otb.SetParameterString fs trace fst snd] in E.

(** Case analysis on the outcome of the engine call at the head of [E]. *)
Ltac case_execute E :=
  unfold otb.ExecuteAndWriteOutput in E;
  match type of E with
  | context [otb_execute ?a ?f] => destruct (otb_execute a f) eqn:?
  end;
  unfold_M in E.

Section TileFusionGrid.
Context `{Collaborators}.

Lemma getTileFusionImages_unfold (self : Dataset) images coords out_path w :
  parsed images coords →
  Dataset.getTileFusionImages self images out_path w
  = (let nrows := max_of (rows_of coords) in
     let ncols := max_of (cols_of coords) in
     if Z.of_nat (length images) =? nrows * ncols then
       if (1 <? length images)%nat then
         (app <- otb.CreateApplication "TileFusion";;
          let images := Str.sort images in
          first <- lift (index images 0);;
          let out_pathname :=
            os_path.join out_path
              (Str.replace "_R1C1" "_MOSAIC" (os_path.basename first)) in
          e <- os.path_exists out_pathname;;
          _ <- (if e then skip else
                 d <- os.path_exists out_path;;
                 _ <- (if d then skip else os.makedirs out_path);;
                 let app := otb.set app "il" (PStringList images) in
                 let app := otb.set app "out"
                              (PString (out_pathname +:+ "?&gdal:co:TILED=YES")) in
                 let app := otb.set app "cols" (PInt ncols) in
                 let app := otb.set app "rows" (PInt nrows) in
                 otb.ExecuteAndWriteOutput app);;
          ret (PyStr out_pathname)) w
       else
         (first <- lift (index images 0);;
          ret (PyStr first)) w
     else (Ok PyNone, w)).
Proof.
  intros HP. unfold Dataset.getTileFusionImages.
  rewrite bind_run, lift_run, (grid_extent_max _ _ 0 0 HP) by lia.
  rewrite !Z.max_r by apply max_of_nonneg.
  cbv zeta. destruct (_ =? _); [|reflexivity].
  destruct (_ <? _)%nat; reflexivity.
Qed.

(** C2 (as amended). For a non-empty tile list whose names carry row and
    column digits, with [nrows] and [ncols] the largest row and column:
    - when the count equals [nrows * ncols] and there are several tiles,
      the result is the output directory joined with the basename of the
      first tile in sorted order, [_R1C1] replaced by [_MOSAIC] (unless the
      engine raises), and a file already at that path is returned without
      running the engine;
    - a single tile is returned unchanged, the world untouched, when its
      grid is 1 x 1 (the count matches);
    - when the count does not match, for one tile or several, the result
      is [None] and the world is untouched. *)
Theorem getTileFusionImages_grid (self : Dataset) (images : list string)
    (coords : list (string * string)) (out_path : string) (w : World) :
  images ≠ [] → parsed images coords →
  let nrows := max_of (rows_of coords) in
  let ncols := max_of (cols_of coords) in
  let count := Z.of_nat (length images) in
  let run := Dataset.getTileFusionImages self images out_path w in
  (count = nrows * ncols → (1 < length images)%nat →
     ∃ first, head (Str.sort images) = Some first ∧ first ∈ images
       ∧ (∀ x, x ∈ images → Str.ltb x first = false)
       ∧ let out := os_path.join out_path
                      (Str.replace "_R1C1" "_MOSAIC" (os_path.basename first)) in
         (run.1 = Ok (PyStr out) ∨ run.1 = Raise RuntimeError)
         ∧ (out ∈ fs w →
            run = (Ok (PyStr out),
                   mkWorld (fs w) (trace w ++ [EvCreateApplication "TileFusion"]))))
  ∧ (∀ tile, images = [tile] → nrows * ncols = 1 → run = (Ok (PyStr tile), w))
  ∧ (count ≠ nrows * ncols → run = (Ok PyNone, w)).
Proof.
  intros Hne HP nrows ncols count run.
  pose proof (getTileFusionImages_unfold self images coords out_path w HP) as E.
  fold run in E. cbv zeta in E. fold nrows ncols count in E.
  split; [|split].
  - intros Hc Hl.
    destruct (sort_head images Hne) as (first & Hh & Hin & Hmin).
    exists first. split; [exact Hh|]. split; [exact Hin|]. split; [exact Hmin|].
    apply Z.eqb_eq in Hc. apply Nat.ltb_lt in Hl. rewrite Hc, Hl in E.
    assert (Hi : index (Str.sort images) 0 = Ok first).
    { unfold index. destruct (Str.sort images); cbn in *; congruence. }
    cbv zeta.
    set (out := os_path.join out_path _).
    unfold_M in E.
    rewrite Hi in E. fold out in E.
    split.
    + destruct (bool_decide (out ∈ fs w)); [rewrite E; left; reflexivity|].
      unfold_M in E.
      destruct (bool_decide (out_path ∈ fs w)); unfold_M in E;
        case_execute E; rewrite E; cbn; auto.
    + intros Hout. rewrite bool_decide_eq_true_2 in E by exact Hout. exact E.
  - intros tile -> Hone. cbn [length] in E. unfold count in E. cbn [length] in E.
    fold nrows ncols in Hone. rewrite Hone in E. cbn in E. exact E.
  - intros Hc. apply Z.eqb_neq in Hc. rewrite Hc in E. exact E.
Qed.

End TileFusionGrid.

Section TileFusionExamples.
#[local] Existing Instance Fixture.collaborators.

Lemma getTileFusionImages_grid_witness :
  let images := ["/data/tmp/cal/P/IMG_PHR1A_P_001_R1C1_CAL.TIF";
                 "/data/tmp/cal/P/IMG_PHR1A_P_001_R1C2_CAL.TIF";
                 "/data/tmp/cal/P/IMG_PHR1A_P_001_R2C1_CAL.TIF"] in
  let coords := [("1", "1"); ("1", "2"); ("2", "1")] in
  images ≠ [] ∧ parsed images coords
  ∧ Dataset.getTileFusionImages Fixture.pleiades images "/data/tmp/mosaic/P" Fixture.w0
    = (Ok PyNone, Fixture.w0).
Proof.
  intros images coords.
  assert (Hne : images ≠ []) by discriminate.
  assert (HP : parsed images coords) by (repeat constructor).
  destruct (getTileFusionImages_grid Fixture.pleiades images coords
              "/data/tmp/mosaic/P" Fixture.w0 Hne HP) as (_ & _ & Hincomplete).
  split; [exact Hne|]. split; [exact HP|].
  apply Hincomplete. vm_compute. discriminate.
Defined.

(** A single tile that is not the R1C1 tile is not returned: its grid is
    1 x 2, the count does not match, and the result is [None]. *)
Lemma getTileFusionImages_single_off_origin :
  let tile := "/data/tmp/cal/P/IMG_PHR1A_P_001_R1C2_CAL.TIF" in
  Dataset.getTileCoordinates tile = ["1"; "2"]
  ∧ Dataset.getTileFusionImages Fixture.pleiades [tile] "/data/tmp/mosaic/P" Fixture.w0
    = (Ok PyNone, Fixture.w0)
  ∧ (Dataset.getTileFusionImages Fixture.pleiades [tile] "/data/tmp/mosaic/P" Fixture.w0).1
    ≠ Ok (PyStr tile).
Proof. vm_compute. repeat split. discriminate. Qed.

End TileFusionExamples.

(** ** Clipping to the region of interest *)

Section RoiClip.
Context `{Collaborators}.

(** C8. When the resolver of the configured region answers "no overlap"
    ([None]) for an image, [getRoiImage] returns [None]; the only thing it
    has done is to create the [ExtractROI] application object: no engine
    execution, no directory creation, the file system as it was. *)
Theorem getRoiImage_no_overlap (self : Dataset) (roi : list Q) (image : pyobj)
    (out_path : string) (w : World) :
  _roi self = Some roi →
  BBox_getImageRoi roi image = Ok None →
  ∃ w', Dataset.getRoiImage self image out_path w = (Ok PyNone, w')
        ∧ fs w' = fs w
        ∧ trace w' = trace w ++ [EvCreateApplication "ExtractROI"]
        ∧ executions (trace w') = executions (trace w)
        ∧ makedirs_of (trace w') = makedirs_of (trace w).
Proof.
  intros Hroi Hnone. eexists. split.
  - unfold Dataset.getRoiImage. rewrite Hroi. unfold_M. rewrite Hnone. reflexivity.
  - cbn [fs trace]. unfold executions, makedirs_of. rewrite !omap_app. cbn.
    rewrite !app_nil_r. auto.
Qed.

End RoiClip.

Section RoiClipExamples.
#[local] Existing Instance Fixture.collaborators.

Lemma getRoiImage_no_overlap_witness :
  let image := PyStr "/data/tmp/mosaic/P/IMG_PHR1A_P_001_MOSAIC_CAL.TIF" in
  _roi Fixture.pleiades_roi = Some [0%Q; 0%Q; 1%Q; 1%Q]
  ∧ BBox_getImageRoi [0%Q; 0%Q; 1%Q; 1%Q] image = Ok None
  ∧ ∃ w', Dataset.getRoiImage Fixture.pleiades_roi image "/data/tmp/roi/P" Fixture.w0
          = (Ok PyNone, w')
        ∧ fs w' = fs Fixture.w0
        ∧ trace w' = trace Fixture.w0 ++ [EvCreateApplication "ExtractROI"]
        ∧ executions (trace w') = executions (trace Fixture.w0)
        ∧ makedirs_of (trace w') = makedirs_of (trace Fixture.w0).
Proof.
  intros image.
  assert (Hroi : _roi Fixture.pleiades_roi = Some [0%Q; 0%Q; 1%Q; 1%Q])
    by reflexivity.
  assert (Hnone : BBox_getImageRoi [0%Q; 0%Q; 1%Q; 1%Q] image = Ok None)
    by reflexivity.
  split; [exact Hroi|]. split; [exact Hnone|].
  exact (getRoiImage_no_overlap Fixture.pleiades_roi _ image "/data/tmp/roi/P"
           Fixture.w0 Hroi Hnone).
Defined.

End RoiClipExamples.

(** ** The run of a scene *)

Section ExtractFailure.
Context `{Collaborators}.

(** C6. When the extractor returns a non-zero exit code, the run of the
    scene ends there: [Pleiades.processToArd] raises (its [return] reads
    the unbound [pan_image]), [Spot.processToArd] returns [None], and in
    both the only events are the creation of the extraction directory (if
    it was missing) and the extraction itself: no band discovery, no
    application is created, the engine is never executed. *)
Theorem processToArd_extract_failure (self : Dataset) (ard_path : string) (w : World) :
  let path := scene_path_of self in
  let w1 := with_scene_path self w in
  let extracted := ps_extractZip (_scene self) path (fs w1) in
  extracted.1 ≠ 0 →
  let w2 := mkWorld extracted.2 (trace w1 ++ [EvExtractZip (_scene self) path]) in
  Pleiades.processToArd self w = (Raise UnboundLocalError, w2)
  ∧ Spot.processToArd self ard_path w = (Ok PyNone, w2)
  ∧ ∃ evs, trace w2 = trace w ++ evs
           ∧ Forall (λ ev, ev = EvMakedirs path ∨ ev = EvExtractZip (_scene self) path) evs
           ∧ executions evs = [] ∧ created evs = [].
Proof.
  intros path w1 extracted Hcode w2.
  assert (Hz : (extracted.1 =? 0) = false) by (apply Z.eqb_neq; exact Hcode).
  clear Hcode. subst w2 extracted w1 path. unfold with_scene_path in *.
  unfold Pleiades.processToArd, Spot.processToArd.
  fold (root_path_of self). fold (scene_path_of self).
  generalize dependent (scene_path_of self). intros path.
  unfold_M. unfold ps.extractZip.
  destruct (bool_decide (path ∈ fs w)); unfold_M;
    destruct (ps_extractZip _ _ _) as [code fs'] eqn:E; unfold_M;
    intros Hz; rewrite Hz; unfold_M.
  - split; [reflexivity|]. split; [reflexivity|].
    exists [EvExtractZip (_scene self) path].
    split; [reflexivity|]. split; [|split; reflexivity].
    constructor; [right; reflexivity|constructor].
  - split; [reflexivity|]. split; [reflexivity|].
    exists [EvMakedirs path; EvExtractZip (_scene self) path].
    split; [rewrite <- app_assoc; reflexivity|]. split; [|split; reflexivity].
    constructor; [left; reflexivity|]. constructor; [right; reflexivity|constructor].
Qed.

End ExtractFailure.

Section ExtractFailureExamples.
#[local] Existing Instance Fixture.collaborators.

(** The archive is missing: the extractor of the example environment
    exits with code 2. *)
Lemma processToArd_extract_failure_witness :
  let self := Fixture.pleiades in
  let w2 := mkWorld {["/data/tmp/scene"; "/data/tmp"; "/data"]}
              [EvMakedirs "/data/tmp/scene";
               EvExtractZip Fixture.pleiades_scene "/data/tmp/scene"] in
  (ps_extractZip (_scene self) (scene_path_of self)
     (fs (with_scene_path self Fixture.empty_world))).1 ≠ 0
  ∧ Pleiades.processToArd self Fixture.empty_world = (Raise UnboundLocalError, w2)
  ∧ Spot.processToArd self "/data/ard" Fixture.empty_world = (Ok PyNone, w2).
Proof.
  intros self w2.
  assert (Hcode : (ps_extractZip (_scene self) (scene_path_of self)
                     (fs (with_scene_path self Fixture.empty_world))).1 ≠ 0)
    by (vm_compute; discriminate).
  destruct (processToArd_extract_failure self "/data/ard" Fixture.empty_world Hcode)
    as (HP & HS & _).
  split; [exact Hcode|]. split.
  - rewrite HP. vm_compute. reflexivity.
  - rewrite HS. vm_compute. reflexivity.
Defined.

End ExtractFailureExamples.

(** ** What [processToArd] returns *)

Lemma bind_inv {A B} (m : M A) (f : A → M B) w b w' :
  bind m f w = (Ok b, w') → ∃ a w1, m w = (Ok a, w1) ∧ f a w1 = (Ok b, w').
Proof.
  rewrite bind_run. destruct (m w) as [[a|e] w1]; [eauto|discriminate].
Qed.

Section ReturnValues.
Context `{Collaborators}.

(** Whatever the scene, a run of [Spot.processToArd] that returns at all
    returns [None]. *)
Lemma Spot_processToArd_None (self : Dataset) (ard_path : string) w r w' :
  Spot.processToArd self ard_path w = (Ok r, w') → r = PyNone.
Proof.
  unfold Spot.processToArd. intros E.
  apply bind_inv in E as (? & ? & _ & E).
  apply bind_inv in E as (? & ? & _ & E).
  apply bind_inv in E as (? & ? & _ & E).
  apply bind_inv in E as (? & ? & _ & E).
  cbn in E. congruence.
Qed.

(** A run of [Pleiades.processToArd] that returns gives the path returned
    by the pansharpening stage and the path returned by the
    superimposition stage (which [mosaic['MS']] holds by then). *)
Lemma Pleiades_processToArd_pair (self : Dataset) w r w' :
  Pleiades.processToArd self w = (Ok r, w') →
  ∃ mosaic super pan_image w1 w2,
    Dataset.getSuperimposedImage self mosaic
      (os_path.join (root_path_of self) "pan") w1 = (Ok super, w2)
    ∧ Dataset.getPansharpenImage self (<["MS" := PyStr super]> mosaic)
        (os_path.join (root_path_of self) "pan") w2 = (Ok pan_image, w')
    ∧ r = (PyStr pan_image, PyStr super).
Proof.
  unfold Pleiades.processToArd. fold (root_path_of self). intros E.
  apply bind_inv in E as (? & ? & _ & E).
  apply bind_inv in E as (? & ? & _ & E).
  apply bind_inv in E as (code & ? & _ & E).
  apply bind_inv in E as ([pan_image mosaic] & w3 & E1 & E).
  destruct (code =? 0); [|injection E1 as <- <- <-; discriminate].
  apply bind_inv in E1 as (images & ? & _ & E1).
  apply bind_inv in E1 as (? & ? & _ & E1).
  apply bind_inv in E1 as (? & ? & _ & E1).
  apply bind_inv in E1 as (m0 & w1 & _ & E1).
  apply bind_inv in E1 as (super & w2 & Hs & E1).
  apply bind_inv in E1 as (p & w4 & Hp & E1).
  cbn in E1. injection E1 as <- <- <-.
  cbn in E. rewrite lookup_insert_eq in E. cbn in E. injection E as <- <-.
  exists m0, super, p, w1, w2. auto.
Qed.

End ReturnValues.

Section ReturnValuesExamples.
#[local] Existing Instance Fixture.collaborators.

(** C4 (the code departs from the claim). A SPOT scene is processed to
    the end, its pansharpened product is on disk, and [processToArd]
    returns [None]; on a Pleiades scene the sibling method returns the
    pansharpened path with [mosaic['MS']]. *)
Theorem processToArd_return_values :
  let spot_run := Spot.processToArd Fixture.spot "/data/ard" Fixture.w0 in
  spot_run.1 = Ok PyNone
  ∧ bool_decide ("/data/tmp/pan/IMG_SPOT6_MS_001_R1C1_CAL.TIF" ∈ fs spot_run.2) = true
  ∧ created (trace spot_run.2)
    = ["OpticalCalibration"; "OpticalCalibration"; "Pansharpening"]
  ∧ (Pleiades.processToArd Fixture.pleiades Fixture.w0).1
    = Ok (PyStr "/data/tmp/pan/IMG_PHR1A_PAN_001_R1C1_CAL.TIF",
          PyStr "/data/tmp/pan/IMG_PHR1A_MS_SUPER_001_R1C1_CAL.TIF").
Proof. repeat split; vm_compute; reflexivity. Qed.

End ReturnValuesExamples.

(** ** Construction *)

(** The base constructor fails only where it formats the acquisition
    time; everything after that succeeds. *)
Lemma Dataset_init_run (scene : string) (kw : kwargs) (w : World) :
  match Dataset.getDateTimeString scene with
  | Ok dts =>
      ∃ self w', Dataset.__init__ scene kw w = (Ok self, w')
                 ∧ _datetime self = dts ∧ _scene self = scene
                 ∧ _tle self = PyNone
  | Raise e => Dataset.__init__ scene kw w = (Raise e, w)
  end.
Proof.
  unfold Dataset.__init__.
  destruct (Dataset.getDateTimeString scene) as [dts|e]; unfold_M; [|reflexivity].
  destruct (bool_decide _); unfold_M; eauto 10.
Qed.

Lemma getitem_registry registry platform :
  getitem registry platform
  = match registry_value registry platform with
    | Some v => Ok v
    | None => Raise KeyError
    end.
Proof. destruct platform; reflexivity. Qed.

(** C7 (as amended). For either profile: when the platform code read
    from the file name is a key of the registry and the name carries an
    acquisition time that parses, construction succeeds and [_tle] is
    exactly the registry's value for the code; when the code is not a key
    (or the pattern does not match), construction fails, with no
    fallback value. *)
Theorem construction_by_registry (scene : string) (kw : kwargs) (w : World) :
  let pleiades_code := Dataset.getPlatform scene Re.pleiades_pattern in
  let spot_code := Dataset.getPlatform scene Re.spot_pattern in
  (∀ v dts, registry_value Pleiades.norad_id pleiades_code = Some v →
      Dataset.getDateTimeString scene = Ok dts →
      ∃ self w', Pleiades.__init__ scene kw w = (Ok self, w')
                 ∧ _tle self = PyInt v ∧ _platform self = pleiades_code)
  ∧ (registry_value Pleiades.norad_id pleiades_code = None →
      ∃ e w', Pleiades.__init__ scene kw w = (Raise e, w'))
  ∧ (∀ v dts, registry_value Spot.norad_id spot_code = Some v →
      Dataset.getDateTimeString scene = Ok dts →
      ∃ self w', Spot.__init__ scene kw w = (Ok self, w')
                 ∧ _tle self = PyInt v ∧ _platform self = spot_code)
  ∧ (registry_value Spot.norad_id spot_code = None →
      ∃ e w', Spot.__init__ scene kw w = (Raise e, w')).
Proof.
  intros pleiades_code spot_code.
  pose proof (Dataset_init_run scene kw w) as Hbase.
  unfold Pleiades.__init__, Spot.__init__.
  fold pleiades_code spot_code. rewrite !bind_run.
  repeat split.
  - intros v dts Hv Hdt. rewrite Hdt in Hbase.
    destruct Hbase as (self & w' & -> & _).
    rewrite bind_run, lift_run, getitem_registry, Hv. cbn. eauto.
  - intros Hv. destruct (Dataset.getDateTimeString scene).
    + destruct Hbase as (self & w' & -> & _).
      rewrite bind_run, lift_run, getitem_registry, Hv. eauto.
    + rewrite Hbase. eauto.
  - intros v dts Hv Hdt. rewrite Hdt in Hbase.
    destruct Hbase as (self & w' & -> & _).
    rewrite bind_run, lift_run, getitem_registry, Hv. cbn. eauto.
  - intros Hv. destruct (Dataset.getDateTimeString scene).
    + destruct Hbase as (self & w' & -> & _).
      rewrite bind_run, lift_run, getitem_registry, Hv. eauto.
    + rewrite Hbase. eauto.
Qed.

Lemma construction_by_registry_witness :
  let scene := Fixture.pleiades_scene in
  registry_value Pleiades.norad_id (Dataset.getPlatform scene Re.pleiades_pattern)
  = Some 38012
  ∧ Dataset.getDateTimeString scene = Ok "20200101_123045"
  ∧ registry_value Spot.norad_id (Dataset.getPlatform scene Re.spot_pattern) = None
  ∧ (∃ self w', Pleiades.__init__ scene Fixture.no_kwargs Fixture.w0 = (Ok self, w')
                ∧ _tle self = PyInt 38012
                ∧ _platform self = Dataset.getPlatform scene Re.pleiades_pattern)
  ∧ (∃ e w', Spot.__init__ scene Fixture.no_kwargs Fixture.w0 = (Raise e, w')).
Proof.
  intros scene.
  assert (Hv : registry_value Pleiades.norad_id
                 (Dataset.getPlatform scene Re.pleiades_pattern) = Some 38012)
    by (vm_compute; reflexivity).
  assert (Hdt : Dataset.getDateTimeString scene = Ok "20200101_123045")
    by (vm_compute; reflexivity).
  assert (Hs : registry_value Spot.norad_id
                 (Dataset.getPlatform scene Re.spot_pattern) = None)
    by (vm_compute; reflexivity).
  destruct (construction_by_registry scene Fixture.no_kwargs Fixture.w0)
    as (HP & _ & _ & HS).
  split; [exact Hv|]. split; [exact Hdt|]. split; [exact Hs|].
  split; [exact (HP _ _ Hv Hdt)|exact (HS Hs)].
Defined.

(** A name with a registered platform code and no acquisition time: the
    code is a key of the registry, and construction fails all the same,
    in the base constructor. *)
Lemma construction_needs_datetime :
  let scene := "/data/IMG_PHR1A_MS.zip" in
  registry_value Pleiades.norad_id (Dataset.getPlatform scene Re.pleiades_pattern)
  = Some 38012
  ∧ Pleiades.__init__ scene Fixture.no_kwargs Fixture.w0
    = (Raise AttributeError, Fixture.w0).
Proof. split; vm_compute; reflexivity. Qed.

(** ** The cache key *)

(** After the construction of either profile [_tle] is an [int], and
    [getSubPath] hands it to [os.path.join]. *)
Lemma getSubPath_TypeError (scene : string) (kw : kwargs) (w : World) self w' :
  Pleiades.__init__ scene kw w = (Ok self, w')
  ∨ Spot.__init__ scene kw w = (Ok self, w') →
  Dataset.getSubPath self = Raise TypeError.
Proof.
  unfold Pleiades.__init__, Spot.__init__. intros [E|E];
    apply bind_inv in E as (? & ? & _ & E);
    apply bind_inv in E as (? & ? & _ & E);
    cbn in E; injection E as <- <-; reflexivity.
Qed.

(** C10 (the code departs from the claim). Two Pleiades scenes whose
    time stamps differ in the last digit only are constructed with the
    same [_datetime], cut to whole seconds, and the same [_tle]; but
    [getSubPath] yields no directory for either: [os.path.join] is given
    the integer [_tle] and raises [TypeError]. *)
Theorem getSubPath_same_second :
  let self1 := Fixture.instance
                 (Pleiades.__init__ "/data/DS_PHR1A_202001011230451_SEN.zip" Fixture.no_kwargs) in
  let self2 := Fixture.instance
                 (Pleiades.__init__ "/data/DS_PHR1A_202001011230452_SEN.zip" Fixture.no_kwargs) in
  (Pleiades.__init__ "/data/DS_PHR1A_202001011230451_SEN.zip" Fixture.no_kwargs
     Fixture.w0).1 = Ok self1
  ∧ (Pleiades.__init__ "/data/DS_PHR1A_202001011230452_SEN.zip" Fixture.no_kwargs
       Fixture.w0).1 = Ok self2
  ∧ _datetime self1 = "20200101_123045" ∧ _datetime self2 = "20200101_123045"
  ∧ _tle self1 = PyInt 38012 ∧ _tle self2 = PyInt 38012
  ∧ Dataset.getSubPath self1 = Raise TypeError
  ∧ Dataset.getSubPath self2 = Raise TypeError.
Proof. repeat split; vm_compute; reflexivity. Qed.

(** ** The acquisition time *)

(** *** Digits *)

Lemma digit_cases (c : ascii) :
  Str.is_digit c = true →
  c = "0"%char ∨ c = "1"%char ∨ c = "2"%char ∨ c = "3"%char ∨ c = "4"%char
  ∨ c = "5"%char ∨ c = "6"%char ∨ c = "7"%char ∨ c = "8"%char ∨ c = "9"%char.
Proof.
  destruct c as [[] [] [] [] [] [] [] []]; vm_compute; intros E;
    first [discriminate E | auto 10].
Qed.

Ltac digit_cases c H :=
  destruct (digit_cases c H) as [->|[->|[->|[->|[->|[->|[->|[->|[->| ->]]]]]]]]].

Lemma digit_val_char (c : ascii) :
  Str.is_digit c = true →
  0 ≤ Str.digit_val c ≤ 9 ∧ Str.digit_char (Str.digit_val c) = c.
Proof. intros Hc. digit_cases c Hc; vm_compute; intuition discriminate. Qed.

Lemma digit_not_underscore (c : ascii) :
  Str.is_digit c = true → Ascii.eqb c "_" = false.
Proof. intros Hc. digit_cases c Hc; reflexivity. Qed.

Lemma pad2_int (c1 c2 : ascii) :
  Str.is_digit c1 = true → Str.is_digit c2 = true →
  Str.pad2 (Str.int (String c1 (String c2 ""))) = String c1 (String c2 "").
Proof.
  intros H1 H2. digit_cases c1 H1; digit_cases c2 H2; vm_compute; reflexivity.
Qed.

Lemma pad4_int (c1 c2 c3 c4 : ascii) :
  Str.is_digit c1 = true → Str.is_digit c2 = true →
  Str.is_digit c3 = true → Str.is_digit c4 = true →
  Str.pad4 (Str.int (String c1 (String c2 (String c3 (String c4 "")))))
  = String c1 (String c2 (String c3 (String c4 ""))).
Proof.
  intros H1 H2 H3 H4.
  destruct (digit_val_char c1 H1) as (R1 & E1).
  destruct (digit_val_char c2 H2) as (R2 & E2).
  destruct (digit_val_char c3 H3) as (R3 & E3).
  destruct (digit_val_char c4 H4) as (R4 & E4).
  unfold Str.pad4, Str.pad2, Str.int. cbn [Str.int_from].
  set (n := 10 * (10 * (10 * (10 * 0 + _) + _) + _) + _).
  replace (n / 1000 mod 10) with (Str.digit_val c1)
    by (subst n; Z.div_mod_to_equations; lia).
  replace (n / 100 mod 10) with (Str.digit_val c2)
    by (subst n; Z.div_mod_to_equations; lia).
  replace (n / 10 mod 10) with (Str.digit_val c3)
    by (subst n; Z.div_mod_to_equations; lia).
  replace (n mod 10) with (Str.digit_val c4)
    by (subst n; Z.div_mod_to_equations; lia).
  rewrite E1, E2, E3, E4. reflexivity.
Qed.

Lemma pad6_tenths (c : ascii) :
  Str.is_digit c = true →
  Str.pad6 (Str.int (String c "") * 100000) = String c "00000".
Proof. intros Hc. digit_cases c Hc; vm_compute; reflexivity. Qed.

(** *** Stripping the delimiters *)

Lemma rstrip_digits (tok : string) :
  Str.all_chars Str.is_digit tok = true →
  Str.rstrip "_" (tok +:+ "_") = tok.
Proof.
  induction tok as [|a tok IH]; [reflexivity|].
  cbn [Str.all_chars]. intros [Ha Ht]%andb_prop.
  change (Str.rstrip "_" (String a tok +:+ "_"))
    with (match Str.rstrip "_" (tok +:+ "_") with
          | EmptyString => if Ascii.eqb a "_" then EmptyString else String a EmptyString
          | String b r => String a (String b r)
          end).
  rewrite (IH Ht).
  destruct tok; [|reflexivity].
  rewrite (digit_not_underscore a Ha). reflexivity.
Qed.

Lemma strip_token (tok : string) :
  Str.all_chars Str.is_digit tok = true → tok ≠ "" →
  Str.strip "_" ("_" +:+ tok +:+ "_") = tok.
Proof.
  intros Ht Hne. unfold Str.strip.
  destruct tok as [|a tok]; [congruence|].
  cbn [Str.all_chars] in Ht. apply andb_prop in Ht as Ht'. destruct Ht' as [Ha _].
  change (Str.lstrip "_" ("_" +:+ String a tok +:+ "_"))
    with (if Ascii.eqb a "_" then Str.lstrip "_" (tok +:+ "_")
          else String a tok +:+ "_").
  rewrite (digit_not_underscore a Ha).
  exact (rstrip_digits (String a tok) Ht).
Qed.

(** *** [strptime] on a fixed-width token *)

(** A two-digit field in range is taken whole by the first alternative
    that matches; the shorter alternatives stay untried as long as the
    rest of the format matches. *)
Lemma try_two_digits d c1 c2 rest k ms r :
  Str.is_digit c1 = true → Str.is_digit c2 = true →
  two_digit_ok d c1 c2 = true →
  k rest = Some (ms, r) →
  datetime.try_alternatives k (datetime.alternatives d) (String c1 (String c2 rest))
  = Some (String c1 (String c2 "") :: ms, r).
Proof.
  intros H1 H2 Hok Hk.
  unfold two_digit_ok in Hok.
  destruct d; try discriminate Hok;
    digit_cases c1 H1; digit_cases c2 H2; vm_compute in Hok;
    first [discriminate Hok
          | cbv; rewrite Hk; reflexivity].
Qed.

Lemma try_year c1 c2 c3 c4 rest k ms r :
  Str.is_digit c1 = true → Str.is_digit c2 = true →
  Str.is_digit c3 = true → Str.is_digit c4 = true →
  k rest = Some (ms, r) →
  datetime.try_alternatives k (datetime.alternatives datetime.DY)
    (String c1 (String c2 (String c3 (String c4 rest))))
  = Some (String c1 (String c2 (String c3 (String c4 ""))) :: ms, r).
Proof.
  intros H1 H2 H3 H4 Hk.
  cbn [datetime.alternatives datetime.try_alternatives Re.match_here Re.accepts].
  rewrite H1, H2, H3, H4, Hk. reflexivity.
Qed.

Lemma try_fraction c :
  Str.is_digit c = true →
  datetime.match_directives [datetime.Df] (String c "") = Some ([String c ""], "").
Proof. intros Hc. digit_cases c Hc; reflexivity. Qed.

Lemma days_in_month_le y m : datetime.days_in_month y m ≤ 31.
Proof.
  unfold datetime.days_in_month.
  repeat match goal with |- context [if ?b then _ else _] => destruct b end; lia.
Qed.

Lemma make_ok y m d H M S us dt :
  datetime.make y m d H M S us = Ok dt →
  dt = datetime.mk y m d H M S us
  ∧ datetime.between 1 m 12 = true ∧ datetime.between 1 d 31 = true
  ∧ datetime.between 0 H 23 = true ∧ datetime.between 0 M 59 = true
  ∧ datetime.between 0 S 59 = true.
Proof.
  unfold datetime.make.
  destruct (datetime.between 1 y 9999); [|discriminate].
  destruct (datetime.between 1 m 12); [|discriminate].
  destruct (datetime.between 1 d _) eqn:Hd; [|discriminate].
  destruct (datetime.between 0 H 23); [|discriminate].
  destruct (datetime.between 0 M 59); [|discriminate].
  destruct (datetime.between 0 S 59); [|discriminate].
  destruct (datetime.between 0 us 999999); [|discriminate].
  cbn. intros [= <-]. repeat split.
  pose proof (days_in_month_le y m).
  unfold datetime.between in *. lia.
Qed.

(** A valid token is fifteen digit characters. *)
Lemma valid_token_chars tok :
  valid_token tok = true →
  ∃ c1 c2 c3 c4 c5 c6 c7 c8 c9 c10 c11 c12 c13 c14 c15,
    tok = String c1 (String c2 (String c3 (String c4 (String c5 (String c6
            (String c7 (String c8 (String c9 (String c10 (String c11
              (String c12 (String c13 (String c14 (String c15 ""))))))))))))))
    ∧ Forall (λ c, Str.is_digit c = true)
        [c1; c2; c3; c4; c5; c6; c7; c8; c9; c10; c11; c12; c13; c14; c15].
Proof.
  unfold valid_token. intros [[Hlen Hdig]%andb_prop _]%andb_prop.
  apply Nat.eqb_eq in Hlen.
  do 15 (destruct tok as [|? tok]; [discriminate Hlen|]).
  destruct tok; [|discriminate Hlen].
  cbn [Str.all_chars] in Hdig.
  repeat (apply andb_prop in Hdig as [? Hdig]).
  do 15 eexists. split; [reflexivity|]. repeat constructor; assumption.
Qed.

(** On a valid token [strptime] reads the fields by position, and
    formatting the instant with the same format gives the token back,
    followed by the five digits of the microseconds it does not carry. *)
Lemma strptime_valid_token tok :
  valid_token tok = true →
  ∃ dt, datetime.strptime tok "%Y%m%d%H%M%S%f" = Ok dt
        ∧ instant_of_token tok = Ok dt
        ∧ datetime.microsecond dt = field 14 1 tok * 100000
        ∧ datetime.strftime dt "%Y%m%d%H%M%S%f" = tok +:+ "00000"
        ∧ datetime.strftime dt "%Y%m%d_%H%M%S"
          = Str.take 8 tok +:+ "_" +:+ Str.take 6 (Str.drop 8 tok).
Proof.
  intros Hv. destruct (valid_token_chars tok Hv) as
    (c1 & c2 & c3 & c4 & c5 & c6 & c7 & c8 & c9 & c10 & c11 & c12 & c13 & c14
       & c15 & -> & Hd).
  repeat match goal with
         | H : Forall _ (_ :: _) |- _ => apply Forall_cons in H as [? H]
         end.
  clear Hd.
  unfold valid_token in Hv. apply andb_prop in Hv as [_ Hv].
  destruct (instant_of_token _) as [dt|] eqn:Hi; [clear Hv|discriminate].
  exists dt.
  unfold instant_of_token, field in Hi. cbn [Str.drop Str.take] in Hi.
  destruct (make_ok _ _ _ _ _ _ _ _ Hi) as (-> & Hm & Hdd & HH & HM & HS).
  assert (E : datetime.match_directives
                (datetime.parse_format "%Y%m%d%H%M%S%f")
                (String c1 (String c2 (String c3 (String c4 (String c5 (String c6
                  (String c7 (String c8 (String c9 (String c10 (String c11
                    (String c12 (String c13 (String c14 (String c15 "")))))))))))))))
              = Some ([String c1 (String c2 (String c3 (String c4 "")));
                       String c5 (String c6 ""); String c7 (String c8 "");
                       String c9 (String c10 ""); String c11 (String c12 "");
                       String c13 (String c14 ""); String c15 ""], "")).
  { change (datetime.parse_format "%Y%m%d%H%M%S%f")
      with [datetime.DY; datetime.Dm; datetime.Dd; datetime.DH; datetime.DM;
            datetime.DS; datetime.Df].
    cbn [datetime.match_directives].
    apply try_year; try assumption.
    apply (try_two_digits datetime.Dm); try assumption.
    apply (try_two_digits datetime.Dd); try assumption.
    apply (try_two_digits datetime.DH); try assumption.
    apply (try_two_digits datetime.DM); try assumption.
    apply (try_two_digits datetime.DS); try assumption.
    apply try_fraction; assumption. }
  split.
  { unfold datetime.strptime. rewrite E.
    change (datetime.parse_format "%Y%m%d%H%M%S%f")
      with [datetime.DY; datetime.Dm; datetime.Dd; datetime.DH; datetime.DM;
            datetime.DS; datetime.Df].
    cbn [datetime.set_fields datetime.set_field datetime.defaults
         datetime.year datetime.month datetime.day datetime.hour
         datetime.minute datetime.second datetime.microsecond].
    rewrite <- Hi. f_equal.
    unfold Str.int. cbn [String.length Nat.sub Str.take].
    change (String c15 "" +:+ "00000") with (String c15 "00000").
    cbn [Str.int_from]. change (Str.digit_val "0") with 0. lia. }
  split; [reflexivity|]. split; [reflexivity|].
  unfold datetime.strftime.
  change (datetime.parse_format "%Y%m%d%H%M%S%f")
    with [datetime.DY; datetime.Dm; datetime.Dd; datetime.DH; datetime.DM;
          datetime.DS; datetime.Df].
  change (datetime.parse_format "%Y%m%d_%H%M%S")
    with [datetime.DY; datetime.Dm; datetime.Dd; datetime.DLit "_"; datetime.DH;
          datetime.DM; datetime.DS].
  cbn [foldr datetime.render datetime.year datetime.month datetime.day
       datetime.hour datetime.minute datetime.second datetime.microsecond].
  rewrite pad4_int, !pad2_int, pad6_tenths by assumption.
  split; reflexivity.
Qed.

(** *** The leftmost token of a name *)

Lemma search_skip pat pre s :
  no_match_before pat (String.length pre) (pre +:+ s) = true →
  Re.search pat (pre +:+ s) = Re.search pat s.
Proof.
  induction pre as [|c pre IH]; [reflexivity|].
  cbn [String.length no_match_before].
  change (String c pre +:+ s) with (String c (pre +:+ s)).
  intros Hn.
  destruct (Re.match_here pat (String c (pre +:+ s))) as [[m r]|] eqn:E;
    [discriminate|].
  transitivity (Re.search pat (pre +:+ s)); [|exact (IH Hn)].
  destruct pat; [discriminate E|].
  cbn [Re.search]. rewrite E. reflexivity.
Qed.

Lemma search_token tok post :
  (String.length tok =? 15)%nat = true → Str.all_chars Str.is_digit tok = true →
  Re.search Re.timestamp_pattern ("_" +:+ tok +:+ "_" +:+ post)
  = Some ("_" +:+ tok +:+ "_").
Proof.
  intros Hlen Hdig. apply Nat.eqb_eq in Hlen.
  do 15 (destruct tok as [|? tok]; [discriminate Hlen|]).
  destruct tok; [|discriminate Hlen].
  cbn [Str.all_chars] in Hdig.
  repeat (apply andb_prop in Hdig as [? Hdig]).
  unfold Re.timestamp_pattern, Re.search. simpl.
  repeat match goal with
         | |- context [Str.in_range "0" "9" ?c] =>
             change (Str.in_range "0" "9" c) with (Str.is_digit c)
         end.
  repeat match goal with
         | H : Str.is_digit ?c = true |- _ => rewrite H; clear H
         end.
  reflexivity.
Qed.

(** The token [re.search] finds is the one that [strptime] is given. *)
Lemma getDateTime_token (scene pre tok post : string) :
  os_path.basename scene = pre +:+ "_" +:+ tok +:+ "_" +:+ post →
  no_match_before Re.timestamp_pattern (String.length pre) (os_path.basename scene)
  = true →
  (String.length tok =? 15)%nat = true → Str.all_chars Str.is_digit tok = true →
  Dataset.getDateTime scene
  = (dt <- datetime.strptime tok "%Y%m%d%H%M%S%f";; ret (Some dt)).
Proof.
  intros Hname Hfirst Hlen Hdig.
  unfold Dataset.getDateTime. rewrite Hname in Hfirst |- *.
  rewrite (search_skip _ _ _ Hfirst), (search_token tok post Hlen Hdig).
  rewrite strip_token; [reflexivity|exact Hdig|].
  intros ->. discriminate Hlen.
Qed.

(** C5 (as amended). When the first underscore-delimited run of fifteen
    digits in the name of a scene is a valid token, [getDateTime] returns
    the instant the token spells, to the tenth of a second, whatever
    stands before and after it; formatted with the parsing format, that
    instant gives the token back.  When the name holds no such run,
    [getDateTime] returns [None]. *)
Theorem getDateTime_leftmost_token (scene pre tok post : string) :
  (os_path.basename scene = pre +:+ "_" +:+ tok +:+ "_" +:+ post →
   no_match_before Re.timestamp_pattern (String.length pre) (os_path.basename scene)
   = true →
   valid_token tok = true →
   ∃ dt, Dataset.getDateTime scene = Ok (Some dt)
         ∧ instant_of_token tok = Ok dt
         ∧ datetime.microsecond dt = field 14 1 tok * 100000
         ∧ datetime.strftime dt "%Y%m%d%H%M%S%f" = tok +:+ "00000")
  ∧ (Re.search Re.timestamp_pattern (os_path.basename scene) = None →
     Dataset.getDateTime scene = Ok None).
Proof.
  split.
  - intros Hname Hfirst Hv.
    destruct (strptime_valid_token tok Hv) as (dt & Hp & Hi & Hus & Hrt & _).
    exists dt. split; [|auto].
    unfold valid_token in Hv.
    apply andb_prop in Hv as [[Hlen Hdig]%andb_prop _].
    rewrite (getDateTime_token scene pre tok post Hname Hfirst Hlen Hdig), Hp.
    reflexivity.
  - intros Hnone. unfold Dataset.getDateTime. rewrite Hnone. reflexivity.
Qed.

Lemma getDateTime_leftmost_token_witness :
  let scene := "/data/in/DS_PHR1A_202001011230451_SEN.zip" in
  os_path.basename scene = "DS_PHR1A" +:+ "_" +:+ "202001011230451" +:+ "_" +:+ "SEN.zip"
  ∧ no_match_before Re.timestamp_pattern (String.length "DS_PHR1A")
      (os_path.basename scene) = true
  ∧ valid_token "202001011230451" = true
  ∧ ∃ dt, Dataset.getDateTime scene = Ok (Some dt)
          ∧ instant_of_token "202001011230451" = Ok dt
          ∧ datetime.microsecond dt = field 14 1 "202001011230451" * 100000
          ∧ datetime.strftime dt "%Y%m%d%H%M%S%f" = "202001011230451" +:+ "00000".
Proof.
  intros scene.
  assert (Hname : os_path.basename scene
                  = "DS_PHR1A" +:+ "_" +:+ "202001011230451" +:+ "_" +:+ "SEN.zip")
    by reflexivity.
  assert (Hfirst : no_match_before Re.timestamp_pattern (String.length "DS_PHR1A")
                     (os_path.basename scene) = true) by reflexivity.
  assert (Hv : valid_token "202001011230451" = true) by reflexivity.
  split; [exact Hname|]. split; [exact Hfirst|]. split; [exact Hv|].
  exact (proj1 (getDateTime_leftmost_token scene "DS_PHR1A" "202001011230451" "SEN.zip")
           Hname Hfirst Hv).
Defined.

(** A name that holds a valid token after another run of fifteen
    digits: [re.search] stops at the first run, which is no date, and
    [getDateTime] raises instead of returning the instant of the valid
    token. *)
Lemma getDateTime_second_token :
  let scene := "/data/in/DS_000000000000000_X_202001011230451_SEN.zip" in
  os_path.basename scene
  = "DS_000000000000000_X" +:+ "_" +:+ "202001011230451" +:+ "_" +:+ "SEN.zip"
  ∧ valid_token "202001011230451" = true
  ∧ instant_of_token "202001011230451" = Ok (datetime.mk 2020 1 1 12 30 45 100000)
  ∧ Dataset.getDateTime scene = Raise ValueError.
Proof. repeat split; vm_compute; reflexivity. Qed.

(** The string kept in [_datetime] is the token cut after the seconds:
    tokens that differ in the last digit only give the same string. *)
Lemma getDateTimeString_leftmost_token (scene pre tok post : string) :
  os_path.basename scene = pre +:+ "_" +:+ tok +:+ "_" +:+ post →
  no_match_before Re.timestamp_pattern (String.length pre) (os_path.basename scene)
  = true →
  valid_token tok = true →
  Dataset.getDateTimeString scene
  = Ok (Str.take 8 tok +:+ "_" +:+ Str.take 6 (Str.drop 8 tok)).
Proof.
  intros Hname Hfirst Hv.
  destruct (strptime_valid_token tok Hv) as (dt & Hp & _ & _ & _ & Hfmt).
  unfold valid_token in Hv.
  apply andb_prop in Hv as [[Hlen Hdig]%andb_prop _].
  unfold Dataset.getDateTimeString.
  rewrite (getDateTime_token scene pre tok post Hname Hfirst Hlen Hdig), Hp.
  cbn [bind outcome_monad ret]. rewrite Hfmt. reflexivity.
Qed.

(** ** The stages and the existence cache *)

Lemma executions_app t1 t2 : executions (t1 ++ t2) = executions t1 ++ executions t2.
Proof. apply omap_app. Qed.

Lemma makedirs_of_app t1 t2 : makedirs_of (t1 ++ t2) = makedirs_of t1 ++ makedirs_of t2.
Proof. apply omap_app. Qed.

Lemma quiet_refl w : quiet w w.
Proof. repeat split. Qed.

Lemma quiet_create w name :
  quiet w (mkWorld (fs w) (trace w ++ [EvCreateApplication name])).
Proof.
  unfold quiet. cbn [fs trace]. rewrite executions_app, makedirs_of_app.
  cbn. rewrite !app_nil_r. auto.
Qed.

Lemma quiet_trans w1 w2 w3 : quiet w1 w2 → quiet w2 w3 → quiet w1 w3.
Proof. unfold quiet. intros (? & ? & ?) (? & ? & ?). repeat split; congruence. Qed.

(** The output file of an [out] parameter with its options. *)
Lemma rfind_options (p opts : string) :
  Str.rfind_succ "?" opts = 1%nat →
  Str.rfind_succ "?" (p +:+ opts) = S (String.length p).
Proof.
  intros Ho. induction p as [|a p IH]; [exact Ho|].
  change (String a p +:+ opts) with (String a (p +:+ opts)).
  cbn [Str.rfind_succ String.length]. rewrite IH. reflexivity.
Qed.

Lemma take_app (p s : string) : Str.take (String.length p) (p +:+ s) = p.
Proof.
  induction p as [|a p IH]; [destruct s; reflexivity|].
  change (String a p +:+ s) with (String a (p +:+ s)).
  cbn [String.length Str.take]. rewrite IH. reflexivity.
Qed.

Lemma out_file_set (app : application) (p opts : string) :
  Str.rfind_succ "?" opts = 1%nat →
  out_file (otb.set app "out" (PString (p +:+ opts))) = Some p.
Proof.
  intros Ho. unfold out_file, otb.set. cbn [app_params].
  rewrite lookup_insert_eq, (rfind_options p opts Ho), take_app. reflexivity.
Qed.

Lemma out_file_other (app : application) (key : string) (v : param) :
  key ≠ "out" → out_file (otb.set app key v) = out_file app.
Proof.
  intros Hk. unfold out_file, otb.set. cbn [app_params].
  rewrite lookup_insert_ne by exact Hk. reflexivity.
Qed.

Ltac hit_done :=
  eexists; split; [reflexivity|];
  first [apply quiet_refl | apply quiet_create].

Ltac case_execute_goal Hx :=
  unfold otb.ExecuteAndWriteOutput;
  match goal with
  | |- context [otb_execute ?a ?f] => destruct (otb_execute a f) eqn:Hx
  end;
  unfold_M.

(** After a successful engine call [Hx] under the contract [HE]. *)
Ltac miss_done HE Hx :=
  let Hmono := fresh "Hmono" in
  let Hfile := fresh "Hfile" in
  intros [= <- <-]; destruct (HE _ _ _ Hx) as (Hmono & Hfile); cbn [fs] in *;
  split; [reflexivity|]; split;
  [intros y Hy; apply Hmono; first [exact Hy | apply elem_of_union_l, Hy]|];
  intros p ->%list_elem_of_singleton; apply Hfile;
  unfold Dataset.set_method, Dataset.set_elevation;
  repeat match goal with
         | |- context [match ?x with _ => _ end] => destruct x
         end;
  rewrite ?out_file_other by discriminate; apply out_file_set; reflexivity.

Ltac hit_run Hb :=
  intros [= <- <-]; cbn [fs]; split; [reflexivity|]; split; [reflexivity|];
  intros p ->%list_elem_of_singleton; apply bool_decide_eq_true_1 in Hb; exact Hb.

Ltac no_output :=
  intros [= <- <-]; cbn [fs]; split; [reflexivity|]; split; [reflexivity|];
  intros p []%elem_of_nil.

Section Cache.
Context `{Collaborators}.

(** *** Calibration, image by image *)

Lemma calibrate_loop_hit self app images out_path level milli out_images w :
  (∀ image, image ∈ images → output_name out_path ".TIF" "_CAL.TIF" image ∈ fs w) →
  Dataset.getCalibratedImages_loop self app images out_path level milli out_images w
  = (Ok (out_images ++ map (output_name out_path ".TIF" "_CAL.TIF") images), w).
Proof.
  revert app out_images.
  induction images as [|image images IH]; intros app out_images Hall.
  - cbn. rewrite app_nil_r. reflexivity.
  - cbn [Dataset.getCalibratedImages_loop]. fold (output_name out_path ".TIF" "_CAL.TIF" image).
    unfold_M. rewrite bool_decide_eq_true_2 by (apply Hall; left).
    rewrite IH by (intros; apply Hall; right; assumption).
    rewrite <- app_assoc. reflexivity.
Qed.

Lemma calibrate_loop_run self app images out_path level milli out_images w res w1 :
  engine_persists →
  Dataset.getCalibratedImages_loop self app images out_path level milli out_images w
  = (Ok res, w1) →
  res = out_images ++ map (output_name out_path ".TIF" "_CAL.TIF") images
  ∧ fs w ⊆ fs w1
  ∧ ∀ image, image ∈ images → output_name out_path ".TIF" "_CAL.TIF" image ∈ fs w1.
Proof.
  intros HE. revert app out_images w.
  induction images as [|image images IH]; intros app out_images w.
  - cbn. intros [= <- <-]. rewrite app_nil_r. split; [reflexivity|].
    split; [reflexivity|]. intros ? []%elem_of_nil.
  - cbn [Dataset.getCalibratedImages_loop].
    fold (output_name out_path ".TIF" "_CAL.TIF" image).
    set (out := output_name out_path ".TIF" "_CAL.TIF" image).
    unfold_M. destruct (bool_decide (out ∈ fs w)) eqn:Hb; unfold_M.
    + intros E. apply IH in E as (-> & Hsub & Hin).
      rewrite <- app_assoc. split; [reflexivity|]. split; [exact Hsub|].
      intros x [->|Hx]%elem_of_cons; [|auto].
      apply bool_decide_eq_true_1 in Hb. apply Hsub, Hb.
    + set (app' := if milli then _ else _).
      assert (Hout : out_file app' = Some out).
      { subst app'. destruct milli;
          rewrite ?out_file_other by discriminate;
          apply out_file_set; reflexivity. }
      destruct (bool_decide (out_path ∈ fs w)); unfold_M;
        unfold otb.ExecuteAndWriteOutput; cbn [fs trace];
        destruct (otb_execute app' _) as [fs1|] eqn:Hx; unfold_M;
        try discriminate;
        intros E; apply IH in E as (-> & Hsub & Hin); cbn [fs] in Hsub;
        destruct (HE _ _ _ Hx) as (Hmono & Hfile);
        (rewrite <- app_assoc; split; [reflexivity|]; split;
         [intros y Hy; apply Hsub, Hmono;
          first [exact Hy | apply elem_of_union_l, Hy]|];
         intros x [->|Hx']%elem_of_cons; [apply Hsub, Hfile, Hout|auto]).
Qed.

(** *** Every stage with an output path *)

Lemma head_index {A} (l : list A) : index l 0 = match head l with
                                                | Some x => Ok x
                                                | None => Raise IndexError
                                                end.
Proof. destruct l; reflexivity. Qed.

Lemma stage_hit (self : Dataset) (st : stage) (w : World) :
  has_output_path st = true →
  (∀ p, p ∈ outputs self st → p ∈ fs w) →
  ∃ w', run_stage self st w = (hit_result self st, w') ∧ quiet w w'.
Proof.
  intros Hst Hall. destruct st as [images out_path level milli|images out_path
    |image out_path|images out_path|images out_path|images out_path|];
    [| | | | | |discriminate Hst]; clear Hst;
    cbn [run_stage outputs hit_result] in *.
  - unfold Dataset.getCalibratedImages. unfold_M.
    rewrite calibrate_loop_hit
      by (intros image Hi; apply Hall, list_elem_of_fmap_2, Hi).
    unfold_M. hit_done.
  - unfold Dataset.getTileFusionImages. unfold_M.
    destruct (Dataset.grid_extent images 0 0) as [[nrows ncols]|e]; unfold_M;
      [|hit_done].
    destruct (_ =? _); cbn [andb] in Hall; [|hit_done].
    rewrite !head_index in *.
    destruct (_ <? _)%nat.
    + unfold_M. destruct (head (Str.sort images)) as [first|]; unfold_M;
        [|hit_done].
      fold (output_name out_path "_R1C1" "_MOSAIC" first).
      rewrite bool_decide_eq_true_2 by (apply Hall; left). unfold_M. hit_done.
    + destruct (head images); unfold_M; hit_done.
  - unfold Dataset.getRoiImage. unfold_M.
    destruct (_roi self) as [roi|]; unfold_M; [|hit_done].
    destruct (BBox_getImageRoi roi image) as [[coords|]|e]; unfold_M;
      [|hit_done|hit_done].
    destruct image as [| |name]; unfold_M; [hit_done|hit_done|].
    fold (output_name out_path ".TIF" "_ROI.TIF" name).
    rewrite bool_decide_eq_true_2 by (apply Hall; left). unfold_M. hit_done.
  - unfold Dataset.getPansharpenImage_Bundle, ms_output in *. unfold_M.
    destruct (images !! "MS") as [[| |ms]|]; unfold_M; try hit_done.
    fold (output_name out_path "_MS_" "_PAN_" ms).
    rewrite bool_decide_eq_true_2 by (apply Hall; left). unfold_M. hit_done.
  - unfold Dataset.getSuperimposedImage, ms_output in *. unfold_M.
    destruct (images !! "MS") as [[| |ms]|]; unfold_M; try hit_done.
    fold (output_name out_path "_MS_" "_MS_SUPER_" ms).
    rewrite bool_decide_eq_true_2 by (apply Hall; left). unfold_M. hit_done.
  - unfold Dataset.getPansharpenImage, ms_output in *. unfold_M.
    destruct (images !! "MS") as [[| |ms]|]; unfold_M; try hit_done.
    fold (output_name out_path "_MS_SUPER_" "_PAN_" ms).
    rewrite bool_decide_eq_true_2 by (apply Hall; left). unfold_M. hit_done.
Qed.

Lemma stage_run (self : Dataset) (st : stage) (w : World) res w1 :
  has_output_path st = true → engine_persists →
  run_stage self st w = (Ok res, w1) →
  hit_result self st = Ok res ∧ fs w ⊆ fs w1
  ∧ ∀ p, p ∈ outputs self st → p ∈ fs w1.
Proof.
  intros Hst HE. destruct st as [images out_path level milli|images out_path
    |image out_path|images out_path|images out_path|images out_path|];
    [| | | | | |discriminate Hst]; clear Hst;
    cbn [run_stage outputs hit_result] in *.
  - unfold Dataset.getCalibratedImages. unfold_M.
    destruct (Dataset.getCalibratedImages_loop _ _ _ _ _ _ _ _) as [[l|e] w2] eqn:E;
      [|discriminate].
    apply (calibrate_loop_run _ _ _ _ _ _ _ _ _ _ HE) in E as (-> & Hsub & Hin).
    intros [= <- <-]. split; [reflexivity|]. split; [exact Hsub|].
    intros p (image & -> & Hi)%list_elem_of_fmap. auto.
  - unfold Dataset.getTileFusionImages. unfold_M.
    destruct (Dataset.grid_extent images 0 0) as [[nrows ncols]|e]; unfold_M;
      [|discriminate].
    destruct (_ =? _); cbn [andb]; [|no_output].
    rewrite !head_index.
    destruct (_ <? _)%nat.
    + unfold_M. destruct (head (Str.sort images)) as [first|]; unfold_M;
        [|discriminate].
      fold (output_name out_path "_R1C1" "_MOSAIC" first).
      destruct (bool_decide (_ ∈ fs w)) eqn:Hb; unfold_M; [hit_run Hb|].
      destruct (bool_decide (out_path ∈ fs w)); unfold_M;
        case_execute_goal Hx; try discriminate; miss_done HE Hx.
    + destruct (head images); unfold_M; [no_output|discriminate].
  - unfold Dataset.getRoiImage. unfold_M.
    destruct (_roi self) as [roi|]; unfold_M; [|discriminate].
    destruct (BBox_getImageRoi roi image) as [[coords|]|e]; unfold_M;
      [| |discriminate].
    2:{ destruct image; no_output. }
    destruct image as [| |name]; unfold_M; [discriminate|discriminate|].
    fold (output_name out_path ".TIF" "_ROI.TIF" name).
    destruct (bool_decide (_ ∈ fs w)) eqn:Hb; unfold_M; [hit_run Hb|].
    destruct (bool_decide (out_path ∈ fs w)); unfold_M;
      (destruct (index coords 0); unfold_M; [|discriminate]);
      (destruct (index coords 1); unfold_M; [|discriminate]);
      (destruct (index coords 2); unfold_M; [|discriminate]);
      (destruct (index coords 3); unfold_M; [|discriminate]);
      case_execute_goal Hx; try discriminate; miss_done HE Hx.
  - unfold Dataset.getPansharpenImage_Bundle, ms_output in *. unfold_M.
    destruct (images !! "MS") as [[| |ms]|]; unfold_M; try discriminate.
    fold (output_name out_path "_MS_" "_PAN_" ms).
    destruct (bool_decide (_ ∈ fs w)) eqn:Hb; unfold_M; [hit_run Hb|].
    destruct (bool_decide (out_path ∈ fs w)); unfold_M;
      (destruct (images !! "P") as [[| |pan]|]; unfold_M; try discriminate);
      case_execute_goal Hx; try discriminate; miss_done HE Hx.
  - unfold Dataset.getSuperimposedImage, ms_output in *. unfold_M.
    destruct (images !! "MS") as [[| |ms]|]; unfold_M; try discriminate.
    fold (output_name out_path "_MS_" "_MS_SUPER_" ms).
    destruct (bool_decide (_ ∈ fs w)) eqn:Hb; unfold_M; [hit_run Hb|].
    destruct (bool_decide (out_path ∈ fs w)); unfold_M;
      (destruct (images !! "P") as [[| |pan]|]; unfold_M; try discriminate);
      case_execute_goal Hx; try discriminate; miss_done HE Hx.
  - unfold Dataset.getPansharpenImage, ms_output in *. unfold_M.
    destruct (images !! "MS") as [[| |ms]|]; unfold_M; try discriminate.
    fold (output_name out_path "_MS_SUPER_" "_PAN_" ms).
    destruct (bool_decide (_ ∈ fs w)) eqn:Hb; unfold_M; [hit_run Hb|].
    destruct (bool_decide (out_path ∈ fs w)); unfold_M;
      (destruct (images !! "P") as [[| |pan]|]; unfold_M; try discriminate);
      case_execute_goal Hx; try discriminate; miss_done HE Hx.
Qed.

Lemma hit_result_returned (self : Dataset) (st : stage) res :
  hit_result self st = Ok res →
  outputs self st = [] ∨ returned res = outputs self st.
Proof.
  destruct st as [images out_path level milli|images out_path
    |image out_path|images out_path|images out_path|images out_path|];
    cbn [hit_result outputs]; unfold ms_output; unfold_M.
  - intros [= <-]. right. reflexivity.
  - destruct (Dataset.grid_extent images 0 0) as [[nrows ncols]|e]; [|auto].
    destruct (_ =? _); cbn [andb]; [|auto].
    rewrite !head_index.
    destruct (_ <? _)%nat; [|auto].
    destruct (head (Str.sort images)); [|auto].
    intros [= <-]. right. reflexivity.
  - destruct (_roi self) as [roi|]; [|auto].
    destruct (BBox_getImageRoi roi image) as [[coords|]|e];
      destruct image; unfold_M; auto.
    intros [= <-]. right. reflexivity.
  - destruct (images !! "MS") as [[| |ms]|]; unfold_M; auto.
    intros [= <-]. right. reflexivity.
  - destruct (images !! "MS") as [[| |ms]|]; unfold_M; auto.
    intros [= <-]. right. reflexivity.
  - destruct (images !! "MS") as [[| |ms]|]; unfold_M; auto.
    intros [= <-]. right. reflexivity.
  - auto.
Qed.

(** C3 (as amended). For every stage that declares an output path
    (calibration, tile fusion, clipping, bundle conversion,
    superimposition, pansharpening):
    - a call whose output paths all exist returns them at once; it
      creates the application object and nothing else: no execution of the
      engine, no directory, the file system unchanged;
    - under the contract of the engine, a call that returned, made again
      on the world it left, returns the same result without executing the
      engine.
    The elevation fetch declares no output path and is left out. *)
Theorem stage_idempotent (self : Dataset) (st : stage) (w : World) :
  has_output_path st = true →
  ((∀ p, p ∈ outputs self st → p ∈ fs w) →
     ∃ w', run_stage self st w = (hit_result self st, w') ∧ quiet w w')
  ∧ (∀ res, hit_result self st = Ok res →
       outputs self st = [] ∨ returned res = outputs self st)
  ∧ (engine_persists → ∀ res w1, run_stage self st w = (Ok res, w1) →
       ∃ w2, run_stage self st w1 = (Ok res, w2) ∧ quiet w1 w2).
Proof.
  intros Hst. split; [|split].
  - apply stage_hit, Hst.
  - apply hit_result_returned.
  - intros HE res w1 E.
    destruct (stage_run self st w res w1 Hst HE E) as (Hres & _ & Hout).
    destruct (stage_hit self st w1 Hst Hout) as (w2 & E2 & Hq).
    exists w2. rewrite E2, Hres. auto.
Qed.

(** The elevation fetch runs the engine at every call for which a DEM
    directory is configured. *)
Lemma getSrtmTiles_executes (self : Dataset) (images : list string) dem w :
  _dem_path self = Some dem →
  ∃ app, executions (trace (Dataset.getSrtmTiles self images w).2)
         = executions (trace w) ++ [app]
         ∧ app_name app = "DownloadSRTMTiles".
Proof.
  intros Hdem. unfold Dataset.getSrtmTiles. rewrite Hdem. unfold_M.
  exists (otb.set (otb.set (mkApp "DownloadSRTMTiles" ∅) "il" (PStringList images))
            "tiledir" (PString dem)).
  unfold otb.ExecuteAndWriteOutput. cbn [fs trace].
  split; [|reflexivity].
  destruct (otb_execute _ _); cbn [snd trace];
    rewrite !executions_app; cbn; rewrite app_nil_r; reflexivity.
Qed.

End Cache.

Section CacheExamples.
#[local] Existing Instance Fixture.collaborators.

Lemma stage_idempotent_witness :
  let st := Pansharpen example_mosaic "/data/tmp/pan" in
  let res := Path (PyStr "/data/tmp/pan/IMG_PHR1A_MS_001_R1C1_CAL.TIF") in
  let w1 := (run_stage Fixture.pleiades st Fixture.w0).2 in
  has_output_path st = true
  ∧ engine_persists
  ∧ run_stage Fixture.pleiades st Fixture.w0 = (Ok res, w1)
  ∧ length (executions (trace w1)) = 1%nat
  ∧ ∃ w2, run_stage Fixture.pleiades st w1 = (Ok res, w2) ∧ quiet w1 w2.
Proof.
  intros st res w1.
  assert (Hst : has_output_path st = true) by reflexivity.
  assert (E : run_stage Fixture.pleiades st Fixture.w0 = (Ok res, w1))
    by (vm_compute; reflexivity).
  split; [exact Hst|]. split; [exact engine_persists_fixture|].
  split; [exact E|]. split; [vm_compute; reflexivity|].
  destruct (stage_idempotent Fixture.pleiades st Fixture.w0 Hst) as (_ & _ & Hrerun).
  exact (Hrerun engine_persists_fixture res w1 E).
Defined.

(** The elevation fetch made twice, nothing deleted in between: the
    engine is executed by the first call and again by the second. *)
Lemma elevation_fetch_not_cached :
  let st := FetchElevationTiles
              ["/data/tmp/scene/IMG_PHR1A_P_001/IMG_PHR1A_P_001_R1C1.TIF"] in
  let run1 := run_stage Fixture.pleiades_dem st Fixture.w0 in
  let run2 := run_stage Fixture.pleiades_dem st run1.2 in
  run1.1 = Ok Nothing ∧ run2.1 = Ok Nothing
  ∧ fs run1.2 = fs Fixture.w0 ∧ fs run2.2 = fs Fixture.w0
  ∧ map app_name (executions (trace run1.2)) = ["DownloadSRTMTiles"]
  ∧ map app_name (executions (trace run2.2))
    = ["DownloadSRTMTiles"; "DownloadSRTMTiles"].
Proof. repeat split; vm_compute; reflexivity. Qed.

End CacheExamples.

(** ** The two topologies *)

Section Emits.
Context `{Collaborators}.
Variable P : event → Prop.

Lemma emits_ret {A} (a : A) : emits P (ret a).
Proof. intros w. exists []. cbn. rewrite app_nil_r. auto. Qed.

Lemma emits_lift {A} (o : outcome A) : emits P (lift o).
Proof. intros w. exists []. cbn. rewrite app_nil_r. auto. Qed.

Lemma emits_exists p : emits P (os.path_exists p).
Proof. intros w. exists []. cbn. rewrite app_nil_r. auto. Qed.

Lemma emits_bind {A B} (m : M A) (f : A → M B) :
  emits P m → (∀ a, emits P (f a)) → emits P (bind m f).
Proof.
  intros Hm Hf w. destruct (Hm w) as (evs1 & E1 & F1).
  rewrite bind_run. destruct (m w) as [[a|e] w1]; cbn [snd] in *.
  - destruct (Hf a w1) as (evs2 & E2 & F2).
    exists (evs1 ++ evs2). rewrite E2, E1, app_assoc. split; [reflexivity|].
    apply Forall_app; auto.
  - exists evs1. auto.
Qed.

Lemma emits_bind_post {A B} (Q : A → Prop) (m : M A) (f : A → M B) :
  emits P m → (∀ w a w', m w = (Ok a, w') → Q a) →
  (∀ a, Q a → emits P (f a)) → emits P (bind m f).
Proof.
  intros Hm HQ Hf w. destruct (Hm w) as (evs1 & E1 & F1).
  rewrite bind_run. destruct (m w) as [[a|e] w1] eqn:E; cbn [snd] in *.
  - destruct (Hf a (HQ _ _ _ E) w1) as (evs2 & E2 & F2).
    exists (evs1 ++ evs2). rewrite E2, E1, app_assoc. split; [reflexivity|].
    apply Forall_app; auto.
  - exists evs1. auto.
Qed.

Lemma emits_bind_lift {A B} (o : outcome A) (f : A → M B) :
  (∀ a, o = Ok a → emits P (f a)) → emits P (bind (lift o) f).
Proof.
  intros Hf w. rewrite bind_run, lift_run. destruct o as [a|e].
  - exact (Hf a eq_refl w).
  - exists []. cbn. rewrite app_nil_r. auto.
Qed.

Lemma emits_event {A} (ev : event) (a : A) (f : World → gset string) :
  P ev → emits P (λ w, (Ok a, mkWorld (f w) (trace w ++ [ev]))).
Proof. intros HP w. exists [ev]. cbn. auto. Qed.

Lemma emits_makedirs p : P (EvMakedirs p) → emits P (os.makedirs p).
Proof. intros HP w. exists [EvMakedirs p]. cbn. auto. Qed.

Lemma emits_create name :
  P (EvCreateApplication name) → emits P (otb.CreateApplication name).
Proof. intros HP w. exists [EvCreateApplication name]. cbn. auto. Qed.

Lemma emits_execute app : P (EvExecute app) → emits P (otb.ExecuteAndWriteOutput app).
Proof.
  intros HP w. exists [EvExecute app]. unfold otb.ExecuteAndWriteOutput.
  destruct (otb_execute _ _); cbn; auto.
Qed.

Lemma emits_extract scene path :
  P (EvExtractZip scene path) → emits P (ps.extractZip scene path).
Proof.
  intros HP w. exists [EvExtractZip scene path]. unfold ps.extractZip.
  destruct (ps_extractZip _ _ _); cbn; auto.
Qed.

Lemma emits_glob pattern : P (EvGlob pattern) → emits P (Dataset.glob pattern).
Proof. intros HP w. exists [EvGlob pattern]. cbn. auto. Qed.

End Emits.

(** One step of a proof that a computation emits only [P]-events. *)
Ltac emits_step :=
cbv zeta;
lazymatch goal with
| |- emits _ (bind (otb.CreateApplication ?n) _) =>
    apply (emits_bind_post _ (λ a, a = mkApp n ∅));
    [apply emits_create
    |intros ? ? ?; unfold_M; intros [= <- _]; reflexivity
    |intros ? ->]
| |- emits _ (bind (lift ?o) _) => apply emits_bind_lift; intros ? ?
| |- emits _ (bind _ _) => apply emits_bind; [|intros ?]
| |- emits _ (ret _) => apply emits_ret
| |- emits _ skip => apply emits_ret
| |- emits _ (lift _) => apply emits_lift
| |- emits _ (os.path_exists _) => apply emits_exists
| |- emits _ (os.makedirs _) => apply emits_makedirs; exact I
| |- emits _ (otb.CreateApplication _) => apply emits_create
| |- emits _ (otb.ExecuteAndWriteOutput _) => apply emits_execute
| |- emits _ (ps.extractZip _ _) => apply emits_extract; exact I
| |- emits _ (Dataset.glob _) => apply emits_glob; exact I
| |- emits _ (if ?b then _ else _) => destruct b
| |- emits _ (match ?x with _ => _ end) => destruct x
end.

Lemma app_name_set app key v : app_name (otb.set app key v) = app_name app.
Proof. reflexivity. Qed.

Lemma app_name_set_method self app : app_name (Dataset.set_method self app) = app_name app.
Proof. unfold Dataset.set_method. destruct (_pan_method self); reflexivity. Qed.

Lemma app_name_set_elevation self app :
  app_name (Dataset.set_elevation self app) = app_name app.
Proof.
  unfold Dataset.set_elevation.
  destruct (_dem_path self), (_geoid_pathname self); reflexivity.
Qed.

Lemma app_name_SetParameterString app key v app' :
  otb.SetParameterString app key v = Ok app' → app_name app' = app_name app.
Proof. destruct v; cbn; intros [= <-]; reflexivity. Qed.

(** Closes the side conditions on the name of an application. *)
Ltac app_named :=
cbn [no_sensor_stage];
repeat match goal with
       | E : otb.SetParameterString _ _ _ = Ok _ |- _ =>
           apply app_name_SetParameterString in E
       end;
rewrite ?app_name_set_method, ?app_name_set_elevation, ?app_name_set;
repeat match goal with
       | E : app_name _ = _ |- _ => rewrite E; clear E
       end;
rewrite ?app_name_set; cbn [app_name];
first [split; discriminate | assumption].

Section SpotTrace.
Context `{Collaborators}.

Lemma getImageLists_loop_quiet self path ids images :
  emits no_sensor_stage (Dataset.getImageLists_loop self path ids images).
Proof.
  revert images. induction ids as [|_id ids IH]; intros images;
    cbn [Dataset.getImageLists_loop]; repeat emits_step. apply IH.
Qed.

Lemma getCalibratedImages_loop_quiet self app images out_path level milli out_images :
  app_name app = "OpticalCalibration" →
  emits no_sensor_stage
    (Dataset.getCalibratedImages_loop self app images out_path level milli out_images).
Proof.
  revert app out_images. induction images as [|image images IH];
    intros app out_images Hname; cbn [Dataset.getCalibratedImages_loop].
  - apply emits_ret.
  - apply emits_bind; [apply emits_exists|]. intros e.
    apply (emits_bind_post _ (λ a, app_name a = "OpticalCalibration")).
    + destruct e; repeat emits_step; destruct milli; app_named.
    + intros w a w'. destruct e; unfold_M; [intros [= <- _]; exact Hname|].
      destruct (bool_decide _); unfold_M; case_execute_goal Hx;
        intros [= <- _]; destruct milli; exact Hname.
    + intros app' Hname'. apply IH, Hname'.
Qed.

Lemma getSrtmTiles_quiet self images :
  emits no_sensor_stage (Dataset.getSrtmTiles self images).
Proof. unfold Dataset.getSrtmTiles. repeat emits_step; app_named. Qed.

Lemma getCalibratedImages_quiet self images out_path level milli :
  emits no_sensor_stage (Dataset.getCalibratedImages self images out_path level milli).
Proof.
  unfold Dataset.getCalibratedImages.
  emits_step; [app_named|]. apply getCalibratedImages_loop_quiet. reflexivity.
Qed.

Lemma getTileFusionImages_quiet self images out_path :
  emits no_sensor_stage (Dataset.getTileFusionImages self images out_path).
Proof.
  unfold Dataset.getTileFusionImages.
  apply emits_bind_lift. intros [nrows ncols] _.
  destruct (_ =? _); [|apply emits_ret].
  destruct (_ <? _)%nat; [|repeat emits_step].
  repeat emits_step; app_named.
Qed.

Lemma getRoiImage_quiet self image out_path :
  emits no_sensor_stage (Dataset.getRoiImage self image out_path).
Proof.
  unfold Dataset.getRoiImage.
  repeat emits_step; app_named.
Qed.

Lemma getPansharpenImage_quiet self images out_path :
  emits no_sensor_stage (Dataset.getPansharpenImage self images out_path).
Proof.
  unfold Dataset.getPansharpenImage.
  repeat emits_step; app_named.
Qed.

Lemma band_loop_quiet self root_path images ids mosaic :
  emits no_sensor_stage (Spot.band_loop self root_path images ids mosaic).
Proof.
  revert mosaic. induction ids as [|_id ids IH]; intros mosaic;
    cbn [Spot.band_loop]; [apply emits_ret|].
  cbv zeta. apply emits_bind_lift. intros tiles _.
  apply emits_bind; [apply getCalibratedImages_quiet|]. intros cal_images.
  apply emits_bind; [apply getTileFusionImages_quiet|]. intros fused.
  apply emits_bind; [|intros ?; apply IH].
  destruct (_roi self); [|apply emits_ret].
  apply emits_bind_lift. intros image _.
  apply emits_bind; [apply getRoiImage_quiet|]. intros clipped. apply emits_ret.
Qed.

(** [Spot.processToArd] creates and executes neither the superimposition
    nor the bundle conversion. *)
Lemma Spot_processToArd_quiet self ard_path :
  emits no_sensor_stage (Spot.processToArd self ard_path).
Proof.
  unfold Spot.processToArd. cbv zeta.
  apply emits_bind; [apply emits_exists|]. intros e.
  apply emits_bind; [destruct e; repeat emits_step|]. intros _.
  apply emits_bind; [apply emits_extract; exact I|]. intros code.
  apply emits_bind; [|intros _; apply emits_ret].
  destruct (code =? 0); [|apply emits_ret].
  apply emits_bind; [apply getImageLists_loop_quiet|]. intros images.
  apply emits_bind_lift. intros pan_tiles _.
  apply emits_bind; [apply getSrtmTiles_quiet|]. intros _.
  apply emits_bind; [apply band_loop_quiet|]. intros mosaic.
  apply emits_bind; [apply getPansharpenImage_quiet|]. intros _. apply emits_ret.
Qed.

(** The engine execution of the pansharpening stage, when there is one,
    reads [images['MS']] and [images['P']]. *)
Lemma getPansharpenImage_fed self images out_path ms pan :
  images !! "MS" = Some (PyStr ms) → images !! "P" = Some (PyStr pan) →
  emits (fed_with ms pan) (Dataset.getPansharpenImage self images out_path).
Proof.
  intros Hms Hpan. unfold Dataset.getPansharpenImage.
  repeat emits_step; try exact I.
  repeat match goal with
         | E : _ = Ok _ |- _ =>
             cbn in E; rewrite ?Hms, ?Hpan in E; cbn in E; injection E as <-
         end.
  cbn [fed_with]. unfold Dataset.set_method.
  destruct (_pan_method self); cbn [otb.set app_params];
    rewrite ?lookup_insert_ne by discriminate;
    rewrite ?lookup_insert_eq; rewrite ?lookup_insert_ne by discriminate;
    rewrite ?lookup_insert_eq; auto.
Qed.

End SpotTrace.

Lemma bind_assoc {A B C} (m : M A) (f : A → M B) (g : B → M C) w :
  bind (bind m f) g w = bind m (λ a, bind (f a) g) w.
Proof. rewrite !bind_run. destruct (m w) as [[a|e] w']; reflexivity. Qed.

Lemma bind_ext {A B} (m : M A) (f g : A → M B) w :
  (∀ a w', f a w' = g a w') → bind m f w = bind m g w.
Proof. intros E. rewrite !bind_run. destruct (m w) as [[a|e] w']; auto. Qed.

Section Topology.
Context `{Collaborators}.

(** The two methods run the same loop over the bands. *)
Lemma band_loop_same self root_path images ids mosaic w :
  Spot.band_loop self root_path images ids mosaic w
  = Pleiades.band_loop self root_path images ids mosaic w.
Proof.
  revert mosaic w. induction ids as [|_id ids IH]; intros mosaic w; [reflexivity|].
  cbn [Spot.band_loop Pleiades.band_loop]. cbv zeta.
  apply bind_ext. intros tiles w1.
  apply bind_ext. intros cal_images w2.
  apply bind_ext. intros fused w3.
  apply bind_ext. intros mosaic' w4. apply IH.
Qed.

(** From the mosaics on, [Pleiades.processToArd] is the superimposition
    followed by the pansharpening of its result, and [Spot.processToArd]
    is the pansharpening of the mosaics themselves. *)
Lemma processToArd_factor self ard_path w mosaic w1 :
  fused_mosaics self w = (Ok (Some mosaic), w1) →
  Pleiades.processToArd self w = pleiades_fusion self mosaic w1
  ∧ Spot.processToArd self ard_path w = spot_fusion self mosaic w1.
Proof.
  unfold fused_mosaics, Pleiades.processToArd, Spot.processToArd.
  fold (root_path_of self). fold (scene_path_of self). fold (pan_path_of self).
  cbv zeta. intros E.
  apply bind_inv in E as (e & wa & Ea & E).
  apply bind_inv in E as (? & wb & Eb & E).
  apply bind_inv in E as (code & wc & Ec & E).
  destruct (code =? 0) eqn:Hcode; [|discriminate E].
  apply bind_inv in E as (images & wd & Ed & E).
  apply bind_inv in E as (pan_tiles & we & Ee & E).
  apply bind_inv in E as (? & wf & Ef & E).
  apply bind_inv in E as (mosaic' & wg & Eg & E).
  cbn in E. injection E as <- <-.
  split.
  - rewrite (bind_ok _ _ _ _ _ Ea), (bind_ok _ _ _ _ _ Eb), (bind_ok _ _ _ _ _ Ec).
    rewrite Hcode.
    rewrite bind_assoc, (bind_ok _ _ _ _ _ Ed).
    rewrite bind_assoc, (bind_ok _ _ _ _ _ Ee).
    rewrite bind_assoc, (bind_ok _ _ _ _ _ Ef).
    rewrite bind_assoc, (bind_ok _ _ _ _ _ Eg).
    unfold pleiades_fusion. rewrite !bind_run.
    destruct (Dataset.getSuperimposedImage _ _ _ _) as [[super|?] w2];
      [|reflexivity].
    rewrite !bind_run.
    destruct (Dataset.getPansharpenImage _ _ _ _) as [[pan_image|?] w3];
      [|reflexivity].
    unfold_M. rewrite lookup_insert_eq. reflexivity.
  - rewrite (bind_ok _ _ _ _ _ Ea), (bind_ok _ _ _ _ _ Eb), (bind_ok _ _ _ _ _ Ec).
    rewrite Hcode.
    rewrite bind_assoc, (bind_ok _ _ _ _ _ Ed).
    rewrite bind_assoc, (bind_ok _ _ _ _ _ Ee).
    rewrite bind_assoc, (bind_ok _ _ _ _ _ Ef).
    rewrite <- band_loop_same in Eg.
    rewrite bind_assoc, (bind_ok _ _ _ _ _ Eg).
    unfold spot_fusion. rewrite !bind_run.
    destruct (Dataset.getPansharpenImage _ _ _ _) as [[pan_image|?] w3];
      reflexivity.
Qed.

Lemma created_app t1 t2 : created (t1 ++ t2) = created t1 ++ created t2.
Proof. apply omap_app. Qed.

(** Each of the two stages creates its one application, whatever else it
    does. *)
Lemma getSuperimposedImage_created self images out_path w :
  created (trace (Dataset.getSuperimposedImage self images out_path w).2)
  = created (trace w) ++ ["Superimpose"].
Proof.
  unfold Dataset.getSuperimposedImage. unfold_M.
  repeat match goal with
         | |- context [images !! ?k] => destruct (images !! k) as [[| |?]|]; unfold_M
         | |- context [bool_decide ?Q] => destruct (bool_decide Q); unfold_M
         | |- context [otb.ExecuteAndWriteOutput ?a ?w] =>
             unfold otb.ExecuteAndWriteOutput; destruct (otb_execute a (fs w));
             unfold_M
         end;
    rewrite ?created_app; cbn; rewrite ?app_nil_r; reflexivity.
Qed.

Lemma getPansharpenImage_created self images out_path w :
  created (trace (Dataset.getPansharpenImage self images out_path w).2)
  = created (trace w) ++ ["Pansharpening"].
Proof.
  unfold Dataset.getPansharpenImage. unfold_M.
  repeat match goal with
         | |- context [images !! ?k] => destruct (images !! k) as [[| |?]|]; unfold_M
         | |- context [bool_decide ?Q] => destruct (bool_decide Q); unfold_M
         | |- context [otb.ExecuteAndWriteOutput ?a ?w] =>
             unfold otb.ExecuteAndWriteOutput; destruct (otb_execute a (fs w));
             unfold_M
         end;
    rewrite ?created_app; cbn; rewrite ?app_nil_r; reflexivity.
Qed.

(** C1. Given the same fused mosaics [mosaic], reached in the world
    [w1] by the stages both methods share:
    - [Pleiades.processToArd] continues with the superimposition of
      [mosaic] and then the pansharpening of [mosaic] with its [MS] entry
      replaced by the superimposed image; when it returns, the
      applications it created last are [Superimpose] and then
      [Pansharpening], and an engine execution of the pansharpening reads
      the superimposed image as [inxs];
    - [Spot.processToArd] continues with the pansharpening of [mosaic]
      itself, whose engine execution reads the [MS] mosaic as [inxs];
    - no run of [Spot.processToArd] creates or executes the
      superimposition or the bundle conversion. *)
Theorem processToArd_topologies (self : Dataset) (ard_path : string) (w : World)
    (mosaic : gmap string pyobj) (w1 : World) (ms pan : string) :
  fused_mosaics self w = (Ok (Some mosaic), w1) →
  mosaic !! "MS" = Some (PyStr ms) → mosaic !! "P" = Some (PyStr pan) →
  (Pleiades.processToArd self w = pleiades_fusion self mosaic w1
   ∧ (∀ r w', Pleiades.processToArd self w = (Ok r, w') →
        ∃ super w2,
          Dataset.getSuperimposedImage self mosaic (pan_path_of self) w1
          = (Ok super, w2)
          ∧ super = output_name (pan_path_of self) "_MS_" "_MS_SUPER_" ms
          ∧ created (trace w') = created (trace w1) ++ ["Superimpose"; "Pansharpening"]
          ∧ ∃ evs, trace w' = trace w2 ++ evs ∧ Forall (fed_with super pan) evs))
  ∧ (Spot.processToArd self ard_path w = spot_fusion self mosaic w1
     ∧ ∃ evs, trace (Spot.processToArd self ard_path w).2 = trace w1 ++ evs
              ∧ Forall (fed_with ms pan) evs
              ∧ created evs = ["Pansharpening"])
  ∧ emits no_sensor_stage (Spot.processToArd self ard_path).
Proof.
  intros E Hms Hpan.
  destruct (processToArd_factor self ard_path w mosaic w1 E) as (EP & ES).
  split; [split; [exact EP|]|split; [split; [exact ES|]|]].
  - intros r w' Er. rewrite EP in Er. unfold pleiades_fusion in Er.
    apply bind_inv in Er as (super & w2 & Es & Er).
    apply bind_inv in Er as (pan_image & w3 & Ep & Er).
    cbn in Er. injection Er as <- <-.
    exists super, w2. split; [exact Es|].
    split.
    { revert Es. unfold Dataset.getSuperimposedImage. unfold_M. rewrite Hms.
      unfold_M. fold (output_name (pan_path_of self) "_MS_" "_MS_SUPER_" ms).
      destruct (bool_decide _); unfold_M; [congruence|].
      destruct (bool_decide _); unfold_M; rewrite ?Hpan; unfold_M;
        case_execute_goal Hx; congruence. }
    split.
    { pose proof (getPansharpenImage_created self (<["MS" := PyStr super]> mosaic)
                    (pan_path_of self) w2) as Hc.
      rewrite Ep in Hc. cbn [snd] in Hc. rewrite Hc.
      pose proof (getSuperimposedImage_created self mosaic (pan_path_of self) w1) as Hc'.
      rewrite Es in Hc'. cbn [snd] in Hc'. rewrite Hc', <- app_assoc. reflexivity. }
    destruct (getPansharpenImage_fed self (<["MS" := PyStr super]> mosaic)
                (pan_path_of self) super pan) with (w := w2) as (evs & Ht & Hf).
    { apply lookup_insert_eq. }
    { rewrite lookup_insert_ne by discriminate. exact Hpan. }
    rewrite Ep in Ht. eauto.
  - rewrite ES. unfold spot_fusion.
    destruct (getPansharpenImage_fed self mosaic (pan_path_of self) ms pan Hms Hpan w1)
      as (evs & Ht & Hf).
    pose proof (getPansharpenImage_created self mosaic (pan_path_of self) w1) as Hc.
    rewrite Ht, created_app in Hc. apply app_inv_head in Hc.
    exists evs. rewrite bind_run.
    destruct (Dataset.getPansharpenImage _ _ _ _) as [[pan_image|?] w3];
      cbn [snd] in *; auto.
  - apply Spot_processToArd_quiet.
Qed.

End Topology.

Section TopologyExamples.
#[local] Existing Instance Fixture.collaborators.

Lemma processToArd_topologies_witness :
  let self := Fixture.pleiades in
  let ms := "/data/tmp/cal/MS/IMG_PHR1A_MS_001_R1C1_CAL.TIF" in
  let pan := "/data/tmp/mosaic/P/IMG_PHR1A_P_001_MOSAIC_CAL.TIF" in
  let mosaic : gmap string pyobj := <["P" := PyStr pan]> (<["MS" := PyStr ms]> ∅) in
  let w1 := (fused_mosaics self Fixture.w0).2 in
  fused_mosaics self Fixture.w0 = (Ok (Some mosaic), w1)
  ∧ mosaic !! "MS" = Some (PyStr ms) ∧ mosaic !! "P" = Some (PyStr pan)
  ∧ Pleiades.processToArd self Fixture.w0 = pleiades_fusion self mosaic w1
  ∧ Spot.processToArd self "/data/ard" Fixture.w0 = spot_fusion self mosaic w1.
Proof.
  intros self ms pan mosaic w1.
  assert (E : fused_mosaics self Fixture.w0 = (Ok (Some mosaic), w1))
    by (vm_compute; reflexivity).
  assert (Hms : mosaic !! "MS" = Some (PyStr ms)) by (vm_compute; reflexivity).
  assert (Hpan : mosaic !! "P" = Some (PyStr pan)) by (vm_compute; reflexivity).
  destruct (processToArd_topologies self "/data/ard" Fixture.w0 mosaic w1 ms pan
              E Hms Hpan) as ((EP & _) & (ES & _) & _).
  auto.
Defined.

End TopologyExamples.

(** * Further properties of the program *)

(** ** Matches of the patterns *)

Lemma match_here_cons a pat s m r :
  Re.match_here (a :: pat) s = Some (m, r) →
  ∃ c m' s', s = String c s' ∧ Re.accepts a c = true
             ∧ m = String c m' ∧ Re.match_here pat s' = Some (m', r).
Proof.
  cbn [Re.match_here]. destruct s as [|c s']; [discriminate|].
  destruct (Re.accepts a c) eqn:Ha; [|discriminate].
  destruct (Re.match_here pat s') as [[m' r']|] eqn:Em; [|discriminate].
  intros [= <- <-]. exists c, m', s'. repeat split; auto.
Qed.

Lemma match_here_app pat s m r : Re.match_here pat s = Some (m, r) → s = m +:+ r.
Proof.
  revert s m. induction pat as [|a pat IH]; intros s m.
  - cbn. intros [= <- <-]. reflexivity.
  - intros (c & m' & s' & -> & _ & -> & E)%match_here_cons.
    rewrite (IH _ _ E). reflexivity.
Qed.

(** What [re.search] returns is a piece of the string that matches the
    pattern. *)
Lemma search_sound pat s m :
  Re.search pat s = Some m →
  ∃ pre post, s = pre +:+ m +:+ post ∧ Re.match_here pat (m +:+ post) = Some (m, post).
Proof.
  induction s as [|c s IH].
  - cbn [Re.search]. destruct (Re.match_here pat "") as [[m' r]|] eqn:E;
      [|discriminate].
    intros [= ->]. exists "", r. rewrite <- (match_here_app _ _ _ _ E). auto.
  - destruct pat as [|a pat].
    + cbn. intros [= <-]. exists "", (String c s). auto.
    + cbn [Re.search].
      destruct (Re.match_here (a :: pat) (String c s)) as [[m' r]|] eqn:E.
      * intros [= ->]. exists "", r. rewrite <- (match_here_app _ _ _ _ E). auto.
      * intros (pre & post & -> & Hm)%IH. exists (String c pre), post. auto.
Qed.

Lemma contains_app sub pre s :
  Str.contains sub s = true → Str.contains sub (pre +:+ s) = true.
Proof.
  intros Hs. induction pre as [|c pre IH]; [exact Hs|].
  change (String c pre +:+ s) with (String c (pre +:+ s)).
  cbn [Str.contains]. rewrite IH. apply orb_true_r.
Qed.

Lemma contains_here sub s : Str.startswith sub s = true → Str.contains sub s = true.
Proof. intros Hs. destruct s; cbn [Str.contains]; rewrite Hs; reflexivity. Qed.

Lemma startswith_app sub s : Str.startswith sub (sub +:+ s) = true.
Proof.
  induction sub as [|a sub IH]; [reflexivity|].
  change (String a sub +:+ s) with (String a (sub +:+ s)).
  cbn [Str.startswith]. rewrite Ascii.eqb_refl. exact IH.
Qed.

Lemma accepts_lit c x : Re.accepts (Re.Lit c) x = true → x = c.
Proof. cbn. intros E%Ascii.eqb_eq. congruence. Qed.

(** ** Platform codes *)

(** The code [getPlatform] reads with the Pleiades pattern. *)
Lemma getPlatform_pleiades scene code :
  Dataset.getPlatform scene Re.pleiades_pattern = PyStr code →
  ∃ d x, Str.is_digit d = true ∧ Str.mem x "A|B" = true
         ∧ code = String "P" (String "H" (String "R" (String d (String x ""))))
         ∧ Str.contains ("_" +:+ code +:+ "_") (os_path.basename scene) = true
         ∧ Str.contains "PHR" (os_path.basename scene) = true.
Proof.
  unfold Dataset.getPlatform.
  destruct (Re.search _ _) as [m|] eqn:E; [|discriminate].
  intros [= <-].
  destruct (search_sound _ _ _ E) as (pre & post & Hs & Hm).
  unfold Re.pleiades_pattern in Hm.
  apply match_here_cons in Hm as (c0 & m0 & s0 & E0 & ->%accepts_lit & -> & Hm).
  apply match_here_cons in Hm as (c1 & m1 & s1 & -> & ->%accepts_lit & -> & Hm).
  apply match_here_cons in Hm as (c2 & m2 & s2 & -> & ->%accepts_lit & -> & Hm).
  apply match_here_cons in Hm as (c3 & m3 & s3 & -> & ->%accepts_lit & -> & Hm).
  apply match_here_cons in Hm as (d & m4 & s4 & -> & Hd & -> & Hm).
  apply match_here_cons in Hm as (x & m5 & s5 & -> & Hx & -> & Hm).
  apply match_here_cons in Hm as (c6 & m6 & s6 & -> & ->%accepts_lit & -> & Hm).
  cbn in Hm. injection Hm as <- <-. cbn [Re.accepts] in Hd, Hx.
  exists d, x.
  assert (Hstrip : Str.strip "_" (String "_" (String "P" (String "H" (String "R"
                     (String d (String x "_"))))))
                   = String "P" (String "H" (String "R" (String d (String x ""))))).
  { digit_cases d Hd;
      (destruct x as [[] [] [] [] [] [] [] []]; try discriminate Hx; reflexivity). }
  rewrite Hstrip, Hs. repeat split; [exact Hd|exact Hx| |].
  - apply contains_app, contains_here.
    exact (startswith_app (String "_" (String "P" (String "H" (String "R"
             (String d (String x "_")))))) _).
  - apply contains_app. reflexivity.
Qed.

Lemma getPlatform_spot scene code :
  Dataset.getPlatform scene Re.spot_pattern = PyStr code →
  ∃ d, Str.is_digit d = true
       ∧ code = String "S" (String "P" (String "O" (String "T" (String d ""))))
       ∧ Str.contains ("_" +:+ code +:+ "_") (os_path.basename scene) = true
       ∧ Str.contains "SPOT" (os_path.basename scene) = true.
Proof.
  unfold Dataset.getPlatform.
  destruct (Re.search _ _) as [m|] eqn:E; [|discriminate].
  intros [= <-].
  destruct (search_sound _ _ _ E) as (pre & post & Hs & Hm).
  unfold Re.spot_pattern in Hm.
  apply match_here_cons in Hm as (c0 & m0 & s0 & E0 & ->%accepts_lit & -> & Hm).
  apply match_here_cons in Hm as (c1 & m1 & s1 & -> & ->%accepts_lit & -> & Hm).
  apply match_here_cons in Hm as (c2 & m2 & s2 & -> & ->%accepts_lit & -> & Hm).
  apply match_here_cons in Hm as (c3 & m3 & s3 & -> & ->%accepts_lit & -> & Hm).
  apply match_here_cons in Hm as (c4 & m4 & s4 & -> & ->%accepts_lit & -> & Hm).
  apply match_here_cons in Hm as (d & m5 & s5 & -> & Hd & -> & Hm).
  apply match_here_cons in Hm as (c6 & m6 & s6 & -> & ->%accepts_lit & -> & Hm).
  cbn in Hm. injection Hm as <- <-. cbn [Re.accepts] in Hd.
  exists d.
  assert (Hstrip : Str.strip "_" (String "_" (String "S" (String "P" (String "O"
                     (String "T" (String d "_"))))))
                   = String "S" (String "P" (String "O" (String "T" (String d ""))))).
  { digit_cases d Hd; reflexivity. }
  rewrite Hstrip, Hs. repeat split; [exact Hd| |].
  - apply contains_app, contains_here.
    exact (startswith_app (String "_" (String "S" (String "P" (String "O"
             (String "T" (String d "_")))))) _).
  - apply contains_app. reflexivity.
Qed.

(** X1. Whatever the name of the scene, the platform code read with the
    Pleiades pattern is absent or is [PHR], a digit and one of the three
    characters of the class [[A|B]] (the bar included); the code read with
    the SPOT pattern is absent or is [SPOT] and a digit.  The code never
    keeps an underscore, and the name holds it between underscores. *)
Theorem getPlatform_shape (scene : string) :
  (Dataset.getPlatform scene Re.pleiades_pattern = PyNone
   ∨ ∃ d x, Str.is_digit d = true ∧ Str.mem x "A|B" = true
            ∧ Dataset.getPlatform scene Re.pleiades_pattern
              = PyStr (String "P" (String "H" (String "R" (String d (String x "")))))
            ∧ Str.contains
                (String "_" (String "P" (String "H" (String "R" (String d (String x "_"))))))
                (os_path.basename scene) = true)
  ∧ (Dataset.getPlatform scene Re.spot_pattern = PyNone
     ∨ ∃ d, Str.is_digit d = true
            ∧ Dataset.getPlatform scene Re.spot_pattern
              = PyStr (String "S" (String "P" (String "O" (String "T" (String d "")))))
            ∧ Str.contains
                (String "_" (String "S" (String "P" (String "O" (String "T" (String d "_"))))))
                (os_path.basename scene) = true).
Proof.
  split.
  - destruct (Dataset.getPlatform scene Re.pleiades_pattern) as [|z|code] eqn:E.
    + left. reflexivity.
    + unfold Dataset.getPlatform in E. destruct (Re.search _ _); discriminate.
    + right. destruct (getPlatform_pleiades scene code E) as (d & x & Hd & Hx & -> & Hc & _).
      exists d, x. auto.
  - destruct (Dataset.getPlatform scene Re.spot_pattern) as [|z|code] eqn:E.
    + left. reflexivity.
    + unfold Dataset.getPlatform in E. destruct (Re.search _ _); discriminate.
    + right. destruct (getPlatform_spot scene code E) as (d & Hd & -> & Hc & _).
      exists d. auto.
Qed.

(** The bar of the class [[A|B]] is a platform letter for the pattern. *)
Example getPlatform_bar :
  Dataset.getPlatform "/data/DS_PHR1|_202001011230451_SEN.zip" Re.pleiades_pattern
  = PyStr "PHR1|".
Proof. reflexivity. Qed.

(** X2. The dispatch of [getId] agrees with the constructors: a scene
    that [Pleiades.__init__] accepts is identified as ['PHR'], and a scene
    that [Spot.__init__] accepts is identified as ['SPOT'] unless its name
    also holds [PHR], which [getId] looks for first. *)
Theorem getId_constructed (scene : string) (kw : kwargs) (w : World) self w' :
  (Pleiades.__init__ scene kw w = (Ok self, w') → Dataset.getId scene = PyStr "PHR")
  ∧ (Spot.__init__ scene kw w = (Ok self, w') →
     Dataset.getId scene
     = if Str.contains "PHR" (os_path.basename scene) then PyStr "PHR" else PyStr "SPOT").
Proof.
  unfold Pleiades.__init__, Spot.__init__. split; intros E;
    apply bind_inv in E as (? & ? & _ & E);
    apply bind_inv in E as (tle & ? & E' & _);
    rewrite lift_run in E'; injection E' as E' _.
  - destruct (Dataset.getPlatform scene Re.pleiades_pattern) as [| |code] eqn:Hp;
      try discriminate E'.
    destruct (getPlatform_pleiades scene code Hp) as (_ & _ & _ & _ & _ & _ & Hc).
    unfold Dataset.getId. cbn [Dataset.getId_loop]. rewrite Hc. reflexivity.
  - destruct (Dataset.getPlatform scene Re.spot_pattern) as [| |code] eqn:Hp;
      try discriminate E'.
    destruct (getPlatform_spot scene code Hp) as (_ & _ & _ & _ & Hc).
    unfold Dataset.getId. cbn [Dataset.getId_loop]. rewrite Hc.
    destruct (Str.contains "PHR" _); reflexivity.
Qed.

Lemma getId_constructed_witness :
  (∃ self w', Pleiades.__init__ Fixture.pleiades_scene Fixture.no_kwargs Fixture.w0
              = (Ok self, w'))
  ∧ Dataset.getId Fixture.pleiades_scene = PyStr "PHR"
  ∧ (∃ self w', Spot.__init__ Fixture.spot_scene Fixture.no_kwargs Fixture.w0
                = (Ok self, w'))
  ∧ Dataset.getId Fixture.spot_scene = PyStr "SPOT".
Proof.
  destruct (Pleiades.__init__ Fixture.pleiades_scene Fixture.no_kwargs Fixture.w0)
    as [[self|e] w'] eqn:E; [|vm_compute in E; discriminate E].
  destruct (Spot.__init__ Fixture.spot_scene Fixture.no_kwargs Fixture.w0)
    as [[self2|e] w2] eqn:E2; [|vm_compute in E2; discriminate E2].
  split; [eauto|]. split.
  { exact (proj1 (getId_constructed Fixture.pleiades_scene Fixture.no_kwargs
                    Fixture.w0 self w') E). }
  split; [eauto|].
  exact (proj2 (getId_constructed Fixture.spot_scene Fixture.no_kwargs
                  Fixture.w0 self2 w2) E2).
Defined.

(** ** Tile codes *)

(** What [getTileCoordinates] reads: nothing, or one digit for the row and
    one for the column. *)
Lemma getTileCoordinates_cases pathname :
  Dataset.getTileCoordinates pathname = []
  ∨ ∃ r c, Str.is_digit r = true ∧ Str.is_digit c = true
           ∧ Dataset.getTileCoordinates pathname = [String r ""; String c ""].
Proof.
  unfold Dataset.getTileCoordinates, Dataset.getTile.
  destruct (String.eqb _ _); [|auto].
  destruct (Re.search _ _) as [m|] eqn:E; [|auto].
  right. destruct (search_sound _ _ _ E) as (pre & post & _ & Hm).
  unfold Re.tile_pattern in Hm.
  apply match_here_cons in Hm as (c0 & m0 & s0 & E0 & ->%accepts_lit & -> & Hm).
  apply match_here_cons in Hm as (c1 & m1 & s1 & -> & ->%accepts_lit & -> & Hm).
  apply match_here_cons in Hm as (r & m2 & s2 & -> & Hr & -> & Hm).
  apply match_here_cons in Hm as (c3 & m3 & s3 & -> & ->%accepts_lit & -> & Hm).
  apply match_here_cons in Hm as (c & m4 & s4 & -> & Hc & -> & Hm).
  cbn in Hm. injection Hm as <- _.
  change (Str.is_digit r = true) in Hr. change (Str.is_digit c = true) in Hc.
  exists r, c. split; [exact Hr|]. split; [exact Hc|].
  digit_cases r Hr; digit_cases c Hc; reflexivity.
Qed.

Lemma int_digit c : Str.is_digit c = true → 0 ≤ Str.int (String c "") ≤ 9.
Proof. intros Hc. digit_cases c Hc; vm_compute; split; discriminate. Qed.

(** X3. [getTileCoordinates] returns the empty list or exactly two
    one-digit strings, so the rows and columns it yields lie between 0
    and 9; a path whose extension is not [.TIF] (in either case) yields
    the empty list. *)
Theorem getTileCoordinates_shape (pathname : string) :
  (Dataset.getTileCoordinates pathname = []
   ∨ ∃ r c, Str.is_digit r = true ∧ Str.is_digit c = true
            ∧ Dataset.getTileCoordinates pathname = [String r ""; String c ""]
            ∧ 0 ≤ Str.int (String r "") ≤ 9 ∧ 0 ≤ Str.int (String c "") ≤ 9)
  ∧ (Str.upper (os_path.splitext pathname).2 ≠ ".TIF" →
     Dataset.getTileCoordinates pathname = []).
Proof.
  split.
  - destruct (getTileCoordinates_cases pathname) as [E|(r & c & Hr & Hc & E)];
      [auto|].
    right. exists r, c. repeat split; auto; apply int_digit; assumption.
  - intros Hext. unfold Dataset.getTileCoordinates, Dataset.getTile.
    destruct (String.eqb_spec (Str.upper (os_path.splitext pathname).2) ".TIF");
      [contradiction|reflexivity].
Qed.

Lemma getTileCoordinates_shape_witness :
  Str.upper (os_path.splitext "/data/tmp/cal/MS/IMG_PHR1A_MS_001_R1C1_CAL.JP2").2 ≠ ".TIF"
  ∧ Dataset.getTileCoordinates "/data/tmp/cal/MS/IMG_PHR1A_MS_001_R1C1_CAL.JP2" = [].
Proof.
  assert (H : Str.upper
                (os_path.splitext "/data/tmp/cal/MS/IMG_PHR1A_MS_001_R1C1_CAL.JP2").2
              ≠ ".TIF") by (vm_compute; discriminate).
  split; [exact H|].
  exact (proj2 (getTileCoordinates_shape _) H).
Defined.

(** The first loop of [getTileFusionImages] stops at the first name
    without a tile code, and otherwise stays within a 9 x 9 grid. *)
Lemma grid_extent_cases images a b :
  0 ≤ a ≤ 9 → 0 ≤ b ≤ 9 →
  (Exists (λ image, Dataset.getTileCoordinates image = []) images
   ∧ Dataset.grid_extent images a b = Raise IndexError)
  ∨ (Forall (λ image, Dataset.getTileCoordinates image ≠ []) images
     ∧ ∃ r c, Dataset.grid_extent images a b = Ok (r, c) ∧ 0 ≤ r ≤ 9 ∧ 0 ≤ c ≤ 9).
Proof.
  revert a b. induction images as [|image images IH]; intros a b Ha Hb.
  - right. split; [constructor|]. exists a, b. auto.
  - cbn [Dataset.grid_extent].
    destruct (getTileCoordinates_cases image) as [E|(r & c & Hr & Hc & E)];
      rewrite E.
    + left. split; [left; exact E|reflexivity].
    + cbn [index lookup list_lookup bind outcome_monad].
      pose proof (int_digit r Hr). pose proof (int_digit c Hc).
      destruct (IH (Z.max a (Str.int (String r ""))) (Z.max b (Str.int (String c ""))))
        as [(Hex & Hg)|(Hall & Hg)]; [lia|lia| |].
      * left. split; [right; exact Hex|exact Hg].
      * right. split; [|exact Hg]. constructor; [|exact Hall].
        rewrite E. discriminate.
Qed.

Section TileEdges.
Context `{Collaborators}.

(** X4. A list with a name that carries no tile code (no [_R<d>C<d>]
    token, or not a [.TIF] file) makes [getTileFusionImages] raise
    [IndexError], with nothing done to the outside. *)
Theorem getTileFusionImages_no_tile_code (self : Dataset) (images : list string)
    (out_path : string) (w : World) :
  Exists (λ image, Dataset.getTileCoordinates image = []) images →
  Dataset.getTileFusionImages self images out_path w = (Raise IndexError, w).
Proof.
  intros Hex. unfold Dataset.getTileFusionImages.
  destruct (grid_extent_cases images 0 0) as [(_ & E)|(Hall & _)]; [lia|lia| |].
  - rewrite bind_run, lift_run, E. reflexivity.
  - exfalso. apply Exists_exists in Hex as (image & Hin & Hnil).
    rewrite Forall_forall in Hall. exact (Hall image Hin Hnil).
Qed.

(** X5. Rows and columns are single digits, so no grid is larger than
    9 x 9: a list of more than 81 tiles is never fused.  The call returns
    [None] or raises [IndexError], and nothing is done to the outside. *)
Theorem getTileFusionImages_over_81 (self : Dataset) (images : list string)
    (out_path : string) (w : World) :
  (81 < length images)%nat →
  Dataset.getTileFusionImages self images out_path w = (Ok PyNone, w)
  ∨ Dataset.getTileFusionImages self images out_path w = (Raise IndexError, w).
Proof.
  intros Hlen. unfold Dataset.getTileFusionImages.
  destruct (grid_extent_cases images 0 0) as [(_ & E)|(_ & r & c & E & Hr & Hc)];
    [lia|lia| |]; rewrite bind_run, lift_run, E.
  - right. reflexivity.
  - left. destruct (Z.eqb_spec (Z.of_nat (length images)) (r * c)); [nia|reflexivity].
Qed.

End TileEdges.

Section TileEdgesExamples.
#[local] Existing Instance Fixture.collaborators.

Lemma getTileFusionImages_no_tile_code_witness :
  let images := ["/data/tmp/cal/MS/IMG_PHR1A_MS_001_R1C1_CAL.TIF";
                 "/data/tmp/cal/MS/IMG_PHR1A_MS_001_R10C1_CAL.TIF"] in
  Exists (λ image, Dataset.getTileCoordinates image = []) images
  ∧ Dataset.getTileFusionImages Fixture.pleiades images "/data/tmp/mosaic/MS" Fixture.w0
    = (Raise IndexError, Fixture.w0).
Proof.
  intros images.
  assert (Hex : Exists (λ image, Dataset.getTileCoordinates image = []) images)
    by (right; left; reflexivity).
  split; [exact Hex|].
  exact (getTileFusionImages_no_tile_code Fixture.pleiades images _ Fixture.w0 Hex).
Defined.

Lemma getTileFusionImages_over_81_witness :
  let images := replicate 82 "/data/tmp/cal/MS/IMG_PHR1A_MS_001_R9C9_CAL.TIF" in
  (81 < length images)%nat
  ∧ (Dataset.getTileFusionImages Fixture.pleiades images "/data/tmp/mosaic/MS" Fixture.w0
     = (Ok PyNone, Fixture.w0)
     ∨ Dataset.getTileFusionImages Fixture.pleiades images "/data/tmp/mosaic/MS" Fixture.w0
       = (Raise IndexError, Fixture.w0)).
Proof.
  intros images.
  assert (Hlen : (81 < length images)%nat) by (vm_compute; lia).
  split; [exact Hlen|].
  exact (getTileFusionImages_over_81 Fixture.pleiades images _ Fixture.w0 Hlen).
Defined.

End TileEdgesExamples.

(** ** The order of the tile list *)

Lemma ltb_trans x y z : Str.ltb x y = true → Str.ltb y z = true → Str.ltb x z = true.
Proof.
  intros Hxy Hyz. destruct (ltb_cotrans _ _ z Hxy) as [E|E]; [exact E|].
  rewrite (ltb_asym _ _ Hyz) in E. discriminate.
Qed.

Lemma ltb_antisym x y : Str.ltb x y = false → Str.ltb y x = false → x = y.
Proof.
  revert y. induction x as [|a x IH]; intros [|b y]; cbn [Str.ltb]; try discriminate;
    [reflexivity|].
  destruct (Nat.ltb_spec (nat_of_ascii a) (nat_of_ascii b)); [discriminate|].
  destruct (Nat.ltb_spec (nat_of_ascii b) (nat_of_ascii a)); [discriminate|].
  intros Hxy Hyx. f_equal; [|exact (IH _ Hxy Hyx)].
  rewrite <- (ascii_nat_embedding a), <- (ascii_nat_embedding b). f_equal. lia.
Qed.

(** Insertions commute, whatever the list. *)
Lemma insert_sorted_comm x y l :
  Str.insert_sorted x (Str.insert_sorted y l) = Str.insert_sorted y (Str.insert_sorted x l).
Proof.
  induction l as [|z l IH].
  - cbn [Str.insert_sorted].
    destruct (Str.ltb y x) eqn:Hyx, (Str.ltb x y) eqn:Hxy; try reflexivity.
    + rewrite (ltb_asym _ _ Hyx) in Hxy. discriminate.
    + rewrite (ltb_antisym _ _ Hxy Hyx). reflexivity.
  - destruct (Str.ltb z y) eqn:Hzy, (Str.ltb z x) eqn:Hzx.
    + repeat (cbn [Str.insert_sorted]; rewrite ?Hzy, ?Hzx). rewrite IH. reflexivity.
    + assert (Hxy : Str.ltb x y = true).
      { destruct (ltb_cotrans _ _ x Hzy) as [E|E]; congruence. }
      repeat (cbn [Str.insert_sorted]; rewrite ?Hzy, ?Hzx, ?Hxy). reflexivity.
    + assert (Hyx : Str.ltb y x = true).
      { destruct (ltb_cotrans _ _ y Hzx) as [E|E]; congruence. }
      repeat (cbn [Str.insert_sorted]; rewrite ?Hzy, ?Hzx, ?Hyx). reflexivity.
    + repeat (cbn [Str.insert_sorted]; rewrite ?Hzy, ?Hzx).
      destruct (Str.ltb y x) eqn:Hyx, (Str.ltb x y) eqn:Hxy;
        repeat (cbn [Str.insert_sorted]; rewrite ?Hzx, ?Hzy); try reflexivity.
      * rewrite (ltb_asym _ _ Hyx) in Hxy. discriminate.
      * rewrite (ltb_antisym _ _ Hxy Hyx). reflexivity.
Qed.

(** [list.sort()] gives the same list for every order of its input. *)
Lemma sort_permutation l l' : l ≡ₚ l' → Str.sort l = Str.sort l'.
Proof.
  induction 1 as [|x l l' _ IH|x y l|l l' l'' _ IH1 _ IH2].
  - reflexivity.
  - unfold Str.sort in *. cbn [foldr]. rewrite IH. reflexivity.
  - unfold Str.sort. cbn [foldr]. apply insert_sorted_comm.
  - congruence.
Qed.

Lemma grid_extent_snoc_comm image1 image2 images a b :
  Dataset.grid_extent (image1 :: image2 :: images) a b
  = Dataset.grid_extent (image2 :: image1 :: images) a b.
Proof.
  cbn [Dataset.grid_extent].
  destruct (getTileCoordinates_cases image1) as [E1|(r1 & c1 & _ & _ & E1)];
    destruct (getTileCoordinates_cases image2) as [E2|(r2 & c2 & _ & _ & E2)];
    rewrite E1, E2; cbn [index lookup list_lookup bind outcome_monad];
    try reflexivity.
  f_equal; lia.
Qed.

Lemma grid_extent_permutation images images' :
  images ≡ₚ images' →
  ∀ a b, Dataset.grid_extent images a b = Dataset.grid_extent images' a b.
Proof.
  induction 1 as [|x l l' _ IH|x y l|l l' l'' _ IH1 _ IH2]; intros a b.
  - reflexivity.
  - cbn [Dataset.grid_extent].
    destruct (index (Dataset.getTileCoordinates x) 0); [|reflexivity].
    cbn [bind outcome_monad].
    destruct (index (Dataset.getTileCoordinates x) 1); [|reflexivity].
    cbn [bind outcome_monad]. apply IH.
  - apply grid_extent_snoc_comm.
  - rewrite IH1. apply IH2.
Qed.

Section TileOrder.
Context `{Collaborators}.

(** X6. [getTileFusionImages] does not depend on the order in which the
    tiles are listed: for two lists with the same tiles it returns the
    same result and leaves the same world. *)
Theorem getTileFusionImages_permutation (self : Dataset) (images images' : list string)
    (out_path : string) (w : World) :
  images ≡ₚ images' →
  Dataset.getTileFusionImages self images out_path w
  = Dataset.getTileFusionImages self images' out_path w.
Proof.
  intros HP. unfold Dataset.getTileFusionImages.
  rewrite !bind_run, !lift_run, (grid_extent_permutation _ _ HP 0 0).
  destruct (Dataset.grid_extent images' 0 0) as [[nrows ncols]|e]; [|reflexivity].
  rewrite (Permutation_length HP), (sort_permutation _ _ HP).
  destruct (_ =? _); [|reflexivity].
  destruct (1 <? length images')%nat eqn:Hlen; [reflexivity|].
  apply Nat.ltb_ge in Hlen.
  destruct images' as [|x [|y l]]; cbn [length] in Hlen; [| |lia].
  - apply Permutation_nil_r in HP. rewrite HP. reflexivity.
  - apply Permutation_singleton_r in HP. rewrite HP. reflexivity.
Qed.

End TileOrder.

Section TileOrderExamples.
#[local] Existing Instance Fixture.collaborators.

Lemma getTileFusionImages_permutation_witness :
  let a := "/data/tmp/cal/P/IMG_PHR1A_P_001_R1C1_CAL.TIF" in
  let b := "/data/tmp/cal/P/IMG_PHR1A_P_001_R1C2_CAL.TIF" in
  [a; b] ≡ₚ [b; a]
  ∧ Dataset.getTileFusionImages Fixture.pleiades [a; b] "/data/tmp/mosaic/P" Fixture.w0
    = Dataset.getTileFusionImages Fixture.pleiades [b; a] "/data/tmp/mosaic/P" Fixture.w0.
Proof.
  intros a b.
  assert (HP : [a; b] ≡ₚ [b; a]) by apply perm_swap.
  split; [exact HP|].
  exact (getTileFusionImages_permutation Fixture.pleiades _ _ _ Fixture.w0 HP).
Defined.

End TileOrderExamples.

(** ** The image lists *)

Section ImageLists.
Context `{Collaborators}.

Lemma getImageLists_loop_run self path ids acc w :
  ∃ images,
    Dataset.getImageLists_loop self path ids acc w
    = (Ok images,
       mkWorld (fs w) (trace w ++ map (λ _id, EvGlob (image_pattern self path _id)) ids))
    ∧ ∀ _id, images !! _id
             = if bool_decide (_id ∈ ids)
               then Some (glob_glob (image_pattern self path _id) (fs w))
               else acc !! _id.
Proof.
  revert acc w. induction ids as [|i ids IH]; intros acc w.
  - exists acc. cbn. rewrite app_nil_r, world_eta. split; [reflexivity|].
    intros _id. rewrite bool_decide_eq_false_2 by apply not_elem_of_nil. reflexivity.
  - cbn [Dataset.getImageLists_loop]. cbv zeta. fold (image_pattern self path i).
    rewrite bind_run. cbn [Dataset.glob].
    destruct (IH (<[i := glob_glob (image_pattern self path i) (fs w)]> acc)
                (mkWorld (fs w) (trace w ++ [EvGlob (image_pattern self path i)])))
      as (images & E & Hlook).
    exists images. rewrite E. cbn [fs trace map]. rewrite <- app_assoc.
    split; [reflexivity|].
    intros _id. rewrite Hlook. cbn [fs].
    destruct (decide (_id ∈ ids)) as [Hin|Hin].
    + rewrite !bool_decide_eq_true_2; [reflexivity| |exact Hin].
      apply elem_of_cons. auto.
    + rewrite (bool_decide_eq_false_2 _ Hin).
      destruct (decide (_id = i)) as [->|Hne].
      * rewrite lookup_insert_eq, bool_decide_eq_true_2; [reflexivity|].
        apply elem_of_cons. auto.
      * rewrite lookup_insert_ne by congruence.
        rewrite bool_decide_eq_false_2; [reflexivity|].
        intros [->|Hin']%elem_of_cons; [congruence|contradiction].
Qed.


End ImageLists.

(** ** The footprint of a stage *)

Lemma emits_mono `{Collaborators} {A} (P Q : event → Prop) (m : M A) :
  (∀ ev, P ev → Q ev) → emits P m → emits Q m.
Proof.
  intros HPQ Hm w. destruct (Hm w) as (evs & E & F).
  exists evs. split; [exact E|]. eapply Forall_impl; eauto.
Qed.

(** One step along a computation, the conditions on its events left as
    goals. *)
Ltac emits_walk :=
  cbv zeta;
  lazymatch goal with
  | |- emits _ (bind (otb.CreateApplication ?n) _) =>
      apply (emits_bind_post _ (λ a, a = mkApp n ∅));
      [apply emits_create
      |intros ? ? ?; unfold_M; intros [= <- _]; reflexivity
      |intros ? ->]
  | |- emits _ (bind (lift ?o) _) => apply emits_bind_lift; intros ? ?
  | |- emits _ (bind _ _) => apply emits_bind; [|intros ?]
  | |- emits _ (ret _) => apply emits_ret
  | |- emits _ skip => apply emits_ret
  | |- emits _ (lift _) => apply emits_lift
  | |- emits _ (os.path_exists _) => apply emits_exists
  | |- emits _ (os.makedirs _) => apply emits_makedirs
  | |- emits _ (otb.ExecuteAndWriteOutput _) => apply emits_execute
  | |- emits _ (if ?b then _ else _) => destruct b eqn:?
  | |- emits _ (match ?x with _ => _ end) => destruct x eqn:?
  end.

Lemma out_file_set_method self app : out_file (Dataset.set_method self app) = out_file app.
Proof.
  unfold Dataset.set_method. destruct (_pan_method self); [|reflexivity].
  apply out_file_other. discriminate.
Qed.

Lemma out_file_set_elevation self app :
  out_file (Dataset.set_elevation self app) = out_file app.
Proof.
  unfold Dataset.set_elevation.
  destruct (_dem_path self), (_geoid_pathname self); try reflexivity.
  rewrite !out_file_other by discriminate. reflexivity.
Qed.

Lemma getitem_lookup {A} (d : gmap string A) key v :
  getitem d (PyStr key) = Ok v → d !! key = Some v.
Proof. cbn. destruct (d !! key); [intros [= ->]; reflexivity|discriminate]. Qed.

Lemma fspath_str o name : fspath o = Ok name → o = PyStr name.
Proof. destruct o; cbn; try discriminate. intros [= ->]. reflexivity. Qed.

(** Rewrites the [out] file of the application at hand to the path it was
    set to. *)
Ltac out_file_known :=
  rewrite ?out_file_set_method, ?out_file_set_elevation;
  rewrite ?out_file_other by discriminate;
  rewrite out_file_set by reflexivity.

Section Footprint.
Context `{Collaborators}.

Lemma getCalibratedImages_loop_footprint self tiles app images out_path level milli
    out_images :
  app_name app = "OpticalCalibration" →
  (∀ image, image ∈ images → image ∈ tiles) →
  emits (stage_event self (Calibrate tiles out_path level milli))
    (Dataset.getCalibratedImages_loop self app images out_path level milli out_images).
Proof.
  revert app out_images. induction images as [|image images IH];
    intros app out_images Hname Hall; cbn [Dataset.getCalibratedImages_loop].
  - apply emits_ret.
  - apply emits_bind; [apply emits_exists|]. intros e.
    apply (emits_bind_post _ (λ a, app_name a = "OpticalCalibration")).
    + destruct e; repeat emits_walk; try reflexivity.
      cbn [stage_event stage_application]. split.
      * destruct milli; rewrite ?app_name_set; exact Hname.
      * destruct milli; out_file_known; cbn [outputs];
          apply list_elem_of_fmap; exists image; (split; [reflexivity|]);
          apply Hall; left.
    + intros w a w'. destruct e; unfold_M; [intros [= <- _]; exact Hname|].
      destruct (bool_decide _); unfold_M; case_execute_goal Hx;
        intros [= <- _]; destruct milli; exact Hname.
    + intros app' Hname'. apply IH; [exact Hname'|].
      intros image' Hin. apply Hall. right. exact Hin.
Qed.

Lemma run_stage_emits (self : Dataset) (st : stage) :
  emits (stage_event self st) (run_stage self st).
Proof.
  destruct st as [images out_path level milli|images out_path|image out_path
                 |images out_path|images out_path|images out_path|images];
    cbn [run_stage]; (apply emits_bind; [|intros ?; apply emits_ret]).
  - unfold Dataset.getCalibratedImages. emits_walk; [reflexivity|].
    apply getCalibratedImages_loop_footprint; [reflexivity|auto].
  - unfold Dataset.getTileFusionImages. repeat emits_walk; try reflexivity.
    cbn [stage_event stage_application]. split; [reflexivity|].
    out_file_known. cbn [outputs].
    repeat match goal with
           | E : _ = _ |- _ => rewrite E
           end.
    cbn [andb].
    match goal with
    | E : index (Str.sort images) 0 = Ok _ |- _ => rewrite head_index in E
    end.
    destruct (head (Str.sort images)); [|discriminate].
    match goal with E : Ok _ = Ok _ |- _ => injection E as -> end.
    apply list_elem_of_singleton. reflexivity.
  - unfold Dataset.getRoiImage. repeat emits_walk; try reflexivity.
    cbn [stage_event stage_application]. split.
    + repeat match goal with
             | E : otb.SetParameterString _ _ _ = Ok _ |- _ =>
                 apply app_name_SetParameterString in E
             end.
      rewrite !app_name_set. assumption.
    + out_file_known. cbn [outputs].
      repeat match goal with
             | E : fspath _ = Ok _ |- _ => apply fspath_str in E; subst
             end.
      match goal with
      | E : match _roi self with _ => _ end = Ok _ |- _ =>
          destruct (_roi self); [injection E as ->|discriminate E]
      end.
      match goal with
      | E : BBox_getImageRoi _ _ = Ok _ |- _ => rewrite E
      end.
      apply list_elem_of_singleton. reflexivity.
  - unfold Dataset.getPansharpenImage_Bundle. repeat emits_walk; try reflexivity.
    cbn [stage_event stage_application]. split.
    + repeat match goal with
             | E : otb.SetParameterString _ _ _ = Ok _ |- _ =>
                 apply app_name_SetParameterString in E
             end.
      rewrite app_name_set_method, app_name_set_elevation, !app_name_set. cbn [app_name] in *. congruence.
    + out_file_known. cbn [outputs]. unfold ms_output.
      repeat match goal with
             | E : getitem _ _ = Ok _ |- _ => apply getitem_lookup in E
             | E : fspath _ = Ok _ |- _ => apply fspath_str in E; subst
             end.
      match goal with E : images !! "MS" = Some (PyStr _) |- _ => rewrite E end.
      apply list_elem_of_singleton. reflexivity.
  - unfold Dataset.getSuperimposedImage. repeat emits_walk; try reflexivity.
    cbn [stage_event stage_application]. split.
    + repeat match goal with
             | E : otb.SetParameterString _ _ _ = Ok _ |- _ =>
                 apply app_name_SetParameterString in E
             end.
      rewrite app_name_set_elevation, !app_name_set. cbn [app_name] in *. congruence.
    + out_file_known. cbn [outputs]. unfold ms_output.
      repeat match goal with
             | E : getitem _ _ = Ok _ |- _ => apply getitem_lookup in E
             | E : fspath _ = Ok _ |- _ => apply fspath_str in E; subst
             end.
      match goal with E : images !! "MS" = Some (PyStr _) |- _ => rewrite E end.
      apply list_elem_of_singleton. reflexivity.
  - unfold Dataset.getPansharpenImage. repeat emits_walk; try reflexivity.
    cbn [stage_event stage_application]. split.
    + repeat match goal with
             | E : otb.SetParameterString _ _ _ = Ok _ |- _ =>
                 apply app_name_SetParameterString in E
             end.
      rewrite app_name_set_method, !app_name_set. cbn [app_name] in *. congruence.
    + out_file_known. cbn [outputs]. unfold ms_output.
      repeat match goal with
             | E : getitem _ _ = Ok _ |- _ => apply getitem_lookup in E
             | E : fspath _ = Ok _ |- _ => apply fspath_str in E; subst
             end.
      match goal with E : images !! "MS" = Some (PyStr _) |- _ => rewrite E end.
      apply list_elem_of_singleton. reflexivity.
  - unfold Dataset.getSrtmTiles. repeat emits_walk; try reflexivity.
    cbn [stage_event stage_application]. split; [reflexivity|].
    unfold out_file. cbn [otb.set app_params].
    rewrite !lookup_insert_ne by discriminate. rewrite lookup_empty. reflexivity.
Qed.

End Footprint.

(** ** The footprint of a run *)

Lemma mem_app c s t : Str.mem c (s +:+ t) = Str.mem c s || Str.mem c t.
Proof.
  induction s as [|a s IH]; [reflexivity|].
  change (String a s +:+ t) with (String a (s +:+ t)).
  cbn [Str.mem]. rewrite IH, orb_assoc. reflexivity.
Qed.

Lemma mem_drop c n s : Str.mem c s = false → Str.mem c (Str.drop n s) = false.
Proof.
  revert n. induction s as [|a s IH]; intros [|n]; cbn [Str.drop Str.mem]; auto.
  intros [_ Hs]%orb_false_elim. auto.
Qed.

Lemma rfind_succ_none c s : Str.rfind_succ c s = O → Str.mem c s = false.
Proof.
  induction s as [|a s IH]; cbn [Str.rfind_succ Str.mem]; [reflexivity|].
  destruct (Str.rfind_succ c s); [|discriminate].
  destruct (Ascii.eqb a c); [discriminate|]. intros _. apply IH. reflexivity.
Qed.

(** [os.path.basename] returns a name without separator. *)
Lemma basename_no_sep p : Str.mem "/" (os_path.basename p) = false.
Proof.
  unfold os_path.basename. induction p as [|a p IH]; [reflexivity|].
  cbn [Str.rfind_succ]. destruct (Str.rfind_succ "/" p) as [|k] eqn:E.
  - pose proof (rfind_succ_none _ _ E) as Hp.
    destruct (Ascii.eqb a "/") eqn:Ea; cbn [Str.drop Str.mem]; [exact Hp|].
    rewrite Ea, Hp. reflexivity.
  - cbn [Str.drop]. exact IH.
Qed.

Lemma replace_from_no_sep c old new skip s :
  Str.mem c new = false → Str.mem c s = false →
  Str.mem c (Str.replace_from old new skip s) = false.
Proof.
  intros Hnew. revert skip. induction s as [|a s IH]; intros skip; [reflexivity|].
  cbn [Str.mem]. intros [Ha Hs]%orb_false_elim.
  cbn [Str.replace_from]. destruct skip as [|k]; [|auto].
  destruct (Str.startswith old (String a s)).
  - rewrite mem_app, Hnew. cbn [orb]. auto.
  - cbn [Str.mem]. rewrite Ha. cbn [orb]. auto.
Qed.

Lemma output_name_child out_path old new image :
  Str.mem "/" new = false →
  child_of out_path (output_name out_path old new image).
Proof.
  intros Hnew. eexists. split; [reflexivity|].
  apply replace_from_no_sep; [exact Hnew|apply basename_no_sep].
Qed.

Lemma emits_ext `{Collaborators} {A} (P : event → Prop) (m m' : M A) :
  (∀ w, m w = m' w) → emits P m → emits P m'.
Proof. intros E Hm w. rewrite <- E. apply Hm. Qed.

Lemma emits_of_mapped `{Collaborators} {A B} (P : event → Prop) (m : M A) (f : A → B) :
  emits P (a <- m;; ret (f a)) → emits P m.
Proof.
  intros Hm w. destruct (Hm w) as (evs & E & F). exists evs. split; [|exact F].
  rewrite <- E, bind_run. destruct (m w) as [[a|e] w']; reflexivity.
Qed.

Section RunFootprint.
Context `{Collaborators}.

(** The output paths of a stage are children of its [out_path]. *)
Lemma outputs_children self st p :
  p ∈ outputs self st → ∃ d, stage_out_path st = Some d ∧ child_of d p.
Proof.
  destruct st as [images out_path level milli|images out_path|image out_path
                 |images out_path|images out_path|images out_path|images];
    cbn [outputs stage_out_path]; unfold ms_output;
    repeat match goal with
           | |- context [match ?x with _ => _ end] => destruct x
           end;
    try (intros []%elem_of_nil).
  all: try (intros ->%list_elem_of_singleton; eexists; split; [reflexivity|];
            apply output_name_child; reflexivity).
  intros (image & -> & _)%list_elem_of_fmap. eexists. split; [reflexivity|].
  apply output_name_child. reflexivity.
Qed.

(** The events of a stage of the run are events of the run. *)
Lemma stage_within self fusion st :
  run_application self fusion (stage_application st) →
  (∀ d, stage_out_path st = Some d → run_directory self d) →
  ∀ ev, stage_event self st ev → run_event self fusion ev.
Proof.
  intros Happ Hdir ev Hev. destruct ev; cbn [stage_event run_event] in *;
    try contradiction.
  - apply Hdir, Hev.
  - rewrite Hev. exact Happ.
  - destruct Hev as [Hname Hout]. rewrite Hname. split; [exact Happ|].
    destruct (out_file app) as [p|].
    + destruct (outputs_children _ _ _ Hout) as (d & Hd & Hc). eauto.
    + destruct st; try discriminate. reflexivity.
Qed.

Lemma stage_emits_within {A} self fusion st (m : M A) (f : A → stage_result) :
  (∀ w, run_stage self st w = (a <- m;; ret (f a)) w) →
  run_application self fusion (stage_application st) →
  (∀ d, stage_out_path st = Some d → run_directory self d) →
  emits (run_event self fusion) m.
Proof.
  intros E Happ Hdir. apply (emits_of_mapped _ _ f).
  apply (emits_ext _ (run_stage self st)); [exact E|].
  apply (emits_mono (stage_event self st)); [|apply run_stage_emits].
  apply stage_within; assumption.
Qed.

(** X8. The footprint of a stage: whatever its arguments and whatever
    the files present, a stage creates only its own application, creates
    no directory but its [out_path], and every engine execution it starts
    runs that application with one of the stage's deterministic output
    paths as the [out] file (the elevation fetch has no [out] file); it
    extracts nothing, searches nothing and opens no file. Each output
    path is [out_path] joined with a name that has no separator. *)
Theorem stage_footprint (self : Dataset) (st : stage) :
  emits (stage_event self st) (run_stage self st)
  ∧ ∀ p, p ∈ outputs self st → ∃ d, stage_out_path st = Some d ∧ child_of d p.
Proof. split; [apply run_stage_emits|apply outputs_children]. Qed.

End RunFootprint.

Section PipelineFootprint.
Context `{Collaborators}.

Lemma band_loop_footprint self fusion images ids mosaic :
  (∀ _id, _id ∈ ids → _id ∈ _image_ids self) →
  emits (run_event self fusion)
    (Pleiades.band_loop self (root_path_of self) images ids mosaic).
Proof.
  revert mosaic. induction ids as [|_id ids IH]; intros mosaic Hids;
    cbn [Pleiades.band_loop]; [apply emits_ret|].
  assert (Hid : _id ∈ _image_ids self) by (apply Hids; left).
  cbv zeta. apply emits_bind_lift. intros tiles _.
  apply emits_bind.
  { apply (stage_emits_within self fusion
             (Calibrate tiles (os_path.join (root_path_of self) ("cal/" +:+ _id))
                "toa" true) _ Paths); [reflexivity|left; reflexivity|].
    intros d [= <-]. right. right. exists _id. auto. }
  intros cal_images. apply emits_bind.
  { apply (stage_emits_within self fusion
             (FuseTiles cal_images (os_path.join (root_path_of self) ("mosaic/" +:+ _id)))
             _ Path); [reflexivity|right; left; reflexivity|].
    intros d [= <-]. right. right. exists _id. auto. }
  intros fused. apply emits_bind.
  2: { intros ?. apply IH. intros i Hi. apply Hids. right. exact Hi. }
  destruct (_roi self) as [roi|] eqn:Hroi; [|apply emits_ret].
  apply emits_bind_lift. intros image _. apply emits_bind; [|intros ?; apply emits_ret].
  apply (stage_emits_within self fusion
           (ClipToROI image (os_path.join (root_path_of self) ("roi/" +:+ _id)))
           _ Path); [reflexivity| |].
  - right. right. left. rewrite Hroi. eauto.
  - intros d [= <-]. right. right. exists _id. rewrite Hroi. eauto 6.
Qed.

Lemma getImageLists_footprint self fusion :
  emits (run_event self fusion) (Dataset.getImageLists self (scene_path_of self)).
Proof.
  intros w.
  destruct (getImageLists_loop_run self (scene_path_of self) (_image_ids self) ∅ w)
    as (images & E & _).
  unfold Dataset.getImageLists. rewrite E. cbn [snd trace].
  eexists. split; [reflexivity|].
  apply Forall_fmap, Forall_forall. intros _id Hid. cbn. eauto.
Qed.

Lemma getSrtmTiles_footprint self fusion images :
  emits (run_event self fusion) (Dataset.getSrtmTiles self images).
Proof.
  destruct (_dem_path self) as [dem|] eqn:Hdem.
  - apply (stage_emits_within self fusion (FetchElevationTiles images) _ (λ _, Nothing));
      [reflexivity| |discriminate].
    right. right. right. left. rewrite Hdem. eauto.
  - unfold Dataset.getSrtmTiles. rewrite Hdem. apply emits_ret.
Qed.

Lemma fusion_stage_footprint {A} self fusion st (m : M A) (f : A → stage_result) :
  (∀ w, run_stage self st w = (a <- m;; ret (f a)) w) →
  stage_application st ∈ fusion →
  stage_out_path st = Some (pan_path_of self) →
  emits (run_event self fusion) m.
Proof.
  intros E Happ Hout. apply (stage_emits_within self fusion st m f E).
  - do 4 right. exact Happ.
  - intros d Hd. rewrite Hout in Hd. injection Hd as <-. right. left. reflexivity.
Qed.

(** X9. The footprint of a run of [processToArd], for any archive, any
    options and any files present.  Directories are created only at
    [<scene dir>/tmp/scene], [tmp/pan] and, per image id, [tmp/cal/<id>],
    [tmp/mosaic/<id>] and (with a region) [tmp/roi/<id>]; every
    application created or executed is the calibration, the tile fusion,
    the clipping (only with a region), the elevation fetch (only with an
    elevation directory) or the profile's fusion: superimposition and
    pansharpening for Pleiades, pansharpening alone for SPOT; every
    execution with an [out] file writes a direct child of one of those
    directories, so nothing is written to [ard_path]. *)
Theorem processToArd_footprint (self : Dataset) (ard_path : string) :
  emits (run_event self ["Superimpose"; "Pansharpening"]) (Pleiades.processToArd self)
  ∧ emits (run_event self ["Pansharpening"]) (Spot.processToArd self ard_path).
Proof.
  split.
  - unfold Pleiades.processToArd. cbv zeta.
    apply emits_bind; [apply emits_exists|]. intros e.
    apply emits_bind.
    { destruct e; [apply emits_ret|]. apply emits_makedirs. left. reflexivity. }
    intros _. apply emits_bind; [apply emits_extract; split; reflexivity|]. intros code.
    apply emits_bind.
    2: { intros [pan_image mosaic]. repeat emits_walk. }
    destruct (code =? 0); [|apply emits_ret].
    apply emits_bind; [apply getImageLists_footprint|]. intros images.
    apply emits_bind_lift. intros pan_tiles _.
    apply emits_bind; [apply getSrtmTiles_footprint|]. intros _.
    apply emits_bind; [apply band_loop_footprint; auto|]. intros mosaic.
    apply emits_bind.
    { apply (fusion_stage_footprint self _ (Superimpose mosaic (pan_path_of self))
               _ (λ p, Path (PyStr p))); [reflexivity| |reflexivity].
      apply elem_of_cons. left. reflexivity. }
    intros super. apply emits_bind; [|intros ?; apply emits_ret].
    apply (fusion_stage_footprint self _
             (Pansharpen (<["MS" := PyStr super]> mosaic) (pan_path_of self))
             _ (λ p, Path (PyStr p))); [reflexivity| |reflexivity].
    apply elem_of_cons. right. apply elem_of_cons. left. reflexivity.
  - unfold Spot.processToArd. cbv zeta.
    apply emits_bind; [apply emits_exists|]. intros e.
    apply emits_bind.
    { destruct e; [apply emits_ret|]. apply emits_makedirs. left. reflexivity. }
    intros _. apply emits_bind; [apply emits_extract; split; reflexivity|]. intros code.
    apply emits_bind; [|intros _; apply emits_ret].
    destruct (code =? 0); [|apply emits_ret].
    apply emits_bind; [apply getImageLists_footprint|]. intros images.
    apply emits_bind_lift. intros pan_tiles _.
    apply emits_bind; [apply getSrtmTiles_footprint|]. intros _.
    apply emits_bind.
    { apply (emits_ext _ (Pleiades.band_loop self (root_path_of self) images
                            (_image_ids self) ∅)).
      - intros w. symmetry. apply band_loop_same.
      - apply band_loop_footprint. auto. }
    intros mosaic. apply emits_bind; [|intros ?; apply emits_ret].
    apply (fusion_stage_footprint self _ (Pansharpen mosaic (pan_path_of self))
             _ (λ p, Path (PyStr p))); [reflexivity| |reflexivity].
    apply elem_of_cons. left. reflexivity.
Qed.

End PipelineFootprint.

(** ** A mosaic that is [None] *)

Section MissingMosaic.
Context `{Collaborators}.

(** X10. When the multispectral mosaic is [None] (the tile grid was
    incomplete, or the region did not overlap the mosaic), neither
    method returns: both raise [TypeError] right after creating their
    fusion application, without creating a directory or executing
    anything after the mosaics. *)
Theorem processToArd_mosaic_None (self : Dataset) (ard_path : string) (w : World)
    (mosaic : gmap string pyobj) (w1 : World) :
  fused_mosaics self w = (Ok (Some mosaic), w1) →
  mosaic !! "MS" = Some PyNone →
  Pleiades.processToArd self w
  = (Raise TypeError, mkWorld (fs w1) (trace w1 ++ [EvCreateApplication "Superimpose"]))
  ∧ Spot.processToArd self ard_path w
    = (Raise TypeError,
       mkWorld (fs w1) (trace w1 ++ [EvCreateApplication "Pansharpening"])).
Proof.
  intros E Hms.
  destruct (processToArd_factor self ard_path w mosaic w1 E) as (-> & ->).
  unfold pleiades_fusion, spot_fusion, Dataset.getSuperimposedImage,
    Dataset.getPansharpenImage.
  unfold_M. rewrite Hms. split; reflexivity.
Qed.

(** X11. When the panchromatic mosaic is [None] while the multispectral
    one is a file, and the output of the profile's first fusion stage is
    not there yet, both methods raise [TypeError] before any engine
    execution of the fusion. *)
Theorem processToArd_pan_None (self : Dataset) (ard_path : string) (w : World)
    (mosaic : gmap string pyobj) (w1 : World) (ms : string) :
  fused_mosaics self w = (Ok (Some mosaic), w1) →
  mosaic !! "MS" = Some (PyStr ms) → mosaic !! "P" = Some PyNone →
  (output_name (pan_path_of self) "_MS_" "_MS_SUPER_" ms ∉ fs w1 →
     let run := Pleiades.processToArd self w in
     run.1 = Raise TypeError ∧ executions (trace run.2) = executions (trace w1))
  ∧ (output_name (pan_path_of self) "_MS_SUPER_" "_PAN_" ms ∉ fs w1 →
     let run := Spot.processToArd self ard_path w in
     run.1 = Raise TypeError ∧ executions (trace run.2) = executions (trace w1)).
Proof.
  intros E Hms Hpan.
  destruct (processToArd_factor self ard_path w mosaic w1 E) as (-> & ->).
  unfold pleiades_fusion, spot_fusion, Dataset.getSuperimposedImage,
    Dataset.getPansharpenImage, output_name.
  split; intros Hout; unfold_M; rewrite Hms; unfold_M;
    rewrite (bool_decide_eq_false_2 _ Hout);
    destruct (bool_decide _); unfold_M; rewrite Hpan; unfold_M;
    rewrite !executions_app, ?app_nil_r; split; reflexivity.
Qed.

End MissingMosaic.

Section MissingMosaicExamples.

Lemma processToArd_mosaic_None_witness :
  let self := Fixture.pleiades in
  let mosaic : gmap string pyobj :=
    <["P" := PyStr "/data/tmp/mosaic/P/IMG_PHR1A_P_001_MOSAIC_CAL.TIF"]>
      (<["MS" := PyNone]> ∅) in
  let w1 := (@fused_mosaics gap_collaborators self Fixture.w0).2 in
  @fused_mosaics gap_collaborators self Fixture.w0 = (Ok (Some mosaic), w1)
  ∧ mosaic !! "MS" = Some PyNone
  ∧ (@Pleiades.processToArd gap_collaborators self Fixture.w0).1 = Raise TypeError
  ∧ (@Spot.processToArd gap_collaborators self "/data/ard" Fixture.w0).1 = Raise TypeError.
Proof.
  intros self mosaic w1.
  assert (E : @fused_mosaics gap_collaborators self Fixture.w0 = (Ok (Some mosaic), w1))
    by (vm_compute; reflexivity).
  assert (Hms : mosaic !! "MS" = Some PyNone) by (vm_compute; reflexivity).
  destruct (@processToArd_mosaic_None gap_collaborators self "/data/ard" Fixture.w0
              mosaic w1 E Hms) as (EP & ES).
  rewrite EP, ES. auto.
Defined.

Lemma processToArd_pan_None_witness :
  let self := Fixture.pleiades_roi in
  let ms := "/data/tmp/roi/MS/IMG_PHR1A_MS_001_R1C1_CAL_ROI.TIF" in
  let mosaic : gmap string pyobj := <["P" := PyNone]> (<["MS" := PyStr ms]> ∅) in
  let w1 := (@fused_mosaics Fixture.collaborators self Fixture.w0).2 in
  @fused_mosaics Fixture.collaborators self Fixture.w0 = (Ok (Some mosaic), w1)
  ∧ mosaic !! "MS" = Some (PyStr ms) ∧ mosaic !! "P" = Some PyNone
  ∧ (output_name (pan_path_of self) "_MS_" "_MS_SUPER_" ms ∉ fs w1)
  ∧ (output_name (pan_path_of self) "_MS_SUPER_" "_PAN_" ms ∉ fs w1)
  ∧ (@Pleiades.processToArd Fixture.collaborators self Fixture.w0).1 = Raise TypeError
  ∧ (@Spot.processToArd Fixture.collaborators self "/data/ard" Fixture.w0).1
    = Raise TypeError.
Proof.
  intros self ms mosaic w1.
  assert (E : @fused_mosaics Fixture.collaborators self Fixture.w0 = (Ok (Some mosaic), w1))
    by (vm_compute; reflexivity).
  assert (Hms : mosaic !! "MS" = Some (PyStr ms)) by (vm_compute; reflexivity).
  assert (Hpan : mosaic !! "P" = Some PyNone) by (vm_compute; reflexivity).
  assert (H1 : output_name (pan_path_of self) "_MS_" "_MS_SUPER_" ms ∉ fs w1).
  { apply (bool_decide_eq_false_1 _). vm_compute. reflexivity. }
  assert (H2 : output_name (pan_path_of self) "_MS_SUPER_" "_PAN_" ms ∉ fs w1).
  { apply (bool_decide_eq_false_1 _). vm_compute. reflexivity. }
  destruct (@processToArd_pan_None Fixture.collaborators self "/data/ard" Fixture.w0
              mosaic w1 ms E Hms Hpan) as (HP & HS).
  destruct (HP H1) as (EP & _). destruct (HS H2) as (ES & _).
  auto 10.
Defined.

End MissingMosaicExamples.

(** ** The files of a completed run *)

Section Completed.
Context `{Collaborators}.

Lemma fusion_stage_files self st w p w' :
  engine_persists →
  (st = Superimpose (match st with Superimpose i _ => i | _ => ∅ end) (pan_path_of self)
   ∨ st = Pansharpen (match st with Pansharpen i _ => i | _ => ∅ end) (pan_path_of self)) →
  run_stage self st w = (Ok (Path (PyStr p)), w') →
  fs w ⊆ fs w' ∧ p ∈ fs w'
  ∧ ∃ ms, match st with
          | Superimpose i _ =>
              i !! "MS" = Some (PyStr ms)
              ∧ p = output_name (pan_path_of self) "_MS_" "_MS_SUPER_" ms
          | Pansharpen i _ =>
              i !! "MS" = Some (PyStr ms)
              ∧ p = output_name (pan_path_of self) "_MS_SUPER_" "_PAN_" ms
          | _ => False
          end.
Proof.
  intros HE Hst R.
  assert (Hp : has_output_path st = true) by (destruct Hst as [-> | ->]; reflexivity).
  destruct (stage_run self st w _ _ Hp HE R) as (Hh & Hsub & Hout).
  split; [exact Hsub|].
  destruct Hst as [Est|Est]; rewrite Est in Hh, Hout |- *;
    cbn [hit_result outputs] in Hh, Hout; unfold ms_output in Hout;
    cbn [getitem bind outcome_monad] in Hh;
    destruct (_ !! "MS") as [[| |ms]|]; cbn in Hh; try discriminate;
    injection Hh as <-;
    (split; [apply Hout, list_elem_of_singleton; reflexivity|]);
    exists ms; split; reflexivity.
Qed.

(** X12. With an engine that leaves its output in place, a run of
    [Pleiades.processToArd] that returns, returns two files that exist:
    the superimposed multispectral image, named after the multispectral
    mosaic with [_MS_] replaced by [_MS_SUPER_], and the pansharpened
    image, named after the superimposed one with [_MS_SUPER_] replaced
    by [_PAN_], both in [<scene dir>/tmp/pan]; and no file present before
    the fusion is lost. *)
Theorem Pleiades_processToArd_files (self : Dataset) (w : World)
    (mosaic : gmap string pyobj) (w1 : World) (r : pyobj * pyobj) (w' : World) :
  engine_persists →
  fused_mosaics self w = (Ok (Some mosaic), w1) →
  Pleiades.processToArd self w = (Ok r, w') →
  ∃ ms,
    mosaic !! "MS" = Some (PyStr ms)
    ∧ let super := output_name (pan_path_of self) "_MS_" "_MS_SUPER_" ms in
      let pan := output_name (pan_path_of self) "_MS_SUPER_" "_PAN_" super in
      r = (PyStr pan, PyStr super)
      ∧ super ∈ fs w' ∧ pan ∈ fs w' ∧ fs w1 ⊆ fs w'.
Proof.
  intros HE E R.
  destruct (processToArd_factor self "" w mosaic w1 E) as (EP & _).
  rewrite EP in R. unfold pleiades_fusion in R.
  apply bind_inv in R as (super & w2 & Es & R).
  apply bind_inv in R as (pan & w3 & Ep & R).
  cbn in R. injection R as <- <-.
  destruct (fusion_stage_files self (Superimpose mosaic (pan_path_of self)) w1 super w2 HE)
    as (Hsub1 & Hin1 & ms & Hms & ->); [left; reflexivity| |].
  { cbn [run_stage]. rewrite (bind_ok _ _ _ _ _ Es). reflexivity. }
  destruct (fusion_stage_files self
              (Pansharpen (<["MS" := PyStr (output_name (pan_path_of self)
                                              "_MS_" "_MS_SUPER_" ms)]> mosaic)
                 (pan_path_of self)) w2 pan w3 HE)
    as (Hsub2 & Hin2 & ms' & Hms' & ->); [right; reflexivity| |].
  { cbn [run_stage]. rewrite (bind_ok _ _ _ _ _ Ep). reflexivity. }
  rewrite lookup_insert_eq in Hms'. injection Hms' as <-.
  exists ms. split; [exact Hms|]. cbv zeta. split; [reflexivity|].
  split; [apply Hsub2, Hin1|]. split; [exact Hin2|].
  intros x Hx. apply Hsub2, Hsub1, Hx.
Qed.

End Completed.

Section CompletedExamples.
#[local] Existing Instance Fixture.collaborators.

Lemma Pleiades_processToArd_files_witness :
  let self := Fixture.pleiades in
  let mosaic : gmap string pyobj :=
    <["P" := PyStr "/data/tmp/mosaic/P/IMG_PHR1A_P_001_MOSAIC_CAL.TIF"]>
      (<["MS" := PyStr "/data/tmp/cal/MS/IMG_PHR1A_MS_001_R1C1_CAL.TIF"]> ∅) in
  let w1 := (fused_mosaics self Fixture.w0).2 in
  let run := Pleiades.processToArd self Fixture.w0 in
  let r := (PyStr "/data/tmp/pan/IMG_PHR1A_PAN_001_R1C1_CAL.TIF",
            PyStr "/data/tmp/pan/IMG_PHR1A_MS_SUPER_001_R1C1_CAL.TIF") in
  engine_persists
  ∧ fused_mosaics self Fixture.w0 = (Ok (Some mosaic), w1)
  ∧ run = (Ok r, run.2)
  ∧ ∃ ms, mosaic !! "MS" = Some (PyStr ms)
          ∧ "/data/tmp/pan/IMG_PHR1A_MS_SUPER_001_R1C1_CAL.TIF" ∈ fs run.2.
Proof.
  intros self mosaic w1 run r.
  assert (E : fused_mosaics self Fixture.w0 = (Ok (Some mosaic), w1))
    by (vm_compute; reflexivity).
  assert (R : run = (Ok r, run.2)).
  { assert (H1 : run.1 = Ok r) by (vm_compute; reflexivity).
    rewrite <- H1. apply surjective_pairing. }
  destruct (Pleiades_processToArd_files self Fixture.w0 mosaic w1 r run.2
              engine_persists_fixture E R) as (ms & Hms & Hr & Hsuper & _).
  split; [exact engine_persists_fixture|]. split; [exact E|]. split; [exact R|].
  exists ms. split; [exact Hms|].
  injection Hr as _ Hs. rewrite Hs. exact Hsuper.
Defined.

End CompletedExamples.

(** ** A construction that fails *)

Lemma getDateTimeString_raises scene e :
  Dataset.getDateTimeString scene = Raise e → e = AttributeError ∨ e = ValueError.
Proof.
  unfold Dataset.getDateTimeString, Dataset.getDateTime.
  destruct (Re.search _ _) as [m|]; cbn [bind ret outcome_monad];
    [|intros [= <-]; auto].
  unfold datetime.strptime.
  destruct (datetime.match_directives _ _) as [[texts [|c rest]]|];
    cbn [bind ret outcome_monad]; try (intros [= <-]; auto).
  unfold datetime.make. destruct (_ && _); cbn [bind ret outcome_monad];
    [discriminate|intros [= <-]; auto].
Qed.

(** The base constructor, once the time stamp is read: the log
    directory and the log file are there. *)
Lemma Dataset_init_log scene kw w dts :
  Dataset.getDateTimeString scene = Ok dts →
  let log_path := default "D:\data\log" (kw_log kw) in
  let log_pathname :=
    os_path.join log_path (Str.replace ".zip" ".log" (os_path.basename scene)) in
  ∃ self w', Dataset.__init__ scene kw w = (Ok self, w')
    ∧ log_path ∈ fs w' ∧ log_pathname ∈ fs w'
    ∧ last (trace w') = Some (EvOpen log_pathname)
    ∧ fs w ⊆ fs w'.
Proof.
  intros E log_path log_pathname. unfold Dataset.__init__. rewrite E. unfold_M.
  fold log_path. fold log_pathname.
  destruct (bool_decide (log_path ∈ fs w)) eqn:Hd; unfold_M;
    eexists _, _; (split; [reflexivity|]); cbn [fs trace]; rewrite last_snoc.
  - apply bool_decide_eq_true_1 in Hd.
    split; [apply elem_of_union_l, Hd|].
    split; [apply elem_of_union_r, elem_of_singleton; reflexivity|].
    split; [reflexivity|]. intros x Hx. apply elem_of_union_l, Hx.
  - split.
    { apply elem_of_union_l, elem_of_union_r, elem_of_list_to_set, elem_of_cons.
      left. reflexivity. }
    split; [apply elem_of_union_r, elem_of_singleton; reflexivity|].
    split; [reflexivity|]. intros x Hx. apply elem_of_union_l, elem_of_union_l, Hx.
Qed.

(** X13. How a construction fails.  A name without a readable time stamp
    fails first, with [AttributeError] (no token) or [ValueError] (a token
    that is no date), and nothing has been touched.  A name with a time
    stamp but without a platform code of the profile's registry fails with
    [KeyError] only after the base constructor has run: the log directory
    and the log file have been created and the file is left open. *)
Theorem construction_failure (scene : string) (kw : kwargs) (w : World) :
  let log_path := default "D:\data\log" (kw_log kw) in
  let log_pathname :=
    os_path.join log_path (Str.replace ".zip" ".log" (os_path.basename scene)) in
  (∀ e, Dataset.getDateTimeString scene = Raise e →
     (e = AttributeError ∨ e = ValueError)
     ∧ Pleiades.__init__ scene kw w = (Raise e, w)
     ∧ Spot.__init__ scene kw w = (Raise e, w))
  ∧ (∀ dts, Dataset.getDateTimeString scene = Ok dts →
       (registry_value Pleiades.norad_id (Dataset.getPlatform scene Re.pleiades_pattern)
        = None →
        ∃ w', Pleiades.__init__ scene kw w = (Raise KeyError, w')
              ∧ log_path ∈ fs w' ∧ log_pathname ∈ fs w'
              ∧ last (trace w') = Some (EvOpen log_pathname))
       ∧ (registry_value Spot.norad_id (Dataset.getPlatform scene Re.spot_pattern)
          = None →
          ∃ w', Spot.__init__ scene kw w = (Raise KeyError, w')
                ∧ log_path ∈ fs w' ∧ log_pathname ∈ fs w'
                ∧ last (trace w') = Some (EvOpen log_pathname))).
Proof.
  intros log_path log_pathname. split.
  - intros e E. split; [exact (getDateTimeString_raises scene e E)|].
    pose proof (Dataset_init_run scene kw w) as Hbase. rewrite E in Hbase.
    unfold Pleiades.__init__, Spot.__init__. rewrite !bind_run, Hbase. auto.
  - intros dts E.
    destruct (Dataset_init_log scene kw w dts E)
      as (self & w' & Hrun & Hdir & Hlog & Hopen & _).
    unfold Pleiades.__init__, Spot.__init__. rewrite !bind_run, Hrun.
    split; intros Hv; exists w'; rewrite bind_run, lift_run, getitem_registry, Hv; auto.
Qed.

Lemma construction_failure_witness :
  Dataset.getDateTimeString "/data/IMG_PHR1A_MS.zip" = Raise AttributeError
  ∧ Pleiades.__init__ "/data/IMG_PHR1A_MS.zip" Fixture.no_kwargs Fixture.w0
    = (Raise AttributeError, Fixture.w0)
  ∧ Dataset.getDateTimeString Fixture.pleiades_scene = Ok "20200101_123045"
  ∧ registry_value Spot.norad_id (Dataset.getPlatform Fixture.pleiades_scene Re.spot_pattern)
    = None
  ∧ ∃ w', Spot.__init__ Fixture.pleiades_scene Fixture.no_kwargs Fixture.w0
          = (Raise KeyError, w')
          ∧ "/log/DS_PHR1A_202001011230451_SEN.log" ∈ fs w'.
Proof.
  assert (E1 : Dataset.getDateTimeString "/data/IMG_PHR1A_MS.zip" = Raise AttributeError)
    by (vm_compute; reflexivity).
  assert (E2 : Dataset.getDateTimeString Fixture.pleiades_scene = Ok "20200101_123045")
    by (vm_compute; reflexivity).
  assert (Hv : registry_value Spot.norad_id
                 (Dataset.getPlatform Fixture.pleiades_scene Re.spot_pattern) = None)
    by (vm_compute; reflexivity).
  destruct (construction_failure "/data/IMG_PHR1A_MS.zip" Fixture.no_kwargs Fixture.w0)
    as (Hfail & _).
  destruct (Hfail _ E1) as (_ & EP & _).
  destruct (construction_failure Fixture.pleiades_scene Fixture.no_kwargs Fixture.w0)
    as (_ & Hkey).
  destruct (Hkey _ E2) as (_ & HS).
  destruct (HS Hv) as (w' & ES & _ & Hlog & _).
  repeat split; try assumption. exists w'. split; [exact ES|exact Hlog].
Defined.

(** ** The calibration of a list of tiles *)

Section Calibration.
Context `{Collaborators}.



End Calibration.
